(** * Coinbase dollar-cost-averaging order placement

    A shallow embedding of [dollar_cost_average.py]: the class [CoinbaseDCA]
    with [create_order], [list_products], [get_product], [_request],
    [_get_currency_sigfigs] and [_generate_client_order_id], and the entry
    points [load_api_credentials], [execute_dca_buy] and [lambda_handler].

    Python floats are IEEE binary64 numbers, here Rocq's primitive floats.
    The interpreter's own operations on them ([round], [str], [int],
    [math.floor], true division) are written out on the exact value of the
    float.  What the program takes from the platform (libm's [log10], the
    parser behind [float(str)], HMAC-SHA256) is the interface [Platform].
    The network, the clock and the random source are inputs carried by the
    [World]; the requests sent and the lines printed are its outputs.  The
    credential files and the environment variables are those of the [Host].
    [assert] statements are executed (the interpreter runs without [-O]),
    and strings are sequences of characters with codes below 256. *)

From Stdlib Require Import ZArith List String Ascii Bool Lia Floats DecimalString.
Import ListNotations.

#[local] Set Warnings "-inexact-float,-register-all".
#[local] Open Scope string_scope.
#[local] Open Scope Z_scope.

(** ** Exceptions *)

(** The [assert] statements of the source, by what they check. *)
Inductive assertion : Set :=
  | pair_listed          (* line 63 *)
  | quote_min            (* line 67 *)
  | quote_max            (* line 68 *)
  | base_min             (* line 82 *)
  | base_max             (* line 83 *)
  | increment_positive.  (* line 139 *)

Definition assertion_line (a : assertion) : nat :=
  match a with
  | pair_listed => 63
  | quote_min => 67
  | quote_max => 68
  | base_min => 82
  | base_max => 83
  | increment_positive => 139
  end%nat.

(** The names the design document gives to the failures of these checks. *)
Inductive spec_error : Set :=
  | UnsupportedPairError
  | SizeOutOfBoundsError
  | InvalidIncrementError.

Definition spec_error_of (a : assertion) : spec_error :=
  match a with
  | pair_listed => UnsupportedPairError
  | quote_min | quote_max | base_min | base_max => SizeOutOfBoundsError
  | increment_positive => InvalidIncrementError
  end.

Inductive exn : Set :=
  | AssertionError (a : assertion)
  | TypeError
  | KeyError
  | ValueError
  | OverflowError
  | ZeroDivisionError
  | OSError
  | JSONDecodeError.

Inductive result (A : Type) : Type :=
  | Ok (a : A)
  | Err (e : exn).
Arguments Ok {A} a.
Arguments Err {A} e.

Definition rbind {A B} (r : result A) (k : A -> result B) : result B :=
  match r with
  | Ok a => k a
  | Err e => Err e
  end.

Notation "x <~ r ;; k" := (rbind r (fun x => k))
  (at level 61, r at next level, right associativity).

(** ** Python values, as [json.loads] builds them *)

Inductive pyval : Type :=
  | PNone
  | PBool (b : bool)
  | PInt (z : Z)
  | PFloat (f : float)
  | PStr (s : string)
  | PList (l : list pyval)
  | PDict (d : list (string * pyval)).

Fixpoint assoc (k : string) (d : list (string * pyval)) : option pyval :=
  match d with
  | [] => None
  | (k', v) :: d' => if String.eqb k k' then Some v else assoc k d'
  end.

(** [v[k]] for a string key [k]. *)
Definition py_getitem (v : pyval) (k : string) : result pyval :=
  match v with
  | PDict d => match assoc k d with
               | Some x => Ok x
               | None => Err KeyError
               end
  | _ => Err TypeError
  end.

(** [for x in v]: the items the loop visits. *)
Definition py_iter (v : pyval) : result (list pyval) :=
  match v with
  | PList l => Ok l
  | PDict d => Ok (map (fun kv => PStr (fst kv)) d)
  | PStr s => Ok (map (fun c => PStr (String c EmptyString)) (list_ascii_of_string s))
  | _ => Err TypeError
  end.

(** [s in l] for a string [s] and a list [l]. *)
Definition py_in (s : string) (l : list pyval) : bool :=
  existsb (fun v => match v with
                    | PStr s' => String.eqb s s'
                    | _ => false
                    end) l.

(** ** Floats *)

(** [n * b^k] when [k] is not negative, [n] otherwise: a ratio
    [scale n b k / scale d b (-k)] is [n/d * b^k] for either sign of [k]. *)
Definition scale (n b k : Z) : Z := if 0 <=? k then n * b ^ k else n.

Definition round_half_even (n d : Z) : Z :=
  let q := n / d in
  match 2 * (n mod d) ?= d with
  | Lt => q
  | Gt => q + 1
  | Eq => if Z.even q then q else q + 1
  end.

Definition floor_log2_ratio (num den : Z) : Z :=
  let d := Z.log2 num - Z.log2 den in
  if scale den 2 d <=? scale num 2 (- d) then d else d - 1.

(** The binary64 number nearest to [num/den] (ties to even), with the sign
    [neg]; infinite when [num/den] is out of range. *)
Definition nearest_float (neg : bool) (num den : Z) : float :=
  let ex := Z.max (floor_log2_ratio num den - 52) (-1074) in
  match round_half_even (scale num 2 (- ex)) (scale den 2 ex) with
  | Zpos m => SF2Prim (S754_finite neg m ex)
  | _ => if neg then neg_zero else zero
  end.

(** [math.floor(x)] *)
Definition math_floor (x : float) : result Z :=
  match Prim2SF x with
  | S754_zero _ => Ok 0
  | S754_finite neg m e =>
      Ok (scale (if neg then Zneg m else Zpos m) 2 e / scale 1 2 (- e))
  | S754_infinity _ => Err OverflowError
  | S754_nan => Err ValueError
  end.

(** [int(x)] *)
Definition py_int (x : float) : result Z :=
  match Prim2SF x with
  | S754_zero _ => Ok 0
  | S754_finite neg m e =>
      Ok (Z.quot (scale (if neg then Zneg m else Zpos m) 2 e) (scale 1 2 (- e)))
  | S754_infinity _ => Err OverflowError
  | S754_nan => Err ValueError
  end.

(** [x / y] *)
Definition py_truediv (x y : float) : result float :=
  if (y =? 0)%float then Err ZeroDivisionError else Ok (x / y)%float.

(** [round(x, ndigits)]: the decimal with [ndigits] places nearest to the
    exact value of [x] (ties to even), read back as a float. *)
Definition double_round (neg : bool) (m : positive) (e ndigits : Z) : result float :=
  let num := scale (scale (Zpos m) 2 e) 10 ndigits in
  let den := scale (scale 1 2 (- e)) 10 (- ndigits) in
  let k := round_half_even num den in
  let rounded := nearest_float neg (scale k 10 (- ndigits)) (scale 1 10 ndigits) in
  if is_infinity rounded then Err OverflowError else Ok rounded.

Definition NDIGITS_MAX : Z := 323.
Definition NDIGITS_MIN : Z := -308.

Definition py_round (x : float) (ndigits : Z) : result float :=
  match Prim2SF x with
  | S754_finite neg m e =>
      if NDIGITS_MAX <? ndigits then Ok x
      else if ndigits <? NDIGITS_MIN then Ok (zero * x)%float
      else double_round neg m e ndigits
  | _ => Ok x
  end.

(** [str(z)] for an integer. *)
Definition str_int (z : Z) : string := NilZero.string_of_int (Z.to_int z).

Fixpoint zeros (n : nat) : string :=
  match n with
  | O => ""
  | S n' => String "0" (zeros n')
  end.

Fixpoint strip_zeros (s : list ascii) : list ascii :=
  match s with
  | "0"%char :: s' => strip_zeros s'
  | _ => s
  end.

(** The first [t] from [t] on with [num/den < 10^t]. *)
Fixpoint decpt_search (fuel : nat) (num den t : Z) : Z :=
  match fuel with
  | O => t
  | S fuel' =>
      if scale num 10 (- t) <? scale den 10 t then t
      else decpt_search fuel' num den (t + 1)
  end.

Definition decpt_of (num den : Z) : Z :=
  decpt_search 8 num den (floor_log2_ratio num den * 1233 / 4096 - 1).

(** The decimals of [d] digits on either side of [num/den] that read back as
    [x], the nearer one first. *)
Definition candidates (x : float) (num den decpt d : Z) : list Z :=
  let p := decpt - d in
  let n := scale num 10 (- p) in
  let dd := scale den 10 p in
  let lo := n / dd in
  let hi := lo + 1 in
  let ok k := Leibniz.eqb (nearest_float false (scale k 10 p) (scale 1 10 (- p))) x in
  let lo_first := match 2 * (n mod dd) ?= dd with
                  | Lt => true
                  | Gt => false
                  | Eq => Z.even lo
                  end in
  filter ok (if lo_first then [lo; hi] else [hi; lo]).

Fixpoint shortest (fuel : nat) (x : float) (num den decpt d : Z) : Z * Z :=
  match fuel with
  | O => (0, 0)
  | S fuel' =>
      match candidates x num den decpt d with
      | k :: _ => (k, decpt - d)
      | [] => shortest fuel' x num den decpt (d + 1)
      end
  end.

Definition format_short (digits : string) (decpt : Z) : string :=
  let n := Z.of_nat (String.length digits) in
  if (decpt <=? -4) || (16 <? decpt) then
    let e := decpt - 1 in
    let mant := match digits with
                | String c (String _ _ as rest) => String c (String "." rest)
                | _ => digits
                end in
    mant ++ "e" ++ (if e <? 0 then "-" else "+")
         ++ (if Z.abs e <? 10 then "0" else "") ++ str_int (Z.abs e)
  else if decpt <=? 0 then
    "0." ++ zeros (Z.to_nat (- decpt)) ++ digits
  else if decpt <? n then
    substring 0 (Z.to_nat decpt) digits ++ "."
      ++ substring (Z.to_nat decpt) (Z.to_nat (n - decpt)) digits
  else
    digits ++ zeros (Z.to_nat (decpt - n)) ++ ".0".

(** [str(x)] for a float: the shortest decimal that reads back as [x]. *)
Definition str_float (x : float) : string :=
  match Prim2SF x with
  | S754_nan => "nan"
  | S754_infinity neg => if neg then "-inf" else "inf"
  | S754_zero neg => if neg then "-0.0" else "0.0"
  | S754_finite neg m e =>
      let num := scale (Zpos m) 2 e in
      let den := scale 1 2 (- e) in
      let '(k, p) := shortest 17 (abs x) num den (decpt_of num den) 1 in
      let ds := str_int k in
      let digits := string_of_list_ascii
                      (rev (strip_zeros (rev (list_ascii_of_string ds)))) in
      (if neg then "-" else "")
        ++ format_short digits (Z.of_nat (String.length ds) + p)
  end.

(** ** [json.dumps] *)

Definition hex_digit (n : Z) : ascii :=
  match n with
  | 0 => "0" | 1 => "1" | 2 => "2" | 3 => "3" | 4 => "4" | 5 => "5"
  | 6 => "6" | 7 => "7" | 8 => "8" | 9 => "9" | 10 => "a" | 11 => "b"
  | 12 => "c" | 13 => "d" | 14 => "e" | _ => "f"
  end%char.

(** The [n] lowest hexadecimal digits of [z], highest first. *)
Fixpoint hex (n : nat) (z : Z) : string :=
  match n with
  | O => ""
  | S n' => hex n' (Z.shiftr z 4) ++ String (hex_digit (Z.land z 15)) ""
  end.

Definition quote : ascii := "034"%char.
Definition backslash : ascii := "092"%char.

Definition escape_char (c : ascii) : string :=
  let n := Z.of_nat (nat_of_ascii c) in
  if n =? 34 then String backslash (String quote "")
  else if n =? 92 then String backslash (String backslash "")
  else if n =? 8 then String backslash "b"
  else if n =? 12 then String backslash "f"
  else if n =? 10 then String backslash "n"
  else if n =? 13 then String backslash "r"
  else if n =? 9 then String backslash "t"
  else if (32 <=? n) && (n <=? 126) then String c ""
  else String backslash ("u" ++ hex 4 n).

Fixpoint escape (s : string) : string :=
  match s with
  | EmptyString => ""
  | String c s' => escape_char c ++ escape s'
  end.

Definition encode_basestring_ascii (s : string) : string :=
  String quote (escape s ++ String quote "").

Definition float_json (f : float) : string :=
  match Prim2SF f with
  | S754_nan => "NaN"
  | S754_infinity neg => if neg then "-Infinity" else "Infinity"
  | _ => str_float f
  end.

Fixpoint join (sep : string) (l : list string) : string :=
  match l with
  | [] => ""
  | [x] => x
  | x :: l' => x ++ sep ++ join sep l'
  end.

Fixpoint json_dumps (v : pyval) : string :=
  match v with
  | PNone => "null"
  | PBool b => if b then "true" else "false"
  | PInt z => str_int z
  | PFloat f => float_json f
  | PStr s => encode_basestring_ascii s
  | PList l => "[" ++ join ", " (map json_dumps l) ++ "]"
  | PDict d =>
      "{" ++ join ", " (map (fun kv => encode_basestring_ascii (fst kv)
                                         ++ ": " ++ json_dumps (snd kv)) d)
          ++ "}"
  end.

(** ** [uuid.uuid4] *)

(** [uuid.UUID(bytes=b, version=4).int], for the 16 random bytes [b] read as
    a big-endian integer [r]. *)
Definition uuid4_int (r : Z) : Z :=
  let i := Z.land r (Z.ones 128) in
  let i := Z.land i (Z.lnot (Z.shiftl 0xc000 48)) in
  let i := Z.lor i (Z.shiftl 0x8000 48) in
  let i := Z.land i (Z.lnot (Z.shiftl 0xf000 64)) in
  Z.lor i (Z.shiftl 4 76).

(** [str(u)] for a UUID [u] with [u.int = i]. *)
Definition str_uuid (i : Z) : string :=
  let h := hex 32 i in
  substring 0 8 h ++ "-" ++ substring 8 4 h ++ "-" ++ substring 12 4 h
    ++ "-" ++ substring 16 4 h ++ "-" ++ substring 20 12 h.

(** ** The platform *)

(** What the program calls and neither it nor the interpreter defines:
    [math.log10] of the C library, the decimal parser of [float(s)]
    ([None] where it raises [ValueError]) and
    [hmac.new(key, msg, hashlib.sha256).hexdigest()]. *)
Class Platform : Type := {
  math_log10 : float -> float;
  str_to_float : string -> option float;
  hmac_sha256_hexdigest : string -> string -> string
}.

(** ** The world *)

Record HTTPRequest : Type := {
  req_method : string;
  req_url : string;
  req_body : string;
  req_headers : list (string * string)
}.

(** What [conn.request; conn.getresponse; res.read] come to: a failure of the
    connection (the exception that [http.client] raises is written
    [OSError]), or a status and a body.  The body is kept as what
    [json.loads] makes of it, [None] where it raises. *)
Inductive reply : Type :=
  | NoReply
  | Reply (status : Z) (data : option pyval).

Record World : Type := {
  clock : nat -> float;     (* the successive values of [time.time()] *)
  clock_reads : nat;
  urandom : nat -> Z;       (* the successive values of [os.urandom(16)] *)
  urandom_reads : nat;
  server : nat -> reply;    (* the reply to the request sent after [n] others *)
  sent : list HTTPRequest;  (* the requests sent so far, oldest first *)
  stdout : list string      (* the lines printed so far, oldest first *)
}.

Definition M (A : Type) : Type := World -> result A * World.

Definition ret {A} (a : A) : M A := fun w => (Ok a, w).

Definition raise {A} (e : exn) : M A := fun w => (Err e, w).

Definition bind {A B} (m : M A) (k : A -> M B) : M B :=
  fun w => match m w with
           | (Ok a, w') => k a w'
           | (Err e, w') => (Err e, w')
           end.

Definition lift {A} (r : result A) : M A := fun w => (r, w).

Notation "x <- m ;; k" := (bind m (fun x => k))
  (at level 61, m at next level, right associativity).
Notation "m ;;; k" := (bind m (fun _ => k))
  (at level 61, right associativity).

Definition py_assert (a : assertion) (b : bool) : M unit :=
  if b then ret tt else raise (AssertionError a).

Definition tick (w : World) : World :=
  {| clock := clock w; clock_reads := S (clock_reads w);
     urandom := urandom w; urandom_reads := urandom_reads w;
     server := server w; sent := sent w; stdout := stdout w |}.

Definition draw (w : World) : World :=
  {| clock := clock w; clock_reads := clock_reads w;
     urandom := urandom w; urandom_reads := S (urandom_reads w);
     server := server w; sent := sent w; stdout := stdout w |}.

Definition send (r : HTTPRequest) (w : World) : World :=
  {| clock := clock w; clock_reads := clock_reads w;
     urandom := urandom w; urandom_reads := urandom_reads w;
     server := server w; sent := (sent w ++ [r])%list; stdout := stdout w |}.

Definition emit (line : string) (w : World) : World :=
  {| clock := clock w; clock_reads := clock_reads w;
     urandom := urandom w; urandom_reads := urandom_reads w;
     server := server w; sent := sent w; stdout := (stdout w ++ [line])%list |}.

(** [time.time()] *)
Definition time_time : M float :=
  fun w => (Ok (clock w (clock_reads w)), tick w).

(** [os.urandom(16)], as a big-endian integer *)
Definition os_urandom16 : M Z :=
  fun w => (Ok (urandom w (urandom_reads w)), draw w).

Definition print (line : string) : M unit :=
  fun w => (Ok tt, emit line w).

(** [conn.request(...); res = conn.getresponse(); data = res.read()] *)
Definition http_exchange (r : HTTPRequest) : M (Z * option pyval) :=
  fun w =>
    match server w (List.length (sent w)) with
    | NoReply => (Err OSError, send r w)
    | Reply status data => (Ok (status, data), send r w)
    end.

Definition json_loads (data : option pyval) : result pyval :=
  match data with
  | Some v => Ok v
  | None => Err JSONDecodeError
  end.

(** ** The program *)

Inductive Side : Set := BUY | SELL.

Definition Side_value (s : Side) : string :=
  match s with
  | BUY => "BUY"
  | SELL => "SELL"
  end.

Inductive Pair : Set := BTC_USD | BTC_USDC | ETH_USD | ETH_USDC.

Definition Pair_value (p : Pair) : string :=
  match p with
  | BTC_USD => "BTC-USD"
  | BTC_USDC => "BTC-USDC"
  | ETH_USD => "ETH-USD"
  | ETH_USDC => "ETH-USDC"
  end.

Inductive Resource : Set := ACCOUNTS | ORDERS | PRODUCTS.

Definition Resource_value (r : Resource) : string :=
  match r with
  | ACCOUNTS => "accounts"
  | ORDERS => "orders"
  | PRODUCTS => "products"
  end.

Inductive HTTPMethod : Set := GET | POST.

Definition HTTPMethod_value (m : HTTPMethod) : string :=
  match m with
  | GET => "GET"
  | POST => "POST"
  end.

Record CoinbaseApiCredentials : Type := {
  key : string;
  secret : string
}.

Record CoinbaseDCA : Type := {
  creds : CoinbaseApiCredentials
}.

Definition BASE_ENDPOINT : string := "/api/v3/brokerage/".
Definition PRICE_DELTA : float := 0.002%float.
Definition UNAUTHORIZED : Z := 401.

Section Program.

Context {platform : Platform}.

(** [float(v)] *)
Definition py_float (v : pyval) : result float :=
  match v with
  | PFloat f => Ok f
  | PInt z =>
      let f := nearest_float (z <? 0) (Z.abs z) 1 in
      if is_infinity f then Err OverflowError else Ok f
  | PBool b => Ok (if b then 1 else 0)%float
  | PStr s =>
      match str_to_float s with
      | Some f => Ok f
      | None => Err ValueError
      end
  | _ => Err TypeError
  end.

(** [float(v[k])] *)
Definition float_item (v : pyval) (k : string) : result float :=
  x <~ py_getitem v k ;;
  py_float x.

Definition _get_currency_sigfigs (currency_increment : float) : result Z :=
  if (0 <? currency_increment)%float then
    n <~ math_floor (math_log10 currency_increment) ;;
    Ok (- n)
  else Err (AssertionError increment_positive).

Definition _generate_client_order_id : M Z :=
  r <- os_urandom16 ;;
  ret (uuid4_int r).

Definition _request (self : CoinbaseDCA) (method : HTTPMethod)
    (resource : string) (body : string) : M pyval :=
  now <- time_time ;;
  seconds <- lift (py_int now) ;;
  let timestamp := str_int seconds in
  let endpoint := BASE_ENDPOINT ++ resource in
  let message := timestamp ++ HTTPMethod_value method ++ endpoint ++ body in
  let signature := hmac_sha256_hexdigest (secret (creds self)) message in
  let headers := [("accept", "application/json");
                  ("CB-ACCESS-KEY", key (creds self));
                  ("CB-ACCESS-SIGN", signature);
                  ("CB-ACCESS-TIMESTAMP", timestamp)] in
  res <- http_exchange {| req_method := HTTPMethod_value method;
                          req_url := endpoint;
                          req_body := body;
                          req_headers := headers |} ;;
  if fst res =? UNAUTHORIZED then
    print "Error: Unauthorized. Please check your API key and secret." ;;;
    ret PNone
  else lift (json_loads (snd res)).

Fixpoint product_ids (products : list pyval) : result (list pyval) :=
  match products with
  | [] => Ok []
  | product :: rest =>
      id <~ py_getitem product "product_id" ;;
      ids <~ product_ids rest ;;
      Ok (id :: ids)
  end.

Definition list_products (self : CoinbaseDCA) : M (list pyval) :=
  response <- _request self GET (Resource_value PRODUCTS) "" ;;
  lift (products <~ py_getitem response "products" ;;
        items <~ py_iter products ;;
        product_ids items).

Definition get_product (self : CoinbaseDCA) (pair : Pair) : M pyval :=
  let method := GET in
  let resource := join "/" [Resource_value PRODUCTS; Pair_value pair] in
  _request self method resource "".

(** Lines 71 to 75 of [create_order]. *)
Definition price_adjusted (side : Side) (product : pyval) : result float :=
  quote_increment <~ float_item product "quote_increment" ;;
  quote_max_digits <~ _get_currency_sigfigs quote_increment ;;
  price <~ float_item product "price" ;;
  let price_factor :=
    (1.0 + (match side with BUY => - PRICE_DELTA | SELL => PRICE_DELTA end))%float in
  py_round (price * price_factor)%float quote_max_digits.

(** Lines 78 to 80 of [create_order]. *)
Definition base_size_rounded (quote_size price_adjusted : float)
    (product : pyval) : result float :=
  base_increment <~ float_item product "base_increment" ;;
  base_max_digits <~ _get_currency_sigfigs base_increment ;;
  quotient <~ py_truediv quote_size price_adjusted ;;
  py_round quotient base_max_digits.

(** Lines 87 to 98 of [create_order]. *)
Definition order_body (side : Side) (pair : Pair) (client_order_id : Z)
    (price_adjusted base_size_rounded : float) : pyval :=
  PDict [("client_order_id", PStr (str_uuid client_order_id));
         ("side", PStr (Side_value side));
         ("product_id", PStr (Pair_value pair));
         ("order_configuration",
          PDict [("limit_limit_gtc",
                  PDict [("post_only", PBool false);
                         ("limit_price", PStr (str_float price_adjusted));
                         ("base_size", PStr (str_float base_size_rounded))])])].

Definition create_order (self : CoinbaseDCA) (side : Side) (pair : Pair)
    (quote_size : float) : M pyval :=
  products <- list_products self ;;
  py_assert pair_listed (py_in (Pair_value pair) products) ;;;
  product <- get_product self pair ;;
  quote_min_size <- lift (float_item product "quote_min_size") ;;
  py_assert quote_min (quote_min_size <=? quote_size)%float ;;;
  quote_max_size <- lift (float_item product "quote_max_size") ;;
  py_assert quote_max (quote_size <=? quote_max_size)%float ;;;
  price_adjusted <- lift (price_adjusted side product) ;;
  base_size_rounded <- lift (base_size_rounded quote_size price_adjusted product) ;;
  base_min_size <- lift (float_item product "base_min_size") ;;
  py_assert base_min (base_min_size <=? base_size_rounded)%float ;;;
  base_max_size <- lift (float_item product "base_max_size") ;;
  py_assert base_max (base_size_rounded <=? base_max_size)%float ;;;
  let method := POST in
  let resource := ORDERS in
  client_order_id <- _generate_client_order_id ;;
  let body := json_dumps (order_body side pair client_order_id
                            price_adjusted base_size_rounded) in
  _request self method (Resource_value resource) body.

End Program.

(** ** [str.splitlines], [repr] and [str] *)

Definition code (c : ascii) : Z := Z.of_nat (nat_of_ascii c).

(** The characters at which [splitlines] cuts. *)
Definition line_break (c : ascii) : bool :=
  let n := code c in
  ((10 <=? n) && (n <=? 13)) || ((28 <=? n) && (n <=? 30)) || (n =? 133).

(** The lines of [s]; [line] holds the characters of the current line, last
    first, and [after_cr] tells that the character before was a carriage
    return, which a line feed belongs to. *)
Fixpoint splitlines_from (after_cr : bool) (line : list ascii) (s : string)
  : list string :=
  match s with
  | EmptyString =>
      match line with
      | [] => []
      | _ => [string_of_list_ascii (rev line)]
      end
  | String c s' =>
      if after_cr && (code c =? 10) then splitlines_from false line s'
      else if line_break c then
        string_of_list_ascii (rev line) :: splitlines_from (code c =? 13) [] s'
      else splitlines_from false (c :: line) s'
  end.

(** [s.splitlines()] *)
Definition splitlines (s : string) : list string := splitlines_from false [] s.

Definition printable (c : ascii) : bool :=
  let n := code c in
  ((32 <=? n) && (n <=? 126)) || ((161 <=? n) && negb (n =? 173)).

Fixpoint contains (c : ascii) (s : string) : bool :=
  match s with
  | EmptyString => false
  | String c' s' => Ascii.eqb c c' || contains c s'
  end.

Definition apostrophe : ascii := "039"%char.

Definition repr_char (q c : ascii) : string :=
  let n := code c in
  if Ascii.eqb c q || (n =? 92) then String backslash (String c "")
  else if n =? 9 then String backslash "t"
  else if n =? 10 then String backslash "n"
  else if n =? 13 then String backslash "r"
  else if printable c then String c ""
  else String backslash ("x" ++ hex 2 n).

Fixpoint repr_chars (q : ascii) (s : string) : string :=
  match s with
  | EmptyString => ""
  | String c s' => repr_char q c ++ repr_chars q s'
  end.

(** [repr(s)] for a string. *)
Definition repr_str (s : string) : string :=
  let q := if contains apostrophe s && negb (contains quote s)
           then quote else apostrophe in
  String q (repr_chars q s ++ String q "").

(** [repr(v)] *)
Fixpoint py_repr (v : pyval) : string :=
  match v with
  | PNone => "None"
  | PBool b => if b then "True" else "False"
  | PInt z => str_int z
  | PFloat f => str_float f
  | PStr s => repr_str s
  | PList l => "[" ++ join ", " (map py_repr l) ++ "]"
  | PDict d =>
      "{" ++ join ", " (map (fun kv => repr_str (fst kv) ++ ": " ++ py_repr (snd kv)) d)
          ++ "}"
  end.

(** [str(v)] *)
Definition py_str (v : pyval) : string :=
  match v with
  | PStr s => s
  | _ => py_repr v
  end.

(** ** The entry points *)

(** What the entry points read besides the [World]: the module's flag, the
    files ([files name] is what [open(name, 'r').read()] returns, [None]
    where it raises) and the environment variables. *)
Record Host : Type := {
  LOCAL_EXECUTION : bool;
  files : string -> option string;
  environ : string -> option string
}.

(** The exceptions of the entry points: those of the class, and the two that
    reading the credential files adds ([FileNotFoundError] stands for any
    [OSError] of [open] or [read]). *)
Inductive script_exn : Set :=
  | Raised (e : exn)
  | IndexError
  | FileNotFoundError.

Inductive script_result (A : Type) : Type :=
  | Done (a : A)
  | Failed (e : script_exn).
Arguments Done {A} a.
Arguments Failed {A} e.

(** [open(name, 'r').read().splitlines()[0]] *)
Definition read_first_line (h : Host) (name : string) : script_result string :=
  match files h name with
  | None => Failed FileNotFoundError
  | Some text =>
      match splitlines text with
      | [] => Failed IndexError
      | line :: _ => Done line
      end
  end.

(** [os.environ[name]] *)
Definition os_environ (h : Host) (name : string) : script_result string :=
  match environ h name with
  | Some value => Done value
  | None => Failed (Raised KeyError)
  end.

Definition load_api_credentials (h : Host) : script_result CoinbaseApiCredentials :=
  if LOCAL_EXECUTION h then
    match read_first_line h "api_key" with
    | Failed e => Failed e
    | Done api_key =>
        match read_first_line h "api_secret" with
        | Failed e => Failed e
        | Done api_secret => Done {| key := api_key; secret := api_secret |}
        end
    end
  else
    match os_environ h "API_KEY" with
    | Failed e => Failed e
    | Done api_key =>
        match os_environ h "API_SECRET" with
        | Failed e => Failed e
        | Done api_secret => Done {| key := api_key; secret := api_secret |}
        end
    end.

Section EntryPoints.

Context {platform : Platform}.

(** Lines 158 to 161 of [execute_dca_buy]. *)
Definition trade_amount (h : Host) : script_result float :=
  if LOCAL_EXECUTION h then Done 10.0%float
  else
    match os_environ h "BTC_USDC_AMOUNT" with
    | Failed e => Failed e
    | Done value =>
        match py_float (PStr value) with
        | Ok amount => Done amount
        | Err e => Failed (Raised e)
        end
    end.

Definition execute_dca_buy (h : Host) (w : World) : script_result unit * World :=
  match load_api_credentials h with
  | Failed e => (Failed e, w)
  | Done creds =>
      let coinbaseDCA := {| creds := creds |} in
      match trade_amount h with
      | Failed e => (Failed e, w)
      | Done trade_amount =>
          match create_order coinbaseDCA BUY BTC_USDC trade_amount w with
          | (Err e, w') => (Failed (Raised e), w')
          | (Ok response, w') => (Done tt, snd (print (py_str response) w'))
          end
      end
  end.

Definition lambda_handler (event context : pyval) (h : Host) (w : World)
  : script_result unit * World :=
  execute_dca_buy h w.

End EntryPoints.

(** ** A reference platform

    One platform on which the program can be run inside Rocq: HMAC-SHA256 as
    FIPS 180-4 and RFC 2104 define it, the parser of plain decimals
    ([-]digits[.digits]), and the values libm's [log10] takes at the doubles
    nearest to the powers of ten from [10^-12] to [10^6]. *)

Module SHA256.

Definition word (x : Z) : Z := Z.land x 0xffffffff.
Definition add (x y : Z) : Z := word (x + y).
Definition rotr (n x : Z) : Z := word (Z.lor (Z.shiftr x n) (Z.shiftl x (32 - n))).
Definition xor3 (x y z : Z) : Z := Z.lxor (Z.lxor x y) z.
Definition ch (x y z : Z) : Z := Z.lxor (Z.land x y) (Z.land (word (Z.lnot x)) z).
Definition maj (x y z : Z) : Z := xor3 (Z.land x y) (Z.land x z) (Z.land y z).
Definition big_sigma0 (x : Z) : Z := xor3 (rotr 2 x) (rotr 13 x) (rotr 22 x).
Definition big_sigma1 (x : Z) : Z := xor3 (rotr 6 x) (rotr 11 x) (rotr 25 x).
Definition small_sigma0 (x : Z) : Z := xor3 (rotr 7 x) (rotr 18 x) (Z.shiftr x 3).
Definition small_sigma1 (x : Z) : Z := xor3 (rotr 17 x) (rotr 19 x) (Z.shiftr x 10).

(** The first 32 bits of the fractional part of the [k]-th root of [p]. *)
Fixpoint root_bits (k : Z) (bits : nat) (n r : Z) : Z :=
  match bits with
  | O => r
  | S bits' =>
      let c := r + 2 ^ Z.of_nat bits' in
      root_bits k bits' n (if c ^ k <=? n then c else r)
  end.

Definition fraction_bits (k p : Z) : Z :=
  word (root_bits k 40 (p * 2 ^ (32 * k)) 0).

Definition is_prime (n : Z) : bool :=
  forallb (fun d => negb (n mod Z.of_nat d =? 0)) (seq 2 (Z.to_nat n - 2)).

Definition primes : list Z :=
  Eval vm_compute in firstn 64 (filter is_prime (map Z.of_nat (seq 2 310))).

(** Cube roots of the first 64 primes. *)
Definition round_constants : list Z :=
  Eval vm_compute in map (fraction_bits 3) primes.

(** Square roots of the first 8 primes. *)
Definition initial_hash : list Z :=
  Eval vm_compute in map (fraction_bits 2) (firstn 8 primes).

(** The message schedule, newest word first. *)
Fixpoint schedule (n : nat) (rev_words : list Z) : list Z :=
  match n with
  | O => rev_words
  | S n' =>
      let at_ i := nth i rev_words 0 in
      let next := add (add (small_sigma1 (at_ 1%nat)) (at_ 6%nat))
                      (add (small_sigma0 (at_ 14%nat)) (at_ 15%nat)) in
      schedule n' (next :: rev_words)
  end.

Definition round (state : list Z) (kw : Z * Z) : list Z :=
  match state with
  | [a; b; c; d; e; f; g; h] =>
      let t1 := add (add (add h (big_sigma1 e)) (add (ch e f g) (fst kw))) (snd kw) in
      let t2 := add (big_sigma0 a) (maj a b c) in
      [add t1 t2; a; b; c; add d t1; e; f; g]
  | _ => state
  end.

Definition compress (state : list Z) (block : list Z) : list Z :=
  let words := rev (schedule 48 (rev block)) in
  let final := fold_left round (combine round_constants words) state in
  map (fun p => add (fst p) (snd p)) (combine state final).

Fixpoint be_words (bytes : list Z) : list Z :=
  match bytes with
  | a :: b :: c :: d :: rest =>
      (Z.shiftl a 24 + Z.shiftl b 16 + Z.shiftl c 8 + d) :: be_words rest
  | _ => []
  end.

Fixpoint blocks (n : nat) (words : list Z) (state : list Z) : list Z :=
  match n with
  | O => state
  | S n' => blocks n' (skipn 16 words) (compress state (firstn 16 words))
  end.

Definition be_bytes (n : nat) (z : Z) : list Z :=
  map (fun i => Z.land (Z.shiftr z (8 * Z.of_nat i)) 255) (rev (seq 0 n)).

Definition pad (bytes : list Z) : list Z :=
  let len := Z.of_nat (List.length bytes) in
  (bytes ++ [128] ++ repeat 0 (Z.to_nat ((55 - len) mod 64)) ++ be_bytes 8 (8 * len))%list.

Definition digest (bytes : list Z) : list Z :=
  let words := be_words (pad bytes) in
  flat_map (be_bytes 4) (blocks (List.length words / 16) words initial_hash).

Definition hmac (key msg : list Z) : list Z :=
  let key := if 64 <? Z.of_nat (List.length key) then digest key else key in
  let key := (key ++ repeat 0 (64 - List.length key))%list in
  digest (map (Z.lxor 0x5c) key ++ digest (map (Z.lxor 0x36) key ++ msg))%list.

Definition bytes_of (s : string) : list Z :=
  map (fun c => Z.of_nat (nat_of_ascii c)) (list_ascii_of_string s).

Fixpoint hexdigest (bytes : list Z) : string :=
  match bytes with
  | [] => ""
  | b :: rest => hex 2 b ++ hexdigest rest
  end.

Definition hmac_hexdigest (key msg : string) : string :=
  hexdigest (hmac (bytes_of key) (bytes_of msg)).

End SHA256.

Module Reference.

Definition float_of_Z (z : Z) : float := nearest_float (z <? 0) (Z.abs z) 1.

Definition pow10_float (k : Z) : float :=
  nearest_float false (scale 1 10 k) (scale 1 10 (- k)).

Fixpoint log10_lookup (ks : list Z) (x : float) : float :=
  match ks with
  | [] => nan
  | k :: ks' =>
      if (x =? pow10_float k)%float then float_of_Z k else log10_lookup ks' x
  end.

Definition log10_table : float -> float :=
  log10_lookup [-12; -11; -10; -9; -8; -7; -6; -5; -4; -3; -2; -1; 0;
                1; 2; 3; 4; 5; 6].

Fixpoint digits_value (acc : Z) (s : list ascii) : option Z :=
  match s with
  | [] => Some acc
  | c :: s' =>
      let n := Z.of_nat (nat_of_ascii c) - 48 in
      if (0 <=? n) && (n <=? 9) then digits_value (10 * acc + n) s' else None
  end.

Fixpoint split_dot (s : list ascii) : list ascii * list ascii :=
  match s with
  | [] => ([], [])
  | c :: s' =>
      if Ascii.eqb c "." then ([], s')
      else let (a, b) := split_dot s' in (c :: a, b)
  end.

Definition parse_decimal (s : string) : option float :=
  let l := list_ascii_of_string s in
  let (neg, l) := match l with
                  | c :: l' => if Ascii.eqb c "-" then (true, l') else (false, l)
                  | [] => (false, l)
                  end in
  let (ip, fp) := split_dot l in
  match (ip ++ fp)%list with
  | [] => None
  | ds => match digits_value 0 ds with
          | Some n => Some (nearest_float neg n (10 ^ Z.of_nat (List.length fp)))
          | None => None
          end
  end.

Definition platform : Platform :=
  {| math_log10 := log10_table;
     str_to_float := parse_decimal;
     hmac_sha256_hexdigest := SHA256.hmac_hexdigest |}.

(** A product as the exchange describes it, the listing that holds it, and
    a server that answers the three requests of an order. *)
Definition product_with (base_min_size base_max_size : string) : pyval :=
  PDict [("product_id", PStr "BTC-USD");
         ("price", PStr "50000");
         ("quote_increment", PStr "0.01");
         ("base_increment", PStr "0.00000001");
         ("quote_min_size", PStr "1");
         ("quote_max_size", PStr "10000000");
         ("base_min_size", PStr base_min_size);
         ("base_max_size", PStr base_max_size)].

Definition product : pyval := product_with "0.00000001" "3400".

Definition listing : pyval :=
  PDict [("products", PList [product; PDict [("product_id", PStr "ETH-USD")]])].

Definition accepted : pyval := PDict [("success", PBool true)].

Definition exchange_with (p : pyval) (n : nat) : reply :=
  match n with
  | O => Reply 200 (Some listing)
  | 1%nat => Reply 200 (Some p)
  | _ => Reply 200 (Some accepted)
  end.

Definition exchange : nat -> reply := exchange_with product.

Definition world (srv : nat -> reply) : World :=
  {| clock := fun _ => 1700000000.75%float;
     clock_reads := 0;
     urandom := fun _ => 0x12345678123456781234567812345678;
     urandom_reads := 0;
     server := srv;
     sent := [];
     stdout := [] |}.

Definition dca : CoinbaseDCA :=
  {| creds := {| key := "organizations/x/apiKeys/y"; secret := "hunter2" |} |}.

End Reference.

(** * Specification-level definitions *)

(** The factor that the 0.2% offset comes to. *)
Definition offset_factor (side : Side) : float :=
  match side with
  | BUY => 0.998%float
  | SELL => 1.002%float
  end.

Definition unauthorized_message : string :=
  "Error: Unauthorized. Please check your API key and secret.".

(** The request of the signed request builder, in the words of its
    description: the signature is the HMAC-SHA256 of
    [timestamp + method + fullPath + body] under the secret, and the same
    timestamp is sent along. *)
Definition signed_request {platform : Platform} (self : CoinbaseDCA)
    (method : HTTPMethod) (resource body : string) (t : Z) : HTTPRequest :=
  let timestamp := str_int t in
  let fullPath := BASE_ENDPOINT ++ resource in
  {| req_method := HTTPMethod_value method;
     req_url := fullPath;
     req_body := body;
     req_headers :=
       [("accept", "application/json");
        ("CB-ACCESS-KEY", key (creds self));
        ("CB-ACCESS-SIGN",
         hmac_sha256_hexdigest (secret (creds self))
           (timestamp ++ HTTPMethod_value method ++ fullPath ++ body));
        ("CB-ACCESS-TIMESTAMP", timestamp)] |}.

(** Line 103: the identifiers in a parsed listing. *)
Definition listing_ids (response : pyval) : result (list pyval) :=
  products <~ py_getitem response "products" ;;
  items <~ py_iter products ;;
  product_ids items.

(** Lines 67 to 83: the checks and the two sizes, for a parsed product. *)
Definition order_checks {platform : Platform} (side : Side) (quote_size : float)
    (product : pyval) : result (float * float) :=
  quote_min_size <~ float_item product "quote_min_size" ;;
  if negb (quote_min_size <=? quote_size)%float then Err (AssertionError quote_min) else
  quote_max_size <~ float_item product "quote_max_size" ;;
  if negb (quote_size <=? quote_max_size)%float then Err (AssertionError quote_max) else
  pa <~ price_adjusted side product ;;
  bs <~ base_size_rounded quote_size pa product ;;
  base_min_size <~ float_item product "base_min_size" ;;
  if negb (base_min_size <=? bs)%float then Err (AssertionError base_min) else
  base_max_size <~ float_item product "base_max_size" ;;
  if negb (bs <=? base_max_size)%float then Err (AssertionError base_max) else
  Ok (pa, bs).

Definition call_of (q : HTTPRequest) : string * string :=
  (req_method q, req_url q).

Definition calls_of_order (pair : Pair) : list (string * string) :=
  [("GET", "/api/v3/brokerage/products");
   ("GET", "/api/v3/brokerage/products/" ++ Pair_value pair);
   ("POST", "/api/v3/brokerage/orders")].

Fixpoint header (name : string) (headers : list (string * string)) : option string :=
  match headers with
  | [] => None
  | (n, v) :: rest => if String.eqb name n then Some v else header name rest
  end.

(** A string between quotes, and the text of an order. *)
Definition quoted (s : string) : string := String quote (s ++ String quote "").

Definition order_text (id side pair price size : string) : string :=
  "{" ++ quoted "client_order_id" ++ ": " ++ quoted id ++ ", "
      ++ quoted "side" ++ ": " ++ quoted side ++ ", "
      ++ quoted "product_id" ++ ": " ++ quoted pair ++ ", "
      ++ quoted "order_configuration" ++ ": {"
      ++ quoted "limit_limit_gtc" ++ ": {"
      ++ quoted "post_only" ++ ": false, "
      ++ quoted "limit_price" ++ ": " ++ quoted price ++ ", "
      ++ quoted "base_size" ++ ": " ++ quoted size ++ "}}}".

(** The characters that [json.dumps] writes as they are. *)
Definition plain_char (c : ascii) : bool :=
  let n := Z.of_nat (nat_of_ascii c) in
  (32 <=? n) && (n <=? 126) && negb (n =? 34) && negb (n =? 92).

Fixpoint plain (s : string) : bool :=
  match s with
  | EmptyString => true
  | String c s' => plain_char c && plain s'
  end.

Section Specification.

Context {platform : Platform}.
Variable self : CoinbaseDCA.

(** The two headers of a request agree with its method, path and body. *)
Definition signed_at (t : Z) (q : HTTPRequest) : Prop :=
  header "CB-ACCESS-TIMESTAMP" (req_headers q) = Some (str_int t)
  /\ header "CB-ACCESS-SIGN" (req_headers q)
     = Some (hmac_sha256_hexdigest (secret (creds self))
               (str_int t ++ req_method q ++ req_url q ++ req_body q)).

Definition listing_request (t : Z) : HTTPRequest :=
  signed_request self GET "products" "" t.

Definition product_request (pair : Pair) (t : Z) : HTTPRequest :=
  signed_request self GET ("products/" ++ Pair_value pair) "" t.

Definition order_request (side : Side) (pair : Pair) (client_order_id : Z)
    (pa bs : float) (t : Z) : HTTPRequest :=
  signed_request self POST "orders"
    (json_dumps (order_body side pair client_order_id pa bs)) t.

(** The request sent after [i] others was answered with the value [v] and a
    status other than 401. *)
Definition answered (w : World) (i : nat) (v : pyval) : Prop :=
  exists status, server w i = Reply status (Some v)
                 /\ (status =? UNAUTHORIZED) = false.

(** The last request of a run, sent after [i] others: either its reply was
    not a 401 and nothing was printed, or it was, the message was printed and
    the run ended with [on401]. *)
Definition last_reply (w w' : World) (i : nat) (r on401 : result pyval) : Prop :=
  (stdout w' = stdout w /\ forall data, server w i <> Reply UNAUTHORIZED data)
  \/ (stdout w' = (stdout w ++ [unauthorized_message])%list
      /\ r = on401
      /\ exists data, server w i = Reply UNAUTHORIZED data).

Inductive order_trace (side : Side) (pair : Pair) (qs : float) (w : World)
    (r : result pyval) (w' : World) : Prop :=
  | trace_none :
      sent w' = sent w ->
      stdout w' = stdout w ->
      urandom_reads w' = urandom_reads w ->
      (exists e, r = Err e) ->
      order_trace side pair qs w r w'
  | trace_listing (t1 : Z) :
      sent w' = (sent w ++ [listing_request t1])%list ->
      urandom_reads w' = urandom_reads w ->
      (exists e, r = Err e) ->
      last_reply w w' (List.length (sent w)) r (Err TypeError) ->
      order_trace side pair qs w r w'
  | trace_product (t1 t2 : Z) (response : pyval) :
      answered w (List.length (sent w)) response ->
      sent w' = (sent w ++ [listing_request t1; product_request pair t2])%list ->
      urandom_reads w' = urandom_reads w ->
      (exists e, r = Err e) ->
      last_reply w w' (S (List.length (sent w))) r (Err TypeError) ->
      order_trace side pair qs w r w'
  | trace_unsent (t1 t2 : Z) (response product : pyval) (pa bs : float) :
      answered w (List.length (sent w)) response ->
      answered w (S (List.length (sent w))) product ->
      order_checks side qs product = Ok (pa, bs) ->
      sent w' = (sent w ++ [listing_request t1; product_request pair t2])%list ->
      urandom_reads w' = S (urandom_reads w) ->
      stdout w' = stdout w ->
      (exists e, r = Err e) ->
      order_trace side pair qs w r w'
  | trace_order (t1 t2 t3 : Z) (response product : pyval) (pa bs : float) :
      answered w (List.length (sent w)) response ->
      answered w (S (List.length (sent w))) product ->
      order_checks side qs product = Ok (pa, bs) ->
      sent w' = (sent w ++ [listing_request t1; product_request pair t2;
                            order_request side pair
                              (uuid4_int (urandom w (urandom_reads w))) pa bs t3])%list ->
      urandom_reads w' = S (urandom_reads w) ->
      last_reply w w' (S (S (List.length (sent w)))) r (Ok PNone) ->
      order_trace side pair qs w r w'.

(** What one call of [_request] does to the world [w]. *)
Inductive request_run (method : HTTPMethod) (resource body : string) (w : World)
  : result pyval -> World -> Prop :=
  | rq_clock (e : exn) :
      py_int (clock w (clock_reads w)) = Err e ->
      request_run method resource body w (Err e) (tick w)
  | rq_no_reply (t : Z) :
      py_int (clock w (clock_reads w)) = Ok t ->
      server w (List.length (sent w)) = NoReply ->
      request_run method resource body w (Err OSError)
        (send (signed_request self method resource body t) (tick w))
  | rq_unauthorized (t : Z) (status : Z) (data : option pyval) :
      py_int (clock w (clock_reads w)) = Ok t ->
      server w (List.length (sent w)) = Reply status data ->
      (status =? UNAUTHORIZED) = true ->
      request_run method resource body w (Ok PNone)
        (emit unauthorized_message
           (send (signed_request self method resource body t) (tick w)))
  | rq_reply (t : Z) (status : Z) (data : option pyval) :
      py_int (clock w (clock_reads w)) = Ok t ->
      server w (List.length (sent w)) = Reply status data ->
      (status =? UNAUTHORIZED) = false ->
      request_run method resource body w (json_loads data)
        (send (signed_request self method resource body t) (tick w)).

(** What one call of [create_order] does to the world [w]. *)
Inductive order_run (side : Side) (pair : Pair) (qs : float) (w : World)
  : result pyval -> World -> Prop :=
  | or_listing_fails (e : exn) (w1 : World) :
      request_run GET "products" "" w (Err e) w1 ->
      order_run side pair qs w (Err e) w1
  | or_listing_unreadable (response : pyval) (e : exn) (w1 : World) :
      request_run GET "products" "" w (Ok response) w1 ->
      listing_ids response = Err e ->
      order_run side pair qs w (Err e) w1
  | or_unlisted (response : pyval) (products : list pyval) (w1 : World) :
      request_run GET "products" "" w (Ok response) w1 ->
      listing_ids response = Ok products ->
      py_in (Pair_value pair) products = false ->
      order_run side pair qs w (Err (AssertionError pair_listed)) w1
  | or_product_fails (response : pyval) (products : list pyval) (e : exn)
      (w1 w2 : World) :
      request_run GET "products" "" w (Ok response) w1 ->
      listing_ids response = Ok products ->
      py_in (Pair_value pair) products = true ->
      request_run GET ("products/" ++ Pair_value pair) "" w1 (Err e) w2 ->
      order_run side pair qs w (Err e) w2
  | or_rejected (response product : pyval) (products : list pyval) (e : exn)
      (w1 w2 : World) :
      request_run GET "products" "" w (Ok response) w1 ->
      listing_ids response = Ok products ->
      py_in (Pair_value pair) products = true ->
      request_run GET ("products/" ++ Pair_value pair) "" w1 (Ok product) w2 ->
      order_checks side qs product = Err e ->
      order_run side pair qs w (Err e) w2
  | or_submitted (response product : pyval) (products : list pyval)
      (pa bs : float) (r : result pyval) (w1 w2 w3 : World) :
      request_run GET "products" "" w (Ok response) w1 ->
      listing_ids response = Ok products ->
      py_in (Pair_value pair) products = true ->
      request_run GET ("products/" ++ Pair_value pair) "" w1 (Ok product) w2 ->
      order_checks side qs product = Ok (pa, bs) ->
      request_run POST "orders"
        (json_dumps (order_body side pair
                       (uuid4_int (urandom w2 (urandom_reads w2))) pa bs))
        (draw w2) r w3 ->
      order_run side pair qs w r w3.

End Specification.

(** ** Runs that differ in what the program does not look at *)

(** Two replies that the program cannot tell apart: both are failures of the
    connection, or both carry a 401, or they carry the same body and statuses
    other than 401. *)
Definition similar (r r' : reply) : Prop :=
  match r, r' with
  | NoReply, NoReply => True
  | Reply s d, Reply s' d' =>
      (s =? UNAUTHORIZED) = (s' =? UNAUTHORIZED)
      /\ ((s =? UNAUTHORIZED) = false -> d = d')
  | _, _ => False
  end.

(** A request without the values of the two headers made from the
    credentials: its method, path and body, the names of its headers and
    the values of the other two. *)
Definition unsigned (q : HTTPRequest)
  : string * string * string * list string * option string * option string :=
  (req_method q, req_url q, req_body q,
   map fst (req_headers q),
   header "accept" (req_headers q),
   header "CB-ACCESS-TIMESTAMP" (req_headers q)).

(** Two worlds with the same inputs and outputs, up to [similar] replies and
    to the relation [same] between the requests sent. *)
Definition alike (same : HTTPRequest -> HTTPRequest -> Prop) (w w' : World) : Prop :=
  clock w = clock w'
  /\ clock_reads w = clock_reads w'
  /\ urandom w = urandom w'
  /\ urandom_reads w = urandom_reads w'
  /\ stdout w = stdout w'
  /\ Forall2 same (sent w) (sent w')
  /\ forall n, similar (server w n) (server w' n).

(** The world [w] in front of another server. *)
Definition with_server (srv : nat -> reply) (w : World) : World :=
  {| clock := clock w; clock_reads := clock_reads w;
     urandom := urandom w; urandom_reads := urandom_reads w;
     server := srv; sent := sent w; stdout := stdout w |}.

(** A product whose price is zero. *)
Definition worthless_product : pyval :=
  PDict [("product_id", PStr "BTC-USD");
         ("price", PStr "0");
         ("quote_increment", PStr "0.01");
         ("base_increment", PStr "0.00000001");
         ("quote_min_size", PStr "1");
         ("quote_max_size", PStr "10000000");
         ("base_min_size", PStr "0.00000001");
         ("base_max_size", PStr "3400")].

(** The bits of a random draw that reach the identifier: all 128 but the
    six of the version and variant fields. *)
Definition free_bit (n : Z) : bool :=
  (0 <=? n) && (n <? 128)
  && negb ((62 <=? n) && (n <? 64)) && negb ((76 <=? n) && (n <? 80)).

(** ** The credential files and the hosts of a run *)

(** A string without a character at which [splitlines] cuts. *)
Fixpoint unbroken (s : string) : bool :=
  match s with
  | EmptyString => true
  | String c s' => negb (line_break c) && unbroken s'
  end.

(** [line] is the first line of [text]: it has no line break, and [text]
    goes on after it with a line break or not at all. *)
Definition first_line_of (text line : string) : Prop :=
  unbroken line = true
  /\ exists rest : string,
       text = line ++ rest
       /\ (rest = "" \/ exists c r, rest = String c r /\ line_break c = true).

Definition newline : string := String "010"%char "".

(** A host that runs the script locally, with what its two credential files
    hold ([None] for a file that cannot be read), and one that runs it as a
    Lambda function, with its environment variables. *)
Definition local_host (api_key api_secret : option string) : Host :=
  {| LOCAL_EXECUTION := true;
     files := fun name =>
       if String.eqb name "api_key" then api_key
       else if String.eqb name "api_secret" then api_secret
       else None;
     environ := fun _ => None |}.

Definition lambda_host (variables : list (string * string)) : Host :=
  {| LOCAL_EXECUTION := false;
     files := fun _ => None;
     environ := fun name => header name variables |}.

(** The configuration of a host lacks something the script reads before it
    uses the class: a credential file is missing or empty, or a variable of
    the environment is missing or, for the amount, is not a number. *)
Definition incomplete {platform : Platform} (h : Host) : Prop :=
  if LOCAL_EXECUTION h then
    exists name : string,
      In name ["api_key"; "api_secret"]
      /\ (files h name = None \/ files h name = Some "")
  else
    (exists name : string,
        In name ["API_KEY"; "API_SECRET"; "BTC_USDC_AMOUNT"]
        /\ environ h name = None)
    \/ (exists a : string,
           environ h "BTC_USDC_AMOUNT" = Some a /\ str_to_float a = None).

(** A server that lists BTC-USDC and answers the three requests of its
    purchase. *)
Definition usdc_product : pyval :=
  PDict [("product_id", PStr "BTC-USDC");
         ("price", PStr "50000");
         ("quote_increment", PStr "0.01");
         ("base_increment", PStr "0.00000001");
         ("quote_min_size", PStr "1");
         ("quote_max_size", PStr "10000000");
         ("base_min_size", PStr "0.00000001");
         ("base_max_size", PStr "3400")].

Definition usdc_exchange (n : nat) : reply :=
  match n with
  | O => Reply 200 (Some (PDict [("products", PList [usdc_product])]))
  | 1%nat => Reply 200 (Some usdc_product)
  | _ => Reply 200 (Some Reference.accepted)
  end.

(** ** The clock readings of a run *)

(** The requests [l], sent from the world [w] on, each carry the whole
    seconds of a clock reading of their own: the first of the next reading,
    the second of the one after, and so on. *)
Definition fresh_stamps (w : World) (l : list HTTPRequest) : Prop :=
  forall (i : nat) (q : HTTPRequest),
    nth_error l i = Some q ->
    exists t : Z,
      py_int (clock w (clock_reads w + i)%nat) = Ok t
      /\ header "CB-ACCESS-TIMESTAMP" (req_headers q) = Some (str_int t).

(** From [w] to [w'] the requests [l] were sent, with one clock reading for
    each. *)
Definition stamped (w w' : World) (l : list HTTPRequest) : Prop :=
  clock w' = clock w
  /\ sent w' = (sent w ++ l)%list
  /\ clock_reads w' = (clock_reads w + List.length l)%nat
  /\ fresh_stamps w l.

(** * Properties *)

(** ** Comparison of floats *)

Lemma SFcompare_swap (x y : spec_float) :
  SFcompare y x = option_map CompOpp (SFcompare x y).
Proof.
  destruct x as [sx|sx| |sx mx ex], y as [sy|sy| |sy my ey]; simpl;
    try destruct sx; try destruct sy; try reflexivity.
  - rewrite (Z.compare_antisym ey ex).
    destruct (ey ?= ex); simpl; try reflexivity.
    rewrite (Pos.compare_cont_antisym mx my Eq); reflexivity.
  - rewrite (Z.compare_antisym ey ex).
    destruct (ey ?= ex); simpl; try reflexivity.
    rewrite (Pos.compare_cont_antisym mx my Eq); simpl.
    destruct (Pos.compare_cont Eq mx my); reflexivity.
Qed.

Lemma float_eqb_leb (x y : float) :
  (x =? y)%float = true -> (x <=? y)%float = true /\ (y <=? x)%float = true.
Proof.
  rewrite eqb_spec, !leb_spec. unfold SFeqb, SFleb.
  rewrite (SFcompare_swap (Prim2SF x) (Prim2SF y)).
  destruct (SFcompare (Prim2SF x) (Prim2SF y)) as [[]|]; simpl;
    intros E; try discriminate; split; reflexivity.
Qed.

Lemma float_ltb_not_leb (x y : float) :
  (x <? y)%float = true -> (y <=? x)%float = false.
Proof.
  rewrite ltb_spec, leb_spec. unfold SFltb, SFleb.
  rewrite (SFcompare_swap (Prim2SF x) (Prim2SF y)).
  destruct (SFcompare (Prim2SF x) (Prim2SF y)) as [[]|]; simpl;
    intros E; try discriminate; reflexivity.
Qed.

Lemma float_leb_not_ltb (x y : float) :
  (x <=? y)%float = true -> (y <? x)%float = false.
Proof.
  rewrite ltb_spec, leb_spec. unfold SFltb, SFleb.
  rewrite (SFcompare_swap (Prim2SF x) (Prim2SF y)).
  destruct (SFcompare (Prim2SF x) (Prim2SF y)) as [[]|]; simpl;
    intros E; try discriminate; reflexivity.
Qed.

(** ** The price offset *)

Lemma price_factor_offset (side : Side) :
  (1.0 + match side with BUY => - PRICE_DELTA | SELL => PRICE_DELTA end)%float
  = offset_factor side.
Proof. destruct side; reflexivity. Qed.

Section Sizing.

Context {platform : Platform}.

Lemma sigfigs_positive (x : float) (n : Z) :
  (0 <? x)%float = true ->
  math_floor (math_log10 x) = Ok n ->
  _get_currency_sigfigs x = Ok (- n).
Proof.
  intros Hpos Hfloor. unfold _get_currency_sigfigs.
  rewrite Hpos, Hfloor. reflexivity.
Qed.

Lemma sigfigs_of_log10 (x l : float) (n : Z) :
  (0 <? x)%float = true ->
  math_log10 x = l ->
  math_floor l = Ok n ->
  _get_currency_sigfigs x = Ok (- n).
Proof. intros Hpos <- Hfloor. now apply sigfigs_positive. Qed.

Lemma price_adjusted_eq (side : Side) (product : pyval) (qi p : float) (n : Z) :
  float_item product "quote_increment" = Ok qi ->
  _get_currency_sigfigs qi = Ok n ->
  float_item product "price" = Ok p ->
  price_adjusted side product = py_round (p * offset_factor side)%float n.
Proof.
  intros Hqi Hn Hp. unfold price_adjusted.
  rewrite Hqi. cbn [rbind]. rewrite Hn. cbn [rbind]. rewrite Hp. cbn [rbind].
  rewrite price_factor_offset. reflexivity.
Qed.

Lemma base_size_rounded_eq (qs pa : float) (product : pyval) (bi : float) (n : Z) :
  float_item product "base_increment" = Ok bi ->
  _get_currency_sigfigs bi = Ok n ->
  base_size_rounded qs pa product = (q <~ py_truediv qs pa ;; py_round q n).
Proof.
  intros Hbi Hn. unfold base_size_rounded.
  rewrite Hbi. cbn [rbind]. rewrite Hn. reflexivity.
Qed.

End Sizing.

(** C1. The adjusted limit price is the reference price times 0.998 (BUY) or
    1.002 (SELL), and only then rounded to the digits that the quote
    increment implies; with price 50000, increment 0.01 and side BUY, on a
    platform whose [log10 0.01] is [-2], it is [round(50000 * 0.998, 2)],
    which is 49900.0. *)
Theorem C1_offset_then_round :
  forall (platform : Platform) (product : pyval),
    (forall (side : Side) (qi p : float) (n : Z),
        float_item product "quote_increment" = Ok qi ->
        _get_currency_sigfigs qi = Ok n ->
        float_item product "price" = Ok p ->
        price_adjusted side product = py_round (p * offset_factor side)%float n)
    /\ (float_item product "quote_increment" = Ok 0.01%float ->
        float_item product "price" = Ok 50000%float ->
        math_log10 0.01%float = (-2)%float ->
        price_adjusted BUY product = py_round (50000 * 0.998)%float 2
        /\ py_round (50000 * 0.998)%float 2 = Ok 49900%float).
Proof.
  intros platform product. split.
  - intros side qi p n. apply price_adjusted_eq.
  - intros Hqi Hp Hlog. split.
    + apply (price_adjusted_eq BUY product 0.01%float 50000%float 2 Hqi); auto.
      apply (sigfigs_of_log10 _ (-2)%float (-2)); auto.
    + vm_compute. reflexivity.
Qed.

Lemma C1_witness :
  @price_adjusted Reference.platform SELL Reference.product
  = py_round (50000 * 1.002)%float 2
  /\ @price_adjusted Reference.platform BUY Reference.product
     = py_round (50000 * 0.998)%float 2
  /\ py_round (50000 * 0.998)%float 2 = Ok 49900%float.
Proof.
  destruct (C1_offset_then_round Reference.platform Reference.product) as [G I].
  split.
  - apply (G SELL 0.01%float 50000%float 2); vm_compute; reflexivity.
  - apply I; vm_compute; reflexivity.
Defined.

(** C2. For an increment [x > 0] the number of digits is [-floor(log10(x))];
    so it is 2 at 0.01, 4 at 0.0001 and 0 at 1 on a platform whose [log10]
    is [-2], [-4] and [0] there.  For [x <= 0] the assertion of line 139
    fails, which the design document calls [InvalidIncrementError], and no
    value is returned. *)
Theorem C2_sigfigs :
  forall (platform : Platform),
    (forall x : float,
        (0 <? x)%float = true ->
        _get_currency_sigfigs x = (n <~ math_floor (math_log10 x) ;; Ok (- n)))
    /\ (forall (x : float) (n : Z),
        (0 <? x)%float = true ->
        math_floor (math_log10 x) = Ok n ->
        _get_currency_sigfigs x = Ok (- n))
    /\ (math_log10 0.01%float = (-2)%float ->
        _get_currency_sigfigs 0.01%float = Ok 2)
    /\ (math_log10 0.0001%float = (-4)%float ->
        _get_currency_sigfigs 0.0001%float = Ok 4)
    /\ (math_log10 1%float = 0%float ->
        _get_currency_sigfigs 1%float = Ok 0)
    /\ (forall x : float,
        (x <=? 0)%float = true ->
        _get_currency_sigfigs x = Err (AssertionError increment_positive))
    /\ spec_error_of increment_positive = InvalidIncrementError.
Proof.
  intros platform.
  refine (conj _ (conj _ (conj _ (conj _ (conj _ (conj _ eq_refl)))))).
  - intros x Hpos. unfold _get_currency_sigfigs. rewrite Hpos. reflexivity.
  - intros x n. apply sigfigs_positive.
  - intros H. apply (sigfigs_of_log10 _ (-2)%float (-2)); auto.
  - intros H. apply (sigfigs_of_log10 _ (-4)%float (-4)); auto.
  - intros H. apply (sigfigs_of_log10 _ 0%float 0); auto.
  - intros x Hle. unfold _get_currency_sigfigs.
    rewrite (float_leb_not_ltb _ _ Hle). reflexivity.
Qed.

Lemma C2_witness :
  @_get_currency_sigfigs Reference.platform 0.001%float = Ok (- (-3))
  /\ @_get_currency_sigfigs Reference.platform 0.01%float = Ok 2
  /\ @_get_currency_sigfigs Reference.platform 0.0001%float = Ok 4
  /\ @_get_currency_sigfigs Reference.platform 1%float = Ok 0
  /\ @_get_currency_sigfigs Reference.platform (-0.01)%float
     = Err (AssertionError increment_positive).
Proof.
  destruct (C2_sigfigs Reference.platform) as (_ & G & I2 & I4 & I0 & E & _).
  refine (conj _ (conj _ (conj _ (conj _ _)))).
  - apply G; vm_compute; reflexivity.
  - apply I2; vm_compute; reflexivity.
  - apply I4; vm_compute; reflexivity.
  - apply I0; vm_compute; reflexivity.
  - apply E; vm_compute; reflexivity.
Defined.

(** C3. The base quantity is the spend amount divided by the adjusted price,
    rounded to the digits that the base increment implies (the same
    [_get_currency_sigfigs]); with adjusted price 49900.0, spend amount 10.0
    and increment 0.00000001, on a platform whose [log10] is [-8] there, it
    is [round(10.0 / 49900.0, 8)], which is 0.0002004. *)
Theorem C3_base_size :
  forall (platform : Platform) (product : pyval),
    (forall (qs pa bi : float) (n : Z),
        float_item product "base_increment" = Ok bi ->
        _get_currency_sigfigs bi = Ok n ->
        (pa =? 0)%float = false ->
        base_size_rounded qs pa product = py_round (qs / pa)%float n)
    /\ (float_item product "base_increment" = Ok 0.00000001%float ->
        math_log10 0.00000001%float = (-8)%float ->
        base_size_rounded 10 49900 product = py_round (10 / 49900)%float 8
        /\ py_round (10 / 49900)%float 8 = Ok 0.0002004%float).
Proof.
  intros platform product. split.
  - intros qs pa bi n Hbi Hn Hpa.
    rewrite (base_size_rounded_eq qs pa product bi n Hbi Hn).
    unfold py_truediv. rewrite Hpa. reflexivity.
  - intros Hbi Hlog. split.
    + rewrite (base_size_rounded_eq _ _ product _ 8 Hbi).
      * reflexivity.
      * apply (sigfigs_of_log10 _ (-8)%float (-8)); auto.
    + vm_compute. reflexivity.
Qed.

Lemma C3_witness :
  @base_size_rounded Reference.platform 25 50100 Reference.product
  = py_round (25 / 50100)%float 8
  /\ @base_size_rounded Reference.platform 10 49900 Reference.product
     = py_round (10 / 49900)%float 8
  /\ py_round (10 / 49900)%float 8 = Ok 0.0002004%float.
Proof.
  destruct (C3_base_size Reference.platform Reference.product) as [G I].
  split.
  - apply (G 25%float 50100%float 0.00000001%float 8); vm_compute; reflexivity.
  - apply I; vm_compute; reflexivity.
Defined.

(** ** Runs of the program *)

Section Runs.

Context {platform : Platform}.
Variable self : CoinbaseDCA.

Lemma _request_run (method : HTTPMethod) (resource body : string) (w : World) :
  _request self method resource body w =
  match py_int (clock w (clock_reads w)) with
  | Err e => (Err e, tick w)
  | Ok t =>
      let w1 := send (signed_request self method resource body t) (tick w) in
      match server w (List.length (sent w)) with
      | NoReply => (Err OSError, w1)
      | Reply status data =>
          if status =? UNAUTHORIZED
          then (Ok PNone, emit unauthorized_message w1)
          else (json_loads data, w1)
      end
  end.
Proof.
  unfold _request, bind, time_time, lift, http_exchange, print, ret.
  destruct (py_int (clock w (clock_reads w))) as [t|e]; [|reflexivity].
  cbn [tick server sent].
  destruct (server w (List.length (sent w))) as [|status data]; [reflexivity|].
  cbn [fst snd]. destruct (status =? UNAUTHORIZED); reflexivity.
Qed.

Lemma list_products_run (w : World) :
  list_products self w =
  match _request self GET "products" "" w with
  | (Ok response, w1) => (listing_ids response, w1)
  | (Err e, w1) => (Err e, w1)
  end.
Proof. reflexivity. Qed.

Lemma get_product_run (pair : Pair) (w : World) :
  get_product self pair w
  = _request self GET ("products/" ++ Pair_value pair) "" w.
Proof. reflexivity. Qed.

Lemma create_order_run (side : Side) (pair : Pair) (qs : float) (w : World) :
  create_order self side pair qs w =
  match list_products self w with
  | (Err e, w1) => (Err e, w1)
  | (Ok products, w1) =>
      if py_in (Pair_value pair) products then
        match get_product self pair w1 with
        | (Err e, w2) => (Err e, w2)
        | (Ok product, w2) =>
            match order_checks side qs product with
            | Err e => (Err e, w2)
            | Ok (pa, bs) =>
                _request self POST "orders"
                  (json_dumps (order_body side pair
                                 (uuid4_int (urandom w2 (urandom_reads w2))) pa bs))
                  (draw w2)
            end
        end
      else (Err (AssertionError pair_listed), w1)
  end.
Proof.
  unfold create_order, bind at 1.
  destruct (list_products self w) as [[products|e] w1]; [|reflexivity].
  unfold bind at 1, py_assert.
  destruct (py_in (Pair_value pair) products); [|reflexivity].
  unfold ret, bind at 1.
  destruct (get_product self pair w1) as [[product|e] w2]; [|reflexivity].
  unfold order_checks, bind, lift, py_assert, ret, raise,
    _generate_client_order_id, os_urandom16.
  destruct (float_item product "quote_min_size") as [qmin|e]; [|reflexivity].
  cbn [rbind]. destruct (qmin <=? qs)%float; [|reflexivity].
  cbn [negb]. destruct (float_item product "quote_max_size") as [qmax|e]; [|reflexivity].
  cbn [rbind]. destruct (qs <=? qmax)%float; [|reflexivity].
  cbn [negb]. destruct (price_adjusted side product) as [pa|e]; [|reflexivity].
  cbn [rbind]. destruct (base_size_rounded qs pa product) as [bs|e]; [|reflexivity].
  cbn [rbind]. destruct (float_item product "base_min_size") as [bmin|e]; [|reflexivity].
  cbn [rbind]. destruct (bmin <=? bs)%float; [|reflexivity].
  cbn [negb]. destruct (float_item product "base_max_size") as [bmax|e]; [|reflexivity].
  cbn [rbind]. destruct (bs <=? bmax)%float; reflexivity.
Qed.

End Runs.

(** ** Which step raises what *)

Section Raises.

Context {platform : Platform}.

Lemma math_floor_raises (x : float) (e : exn) (a : assertion) :
  math_floor x = Err e -> e <> AssertionError a.
Proof.
  unfold math_floor. destruct (Prim2SF x); intros H; inversion H; discriminate.
Qed.

Lemma py_int_raises (x : float) (e : exn) (a : assertion) :
  py_int x = Err e -> e <> AssertionError a.
Proof.
  unfold py_int. destruct (Prim2SF x); intros H; inversion H; discriminate.
Qed.

Lemma py_round_raises (x : float) (n : Z) (e : exn) (a : assertion) :
  py_round x n = Err e -> e <> AssertionError a.
Proof.
  unfold py_round, double_round.
  destruct (Prim2SF x); try discriminate.
  destruct (NDIGITS_MAX <? n); try discriminate.
  destruct (n <? NDIGITS_MIN); try discriminate.
  destruct (is_infinity _); intros H; inversion H; discriminate.
Qed.

Lemma py_truediv_raises (x y : float) (e : exn) (a : assertion) :
  py_truediv x y = Err e -> e <> AssertionError a.
Proof.
  unfold py_truediv. destruct (y =? 0)%float; intros H; inversion H; discriminate.
Qed.

Lemma float_item_raises (v : pyval) (k : string) (e : exn) (a : assertion) :
  float_item v k = Err e -> e <> AssertionError a.
Proof.
  unfold float_item, py_getitem.
  destruct v as [| | | | |l|d]; cbn [rbind]; try (intros H; inversion H; discriminate).
  destruct (assoc k d) as [x|]; cbn [rbind]; [|intros H; inversion H; discriminate].
  unfold py_float. destruct x as [|b|z|f|s|l|d']; try (intros H; inversion H; discriminate).
  - destruct (is_infinity _); intros H; inversion H; discriminate.
  - destruct (str_to_float s); intros H; inversion H; discriminate.
Qed.

Lemma sigfigs_raises (x : float) (e : exn) (a : assertion) :
  _get_currency_sigfigs x = Err e -> e = AssertionError a -> a = increment_positive.
Proof.
  unfold _get_currency_sigfigs. destruct (0 <? x)%float.
  - destruct (math_floor (math_log10 x)) as [n|e'] eqn:E; cbn [rbind]; [discriminate|].
    intros H; inversion H; subst e'. intros ->.
    now apply math_floor_raises with (a := a) in E.
  - intros H; inversion H. intros H'; inversion H'. reflexivity.
Qed.

Lemma price_adjusted_raises (side : Side) (product : pyval) (e : exn) (a : assertion) :
  price_adjusted side product = Err e -> e = AssertionError a -> a = increment_positive.
Proof.
  unfold price_adjusted.
  destruct (float_item product "quote_increment") as [qi|e1] eqn:E1; cbn [rbind].
  2:{ intros H; inversion H; subst e1. intros ->.
      now apply float_item_raises with (a := a) in E1. }
  destruct (_get_currency_sigfigs qi) as [n|e2] eqn:E2; cbn [rbind].
  2:{ intros H; inversion H; subst e2. now apply sigfigs_raises with (x := qi). }
  destruct (float_item product "price") as [p|e3] eqn:E3; cbn [rbind].
  2:{ intros H; inversion H; subst e3. intros ->.
      now apply float_item_raises with (a := a) in E3. }
  intros H ->. now apply py_round_raises with (a := a) in H.
Qed.

Lemma base_size_rounded_raises (qs pa : float) (product : pyval) (e : exn)
    (a : assertion) :
  base_size_rounded qs pa product = Err e -> e = AssertionError a ->
  a = increment_positive.
Proof.
  unfold base_size_rounded.
  destruct (float_item product "base_increment") as [bi|e1] eqn:E1; cbn [rbind].
  2:{ intros H; inversion H; subst e1. intros ->.
      now apply float_item_raises with (a := a) in E1. }
  destruct (_get_currency_sigfigs bi) as [n|e2] eqn:E2; cbn [rbind].
  2:{ intros H; inversion H; subst e2. now apply sigfigs_raises with (x := bi). }
  destruct (py_truediv qs pa) as [q|e3] eqn:E3; cbn [rbind].
  2:{ intros H; inversion H; subst e3. intros ->.
      now apply py_truediv_raises with (a := a) in E3. }
  intros H ->. now apply py_round_raises with (a := a) in H.
Qed.

Lemma _request_raises (self : CoinbaseDCA) (method : HTTPMethod)
    (resource body : string) (w : World) (e : exn) (a : assertion) :
  fst (_request self method resource body w) = Err e -> e <> AssertionError a.
Proof.
  rewrite _request_run.
  destruct (py_int (clock w (clock_reads w))) as [t|e1] eqn:E1.
  - cbv zeta. destruct (server w (List.length (sent w))) as [|status data].
    + intros H; inversion H; discriminate.
    + destruct (status =? UNAUTHORIZED); [discriminate|].
      destruct data; intros H; inversion H; discriminate.
  - intros H; inversion H; subst e1. now apply py_int_raises with (x := clock w (clock_reads w)).
Qed.

(** A size check fails exactly when its comparison does. *)
Lemma order_checks_raises (side : Side) (qs : float) (product : pyval)
    (a : assertion) :
  order_checks side qs product = Err (AssertionError a) ->
  match a with
  | quote_min =>
      exists qmin, float_item product "quote_min_size" = Ok qmin
                   /\ (qmin <=? qs)%float = false
  | quote_max =>
      exists qmax, float_item product "quote_max_size" = Ok qmax
                   /\ (qs <=? qmax)%float = false
  | base_min =>
      exists pa bs bmin,
        price_adjusted side product = Ok pa
        /\ base_size_rounded qs pa product = Ok bs
        /\ float_item product "base_min_size" = Ok bmin
        /\ (bmin <=? bs)%float = false
  | base_max =>
      exists pa bs bmax,
        price_adjusted side product = Ok pa
        /\ base_size_rounded qs pa product = Ok bs
        /\ float_item product "base_max_size" = Ok bmax
        /\ (bs <=? bmax)%float = false
  | increment_positive => True
  | pair_listed => False
  end.
Proof.
  unfold order_checks.
  destruct (float_item product "quote_min_size") as [qmin|e] eqn:E1; cbn [rbind].
  2:{ intros H; inversion H; subst e. now apply float_item_raises with (a := a) in E1. }
  destruct (qmin <=? qs)%float eqn:L1; cbn [negb].
  2:{ intros H; inversion H; subst a. eauto. }
  destruct (float_item product "quote_max_size") as [qmax|e] eqn:E2; cbn [rbind].
  2:{ intros H; inversion H; subst e. now apply float_item_raises with (a := a) in E2. }
  destruct (qs <=? qmax)%float eqn:L2; cbn [negb].
  2:{ intros H; inversion H; subst a. eauto. }
  destruct (price_adjusted side product) as [pa|e] eqn:E3; cbn [rbind].
  2:{ intros H; inversion H; subst e.
      now rewrite (price_adjusted_raises _ _ _ a E3 eq_refl). }
  destruct (base_size_rounded qs pa product) as [bs|e] eqn:E4; cbn [rbind].
  2:{ intros H; inversion H; subst e.
      now rewrite (base_size_rounded_raises _ _ _ _ a E4 eq_refl). }
  destruct (float_item product "base_min_size") as [bmin|e] eqn:E5; cbn [rbind].
  2:{ intros H; inversion H; subst e. now apply float_item_raises with (a := a) in E5. }
  destruct (bmin <=? bs)%float eqn:L3; cbn [negb].
  2:{ intros H; inversion H; subst a. eauto 8. }
  destruct (float_item product "base_max_size") as [bmax|e] eqn:E6; cbn [rbind].
  2:{ intros H; inversion H; subst e. now apply float_item_raises with (a := a) in E6. }
  destruct (bs <=? bmax)%float eqn:L4; cbn [negb].
  2:{ intros H; inversion H; subst a. eauto 8. }
  discriminate.
Qed.

End Raises.

Section Listing.

Context {platform : Platform}.
Variable self : CoinbaseDCA.

Lemma list_products_ok (w w1 : World) (products : list pyval) :
  list_products self w = (Ok products, w1) ->
  exists t response,
    py_int (clock w (clock_reads w)) = Ok t
    /\ server w (List.length (sent w)) = Reply (fst response) (Some (snd response))
    /\ (fst response =? UNAUTHORIZED) = false
    /\ listing_ids (snd response) = Ok products
    /\ w1 = send (signed_request self GET "products" "" t) (tick w).
Proof.
  rewrite list_products_run, _request_run.
  destruct (py_int (clock w (clock_reads w))) as [t|e]; [|discriminate].
  cbv zeta.
  destruct (server w (List.length (sent w))) as [|status data]; [discriminate|].
  destruct (status =? UNAUTHORIZED) eqn:S; [discriminate|].
  destruct data as [v|]; [|discriminate].
  cbn [json_loads]. intros H; inversion H; subst.
  exists t, (status, v). cbn [fst snd]. auto.
Qed.

Lemma get_product_ok (pair : Pair) (w w2 : World) (product : pyval) :
  get_product self pair w = (Ok product, w2) ->
  exists t,
    py_int (clock w (clock_reads w)) = Ok t
    /\ sent w2
       = (sent w ++ [signed_request self GET ("products/" ++ Pair_value pair) "" t])%list
    /\ urandom_reads w2 = urandom_reads w.
Proof.
  rewrite get_product_run, _request_run.
  destruct (py_int (clock w (clock_reads w))) as [t|e]; [|discriminate].
  cbv zeta.
  destruct (server w (List.length (sent w))) as [|status data]; [discriminate|].
  destruct (status =? UNAUTHORIZED).
  - intros H; inversion H; subst. exists t. auto.
  - destruct data as [v|]; [|discriminate].
    intros H; inversion H; subst. exists t. auto.
Qed.

End Listing.

(** C4. Once the pair is listed and its product is fetched, [create_order]
    checks the spend amount against [quote_min_size] and [quote_max_size] and
    the base quantity against [base_min_size] and [base_max_size], bounds
    included: a value equal to a bound passes that check, and when all four
    comparisons hold the order is sent; a value strictly below the minimum
    or strictly above the maximum fails an assertion that the design document
    calls [SizeOutOfBoundsError], and the call ends after the two GET
    requests, with no order sent. *)
Theorem C4_inclusive_bounds :
  forall (platform : Platform) (self : CoinbaseDCA) (side : Side) (pair : Pair)
         (qs : float) (w w1 w2 : World) (products : list pyval)
         (product : pyval) (qmin qmax : float),
    list_products self w = (Ok products, w1) ->
    py_in (Pair_value pair) products = true ->
    get_product self pair w1 = (Ok product, w2) ->
    float_item product "quote_min_size" = Ok qmin ->
    float_item product "quote_max_size" = Ok qmax ->
    let run := create_order self side pair qs w in
    (exists t1 t2,
        sent w2 = (sent w ++ [signed_request self GET "products" "" t1;
                              signed_request self GET ("products/" ++ Pair_value pair) "" t2])%list)
    /\ ((qs <? qmin)%float = true ->
        run = (Err (AssertionError quote_min), w2))
    /\ ((qmax <? qs)%float = true ->
        exists a, spec_error_of a = SizeOutOfBoundsError
                  /\ run = (Err (AssertionError a), w2))
    /\ ((qs =? qmin)%float = true -> fst run <> Err (AssertionError quote_min))
    /\ ((qs =? qmax)%float = true -> fst run <> Err (AssertionError quote_max))
    /\ (forall pa bs bmin bmax : float,
        (qmin <=? qs)%float = true ->
        (qs <=? qmax)%float = true ->
        price_adjusted side product = Ok pa ->
        base_size_rounded qs pa product = Ok bs ->
        float_item product "base_min_size" = Ok bmin ->
        float_item product "base_max_size" = Ok bmax ->
        ((bs <? bmin)%float = true ->
         run = (Err (AssertionError base_min), w2))
        /\ ((bmax <? bs)%float = true ->
            exists a, spec_error_of a = SizeOutOfBoundsError
                      /\ run = (Err (AssertionError a), w2))
        /\ ((bs =? bmin)%float = true -> fst run <> Err (AssertionError base_min))
        /\ ((bs =? bmax)%float = true -> fst run <> Err (AssertionError base_max))
        /\ ((bmin <=? bs)%float = true ->
            (bs <=? bmax)%float = true ->
            run = _request self POST "orders"
                    (json_dumps (order_body side pair
                                   (uuid4_int (urandom w2 (urandom_reads w2))) pa bs))
                    (draw w2))).
Proof.
  intros platform self side pair qs w w1 w2 products product qmin qmax
    Hlist Hin Hget Hqmin Hqmax run.
  assert (Hrun : run = match order_checks side qs product with
                       | Err e => (Err e, w2)
                       | Ok (pa, bs) =>
                           _request self POST "orders"
                             (json_dumps (order_body side pair
                                (uuid4_int (urandom w2 (urandom_reads w2))) pa bs))
                             (draw w2)
                       end).
  { unfold run. rewrite create_order_run, Hlist, Hin, Hget. reflexivity. }
  assert (Hno : forall a,
             fst run = Err (AssertionError a) ->
             order_checks side qs product = Err (AssertionError a)).
  { intros a. rewrite Hrun.
    destruct (order_checks side qs product) as [[pa bs]|e].
    - intros H. now apply _request_raises with (a := a) in H.
    - cbn [fst]. intros H; inversion H; reflexivity. }
  clearbody run.
  refine (conj _ (conj _ (conj _ (conj _ (conj _ _))))).
  - destruct (list_products_ok self _ _ _ Hlist) as (t1 & r & _ & _ & _ & _ & ->).
    destruct (get_product_ok self _ _ _ _ Hget) as (t2 & _ & -> & _).
    exists t1, t2. cbn [sent send tick]. rewrite <- app_assoc. reflexivity.
  - intros Hlt. rewrite Hrun. unfold order_checks.
    rewrite Hqmin. cbn [rbind]. rewrite (float_ltb_not_leb _ _ Hlt). reflexivity.
  - intros Hlt. rewrite Hrun. unfold order_checks.
    rewrite Hqmin. cbn [rbind].
    destruct (qmin <=? qs)%float; cbn [negb].
    + rewrite Hqmax. cbn [rbind]. rewrite (float_ltb_not_leb _ _ Hlt).
      exists quote_max. split; reflexivity.
    + exists quote_min. split; reflexivity.
  - intros Heq Hfail. apply Hno, order_checks_raises in Hfail.
    destruct Hfail as (qmin' & E & L). rewrite Hqmin in E. inversion E; subst qmin'.
    apply float_eqb_leb in Heq. destruct Heq as [_ Heq]. congruence.
  - intros Heq Hfail. apply Hno, order_checks_raises in Hfail.
    destruct Hfail as (qmax' & E & L). rewrite Hqmax in E. inversion E; subst qmax'.
    apply float_eqb_leb in Heq. destruct Heq as [Heq _]. congruence.
  - intros pa bs bmin bmax Lmin Lmax Hpa Hbs Hbmin Hbmax.
    assert (Hchecks : order_checks side qs product =
                      if negb (bmin <=? bs)%float then Err (AssertionError base_min)
                      else if negb (bs <=? bmax)%float then Err (AssertionError base_max)
                      else Ok (pa, bs)).
    { unfold order_checks. rewrite Hqmin. cbn [rbind]. rewrite Lmin. cbn [negb].
      rewrite Hqmax. cbn [rbind]. rewrite Lmax. cbn [negb].
      rewrite Hpa. cbn [rbind]. rewrite Hbs. cbn [rbind].
      rewrite Hbmin. cbn [rbind].
      destruct (bmin <=? bs)%float; cbn [negb]; [|reflexivity].
      rewrite Hbmax. reflexivity. }
    refine (conj _ (conj _ (conj _ (conj _ _)))).
    + intros Hlt. rewrite Hrun, Hchecks, (float_ltb_not_leb _ _ Hlt). reflexivity.
    + intros Hlt. rewrite Hrun, Hchecks, (float_ltb_not_leb _ _ Hlt).
      destruct (bmin <=? bs)%float; cbn [negb].
      * exists base_max. split; reflexivity.
      * exists base_min. split; reflexivity.
    + intros Heq Hfail. apply Hno in Hfail. rewrite Hchecks in Hfail.
      apply float_eqb_leb in Heq. destruct Heq as [_ Heq]. rewrite Heq in Hfail.
      cbn [negb] in Hfail. destruct (bs <=? bmax)%float; discriminate.
    + intros Heq Hfail. apply Hno in Hfail. rewrite Hchecks in Hfail.
      apply float_eqb_leb in Heq. destruct Heq as [Heq _]. rewrite Heq in Hfail.
      cbn [negb] in Hfail. destruct (bmin <=? bs)%float; discriminate.
    + intros L3 L4. rewrite Hrun, Hchecks, L3, L4. reflexivity.
Qed.

Lemma C4_witness :
  let run qs p :=
    @create_order Reference.platform Reference.dca BUY BTC_USD qs
      (Reference.world (Reference.exchange_with p)) in
  fst (run 0.5%float Reference.product) = Err (AssertionError quote_min)
  /\ List.length (sent (snd (run 0.5%float Reference.product))) = 2%nat
  /\ (exists a, spec_error_of a = SizeOutOfBoundsError
                 /\ fst (run 20000000%float Reference.product) = Err (AssertionError a))
  /\ fst (run 1%float Reference.product) <> Err (AssertionError quote_min)
  /\ fst (run 10000000%float Reference.product) <> Err (AssertionError quote_max)
  /\ fst (run 10%float (Reference.product_with "0.001" "3400"))
     = Err (AssertionError base_min)
  /\ (exists a, spec_error_of a = SizeOutOfBoundsError
                 /\ fst (run 10%float (Reference.product_with "0.00000001" "0.0001"))
                    = Err (AssertionError a))
  /\ fst (run 10%float (Reference.product_with "0.0002004" "3400"))
     <> Err (AssertionError base_min)
  /\ fst (run 10%float (Reference.product_with "0.00000001" "0.0002004"))
     <> Err (AssertionError base_max)
  /\ List.length (sent (snd (run 10%float (Reference.product_with "0.0002004" "3400"))))
     = 3%nat.
Proof.
  intros run.
  pose (W p := Reference.world (Reference.exchange_with p)).
  pose (W1 p := snd (@list_products Reference.platform Reference.dca (W p))).
  pose (W2 p := snd (@get_product Reference.platform Reference.dca BTC_USD (W1 p))).
  assert (T : forall qs bmin bmax,
             _ /\ _ /\ _ /\ _ /\ _ /\ _)
    by (intros qs bmin bmax;
        exact (C4_inclusive_bounds Reference.platform Reference.dca BUY BTC_USD qs
                 (W (Reference.product_with bmin bmax))
                 (W1 (Reference.product_with bmin bmax))
                 (W2 (Reference.product_with bmin bmax))
                 [PStr "BTC-USD"; PStr "ETH-USD"]
                 (Reference.product_with bmin bmax) 1%float 10000000%float
                 eq_refl eq_refl eq_refl eq_refl eq_refl)).
  cbv zeta in T.
  refine (conj _ (conj _ (conj _ (conj _ (conj _ (conj _ (conj _ (conj _ (conj _ _))))))))).
  - destruct (T 0.5%float "0.00000001" "3400") as (_ & B & _).
    unfold run. fold (W Reference.product). unfold Reference.product.
    rewrite B; [reflexivity | vm_compute; reflexivity].
  - destruct (T 0.5%float "0.00000001" "3400") as ((t1 & t2 & S) & B & _).
    unfold run. fold (W Reference.product). unfold Reference.product.
    rewrite B; [| vm_compute; reflexivity].
    cbn [snd]. rewrite S. reflexivity.
  - destruct (T 20000000%float "0.00000001" "3400") as (_ & _ & B & _).
    destruct B as (a & Ha & B); [vm_compute; reflexivity|].
    exists a. split; [exact Ha|].
    unfold run. fold (W Reference.product). unfold Reference.product.
    rewrite B. reflexivity.
  - destruct (T 1%float "0.00000001" "3400") as (_ & _ & _ & B & _).
    apply B. vm_compute; reflexivity.
  - destruct (T 10000000%float "0.00000001" "3400") as (_ & _ & _ & _ & B & _).
    apply B. vm_compute; reflexivity.
  - destruct (T 10%float "0.001" "3400") as (_ & _ & _ & _ & _ & B).
    destruct (B 49900%float 0.0002004%float 0.001%float 3400%float eq_refl eq_refl eq_refl eq_refl eq_refl eq_refl)
      as (B1 & _).
    unfold run. fold (W (Reference.product_with "0.001" "3400")).
    rewrite B1; [reflexivity | vm_compute; reflexivity].
  - destruct (T 10%float "0.00000001" "0.0001") as (_ & _ & _ & _ & _ & B).
    destruct (B 49900%float 0.0002004%float 0.00000001%float 0.0001%float eq_refl eq_refl eq_refl eq_refl eq_refl eq_refl)
      as (_ & B2 & _).
    destruct B2 as (a & Ha & B2); [vm_compute; reflexivity|].
    exists a. split; [exact Ha|].
    unfold run. fold (W (Reference.product_with "0.00000001" "0.0001")).
    rewrite B2. reflexivity.
  - destruct (T 10%float "0.0002004" "3400") as (_ & _ & _ & _ & _ & B).
    destruct (B 49900%float 0.0002004%float 0.0002004%float 3400%float eq_refl eq_refl eq_refl eq_refl eq_refl eq_refl)
      as (_ & _ & B3 & _).
    apply B3. vm_compute; reflexivity.
  - destruct (T 10%float "0.00000001" "0.0002004") as (_ & _ & _ & _ & _ & B).
    destruct (B 49900%float 0.0002004%float 0.00000001%float 0.0002004%float eq_refl eq_refl eq_refl eq_refl eq_refl eq_refl)
      as (_ & _ & _ & B4 & _).
    apply B4. vm_compute; reflexivity.
  - destruct (T 10%float "0.0002004" "3400") as (_ & _ & _ & _ & _ & B).
    destruct (B 49900%float 0.0002004%float 0.0002004%float 3400%float eq_refl eq_refl eq_refl eq_refl eq_refl eq_refl)
      as (_ & _ & _ & _ & B5).
    unfold run. fold (W (Reference.product_with "0.0002004" "3400")).
    rewrite B5; [|vm_compute; reflexivity ..].
    vm_compute. reflexivity.
Defined.

(** ** Runs as a relation *)

Section RunRelation.

Context {platform : Platform}.
Variable self : CoinbaseDCA.

Lemma request_run_intro (method : HTTPMethod) (resource body : string) (w : World) :
  request_run self method resource body w
    (fst (_request self method resource body w))
    (snd (_request self method resource body w)).
Proof.
  rewrite _request_run.
  destruct (py_int (clock w (clock_reads w))) as [t|e] eqn:E.
  - cbv zeta.
    destruct (server w (List.length (sent w))) as [|status data] eqn:R.
    + now apply rq_no_reply.
    + destruct (status =? UNAUTHORIZED) eqn:S.
      * now apply rq_unauthorized with (status := status) (data := data).
      * now apply rq_reply with (status := status).
  - now apply rq_clock.
Qed.

Lemma order_run_intro (side : Side) (pair : Pair) (qs : float) (w : World) :
  order_run self side pair qs w
    (fst (create_order self side pair qs w))
    (snd (create_order self side pair qs w)).
Proof.
  rewrite create_order_run, list_products_run.
  pose proof (request_run_intro GET "products" "" w) as R1.
  destruct (_request self GET "products" "" w) as [[response|e] w1];
    cbn [fst snd] in R1; [|now apply or_listing_fails].
  destruct (listing_ids response) as [products|e] eqn:L;
    [|now apply or_listing_unreadable with (response := response)].
  destruct (py_in (Pair_value pair) products) eqn:I;
    [|now apply or_unlisted with (response := response) (products := products)].
  rewrite get_product_run.
  pose proof (request_run_intro GET ("products/" ++ Pair_value pair) "" w1) as R2.
  destruct (_request self GET ("products/" ++ Pair_value pair) "" w1)
    as [[product|e] w2]; cbn [fst snd] in R2;
    [|now apply or_product_fails with (response := response)
                                      (products := products) (w1 := w1)].
  destruct (order_checks side qs product) as [[pa bs]|e] eqn:C;
    [|now apply or_rejected with (response := response) (product := product)
                                 (products := products) (w1 := w1)].
  eapply or_submitted; eauto using request_run_intro.
Qed.

(** What a call of [_request] leaves behind. *)
Lemma request_run_effects (method : HTTPMethod) (resource body : string)
    (w w' : World) (r : result pyval) :
  request_run self method resource body w r w' ->
  clock w' = clock w /\ urandom w' = urandom w /\ server w' = server w
  /\ urandom_reads w' = urandom_reads w
  /\ clock_reads w' = S (clock_reads w)
  /\ ((sent w' = sent w /\ stdout w' = stdout w /\ exists e, r = Err e)
      \/ (exists t,
             py_int (clock w (clock_reads w)) = Ok t
             /\ sent w' = (sent w ++ [signed_request self method resource body t])%list
             /\ ((stdout w' = stdout w
                  /\ (forall data, server w (List.length (sent w))
                                   <> Reply UNAUTHORIZED data))
                 \/ (stdout w' = (stdout w ++ [unauthorized_message])%list
                     /\ r = Ok PNone
                     /\ exists data, server w (List.length (sent w))
                                     = Reply UNAUTHORIZED data)))).
Proof.
  intros R. destruct R as [e E|t E S|t status data E S U|t status data E S U];
    cbn [clock urandom server urandom_reads clock_reads sent stdout tick send emit];
    repeat (split; [reflexivity|]).
  - left. eauto.
  - right. exists t. repeat (split; [assumption || reflexivity|]).
    left. split; [reflexivity|]. intros data. rewrite S. discriminate.
  - right. exists t. repeat (split; [assumption || reflexivity|]).
    right. apply Z.eqb_eq in U. subst status. eauto.
  - right. exists t. repeat (split; [assumption || reflexivity|]).
    left. split; [reflexivity|]. intros data' H. rewrite S in H.
    inversion H; subst status. discriminate.
Qed.

End RunRelation.

(** ** The trace of a run *)

Section Trace.

Context {platform : Platform}.
Variable self : CoinbaseDCA.

Lemma request_run_ok (method : HTTPMethod) (resource body : string)
    (w w' : World) (v : pyval) :
  request_run self method resource body w (Ok v) w' ->
  exists t,
    (v = PNone
     /\ w' = emit unauthorized_message
               (send (signed_request self method resource body t) (tick w))
     /\ exists data, server w (List.length (sent w)) = Reply UNAUTHORIZED data)
    \/ (w' = send (signed_request self method resource body t) (tick w)
        /\ answered w (List.length (sent w)) v).
Proof.
  intros R. inversion R as [| |t status data E S U|t status data E S U J]; subst.
  - exists t. left. apply Z.eqb_eq in U. subst status. eauto.
  - exists t. right. split; [reflexivity|].
    destruct data as [v'|]; [|discriminate].
    cbn [json_loads] in J. inversion J; subst v'. exists status. auto.
Qed.

Lemma request_run_last (method : HTTPMethod) (resource body : string)
    (w w' : World) (r on401 : result pyval) :
  request_run self method resource body w r w' ->
  (r = Ok PNone -> on401 = Ok PNone) ->
  (sent w' = sent w /\ stdout w' = stdout w /\ exists e, r = Err e)
  \/ exists t,
       sent w' = (sent w ++ [signed_request self method resource body t])%list
       /\ ((stdout w' = stdout w
            /\ forall data, server w (List.length (sent w)) <> Reply UNAUTHORIZED data)
           \/ (stdout w' = (stdout w ++ [unauthorized_message])%list
               /\ r = Ok PNone
               /\ exists data, server w (List.length (sent w)) = Reply UNAUTHORIZED data)).
Proof.
  intros R _. destruct (request_run_effects self _ _ _ _ _ _ R)
    as (_ & _ & _ & _ & _ & [H|(t & _ & S & H)]).
  - left. exact H.
  - right. exists t. split; [exact S|]. destruct H as [H|(H1 & H2 & H3)]; auto.
Qed.

Lemma listing_ids_None : listing_ids PNone = Err TypeError.
Proof. reflexivity. Qed.

Lemma order_checks_None (side : Side) (qs : float) :
  order_checks side qs PNone = Err TypeError.
Proof. reflexivity. Qed.

Theorem order_run_trace (side : Side) (pair : Pair) (qs : float) (w w' : World)
    (r : result pyval) :
  order_run self side pair qs w r w' ->
  order_trace self side pair qs w r w'
  /\ clock w' = clock w /\ urandom w' = urandom w /\ server w' = server w.
Proof.
  intros R.
  assert (first_fails :
            forall e w1, request_run self GET "products" "" w (Err e) w1 ->
                         order_trace self side pair qs w (Err e) w1
                         /\ clock w1 = clock w /\ urandom w1 = urandom w
                         /\ server w1 = server w).
  { intros e w1 R1.
    destruct (request_run_effects self _ _ _ _ _ _ R1)
      as (C & U & S & UR & _ & [(H1 & H2 & _)|(t & _ & H1 & H)]).
    - split; [|auto]. apply trace_none; eauto.
    - split; [|auto]. apply trace_listing with (t1 := t); eauto.
      destruct H as [H|(_ & H & _)]; [|discriminate]. left. exact H. }
  assert (first_unusable :
            forall response e w1,
              request_run self GET "products" "" w (Ok response) w1 ->
              (response = PNone -> e = TypeError) ->
              order_trace self side pair qs w (Err e) w1
              /\ clock w1 = clock w /\ urandom w1 = urandom w
              /\ server w1 = server w).
  { intros response e w1 R1 He.
    destruct (request_run_effects self _ _ _ _ _ _ R1)
      as (C & U & S & UR & _ & [(_ & _ & e' & H)|(t & _ & H1 & H)]);
      [discriminate|].
    split; [|auto]. apply trace_listing with (t1 := t); eauto.
    destruct H as [H|(H2 & H3 & H4)]; [left; exact H|].
    right. inversion H3; subst response. rewrite (He eq_refl). auto. }
  destruct R as [e w1 R1
                |response e w1 R1 L
                |response products w1 R1 L I
                |response products e w1 w2 R1 L I R2
                |response product products e w1 w2 R1 L I R2 C
                |response product products pa bs r w1 w2 w3 R1 L I R2 C R3].
  - now apply first_fails.
  - apply first_unusable with (response := response); [exact R1|].
    intros ->. rewrite listing_ids_None in L. now inversion L.
  - apply first_unusable with (response := response); [exact R1|].
    intros ->. rewrite listing_ids_None in L. discriminate.
  - destruct (request_run_ok _ _ _ _ _ _ R1) as (t1 & [(-> & _)|(-> & A1)]);
      [rewrite listing_ids_None in L; discriminate|].
    destruct (request_run_effects self _ _ _ _ _ _ R2)
      as (C2 & U2 & S2 & UR2 & _ & [(H1 & H2 & _)|(t2 & _ & H1 & H)]);
      cbn [clock urandom server urandom_reads sent stdout send tick] in *.
    + split; [|auto]. apply trace_listing with (t1 := t1); eauto.
      left. split; [exact H2|]. intros data D.
      destruct A1 as (s & A1 & A2). rewrite A1 in D. inversion D; subst s.
      discriminate.
    + split; [|auto].
      apply trace_product with (t1 := t1) (t2 := t2) (response := response); eauto.
      * rewrite H1, <- app_assoc. reflexivity.
      * rewrite length_app, Nat.add_comm in H. cbn [List.length plus] in H.
        destruct H as [H|(_ & H & _)]; [left; exact H|discriminate].
  - destruct (request_run_ok _ _ _ _ _ _ R1) as (t1 & [(-> & _)|(-> & A1)]);
      [rewrite listing_ids_None in L; discriminate|].
    destruct (request_run_effects self _ _ _ _ _ _ R2)
      as (C2 & U2 & S2 & UR2 & _ & [(_ & _ & e' & H)|(t2 & _ & H1 & H)]);
      [discriminate|];
      cbn [clock urandom server urandom_reads sent stdout send tick] in *.
    split; [|auto].
    apply trace_product with (t1 := t1) (t2 := t2) (response := response); eauto.
    + rewrite H1, <- app_assoc. reflexivity.
    + rewrite length_app, Nat.add_comm in H. cbn [List.length plus] in H.
      destruct H as [H|(H2 & H3 & H4)]; [left; exact H|].
      right. inversion H3; subst product.
      rewrite order_checks_None in C. inversion C; subst e. auto.
  - destruct (request_run_ok _ _ _ _ _ _ R1) as (t1 & [(-> & _)|(-> & A1)]);
      [rewrite listing_ids_None in L; discriminate|].
    destruct (request_run_ok _ _ _ _ _ _ R2) as (t2 & [(-> & _)|(-> & A2)]);
      [rewrite order_checks_None in C; discriminate|].
    cbn [clock urandom server urandom_reads sent stdout send tick draw] in *.
    rewrite length_app, Nat.add_comm in A2. cbn [List.length plus] in A2.
    destruct (request_run_effects self _ _ _ _ _ _ R3)
      as (C3 & U3 & S3 & UR3 & _ & H);
      cbn [clock urandom server urandom_reads sent stdout send tick draw] in *.
    split; [|auto].
    destruct H as [(H1 & H2 & e & ->)|(t3 & _ & H1 & H)].
    + apply trace_unsent with (t1 := t1) (t2 := t2) (response := response)
                              (product := product) (pa := pa) (bs := bs); eauto.
      rewrite H1, <- app_assoc. reflexivity.
    + apply trace_order with (t1 := t1) (t2 := t2) (t3 := t3)
                             (response := response) (product := product)
                             (pa := pa) (bs := bs); eauto.
      * rewrite H1, <- !app_assoc. reflexivity.
      * rewrite !length_app in H. cbn [List.length] in H.
        replace (List.length (sent w) + 1 + 1)%nat
          with (S (S (List.length (sent w)))) in H by lia.
        exact H.
Qed.

End Trace.

Lemma request_platform (p p' : Platform) (self : CoinbaseDCA)
    (method : HTTPMethod) (resource body : string) (w : World) :
  @hmac_sha256_hexdigest p' = @hmac_sha256_hexdigest p ->
  @_request p' self method resource body w = @_request p self method resource body w.
Proof.
  intros H. rewrite !_request_run. unfold signed_request. rewrite H. reflexivity.
Qed.

(** C5. When the pair is not in the listing that the exchange returns,
    [create_order] fails the assertion of line 63, which the design document
    calls [UnsupportedPairError].  The listing request is the only request
    sent: the product is not fetched and no order is sent, no identifier is
    drawn, and the outcome does not depend on the platform's [log10] or
    decimal parser, which the sizing would call. *)
Theorem C5_unlisted_pair :
  forall (platform : Platform) (self : CoinbaseDCA) (side : Side) (pair : Pair)
         (qs : float) (w w1 : World) (products : list pyval),
    list_products self w = (Ok products, w1) ->
    py_in (Pair_value pair) products = false ->
    create_order self side pair qs w = (Err (AssertionError pair_listed), w1)
    /\ spec_error_of pair_listed = UnsupportedPairError
    /\ (exists t, sent w1 = (sent w ++ [listing_request self t])%list)
    /\ urandom_reads w1 = urandom_reads w
    /\ stdout w1 = stdout w
    /\ (forall platform' : Platform,
           @hmac_sha256_hexdigest platform' = @hmac_sha256_hexdigest platform ->
           @create_order platform' self side pair qs w
           = (Err (AssertionError pair_listed), w1)).
Proof.
  intros platform self side pair qs w w1 products Hlist Hin.
  refine (conj _ (conj eq_refl (conj _ (conj _ (conj _ _))))).
  - rewrite create_order_run, Hlist, Hin. reflexivity.
  - destruct (list_products_ok self _ _ _ Hlist) as (t & _ & _ & _ & _ & _ & ->).
    exists t. reflexivity.
  - destruct (list_products_ok self _ _ _ Hlist) as (t & _ & _ & _ & _ & _ & ->).
    reflexivity.
  - destruct (list_products_ok self _ _ _ Hlist) as (t & _ & _ & _ & _ & _ & ->).
    reflexivity.
  - intros platform' H.
    rewrite create_order_run, list_products_run, (request_platform platform platform' _ _ _ _ _ H).
    rewrite list_products_run in Hlist.
    destruct (_request self GET "products" "" w) as [[response|e] w0];
      [|discriminate].
    inversion Hlist as [[L E]]. rewrite L, Hin. reflexivity.
Qed.

Lemma C5_witness :
  let w := Reference.world Reference.exchange in
  @create_order Reference.platform Reference.dca BUY BTC_USDC 10 w
  = (Err (AssertionError pair_listed),
     snd (@list_products Reference.platform Reference.dca w))
  /\ List.length (sent (snd (@list_products Reference.platform Reference.dca w)))
     = 1%nat.
Proof.
  intros w.
  destruct (C5_unlisted_pair Reference.platform Reference.dca BUY BTC_USDC 10 w
              (snd (@list_products Reference.platform Reference.dca w))
              [PStr "BTC-USD"; PStr "ETH-USD"] eq_refl eq_refl)
    as (H & _ & (t & S) & _).
  split; [exact H|]. rewrite S. reflexivity.
Defined.

(** C6. When the reply to a request has status 401, [_request] returns
    [None] to its caller and raises nothing; it prints one line and sends
    nothing besides the request that was answered.  That line tells this
    outcome from every other: [_request] prints only on a 401.  In a run of
    [create_order], a request answered with 401 is the last one sent, so no
    order is sent after it. *)
Theorem C6_unauthorized_returns_none :
  forall (platform : Platform) (self : CoinbaseDCA),
    (forall (method : HTTPMethod) (resource body : string) (w : World)
            (t : Z) (data : option pyval),
        py_int (clock w (clock_reads w)) = Ok t ->
        server w (List.length (sent w)) = Reply UNAUTHORIZED data ->
        _request self method resource body w
        = (Ok PNone,
           emit unauthorized_message
             (send (signed_request self method resource body t) (tick w))))
    /\ (forall (method : HTTPMethod) (resource body : string) (w : World),
        stdout (snd (_request self method resource body w)) <> stdout w ->
        fst (_request self method resource body w) = Ok PNone
        /\ exists data, server w (List.length (sent w)) = Reply UNAUTHORIZED data)
    /\ (forall (side : Side) (pair : Pair) (qs : float) (w : World) (i : nat)
               (data : option pyval),
        let w' := snd (create_order self side pair qs w) in
        (List.length (sent w) <= i < List.length (sent w'))%nat ->
        server w i = Reply UNAUTHORIZED data ->
        S i = List.length (sent w')).
Proof.
  intros platform self. refine (conj _ (conj _ _)).
  - intros method resource body w t data Ht Hs.
    rewrite _request_run, Ht. cbv zeta. rewrite Hs. reflexivity.
  - intros method resource body w Hout.
    destruct (request_run_effects self _ _ _ _ _ _
                (request_run_intro self method resource body w))
      as (_ & _ & _ & _ & _ & [(_ & H & _)|(t & _ & _ & [(H & _)|(_ & H1 & H2)])]).
    + contradiction.
    + contradiction.
    + auto.
  - intros side pair qs w i data w' Hi Hs.
    assert (A : forall j v d, answered w j v -> server w j = Reply UNAUTHORIZED d -> False).
    { intros j v d (s & A1 & A2) D. rewrite A1 in D. inversion D; subst s. discriminate. }
    destruct (order_run_trace self _ _ _ _ _ _ (order_run_intro self side pair qs w))
      as [T _].
    fold w' in T.
    destruct T as [HS _ _ _
                  |t1 HS _ _ _
                  |t1 t2 response A1 HS _ _ _
                  |t1 t2 response product pa bs A1 A2 _ HS _ _ _
                  |t1 t2 t3 response product pa bs A1 A2 _ HS _ _];
      rewrite HS in *; rewrite ?length_app in *; cbn [List.length] in *.
    + lia.
    + lia.
    + assert (i = List.length (sent w) \/ i = S (List.length (sent w))) as [->| ->] by lia.
      * exfalso. refine (A _ _ _ _ Hs); eassumption.
      * lia.
    + assert (i = List.length (sent w) \/ i = S (List.length (sent w))) as [->| ->] by lia.
      * exfalso. refine (A _ _ _ _ Hs); eassumption.
      * lia.
    + assert (i = List.length (sent w) \/ i = S (List.length (sent w))
              \/ i = S (S (List.length (sent w)))) as [->|[->| ->]] by lia.
      * exfalso. refine (A _ _ _ _ Hs); eassumption.
      * exfalso. refine (A _ _ _ _ Hs); eassumption.
      * lia.
Qed.

Lemma C6_witness :
  let w := Reference.world (fun _ => Reply 401 None) in
  fst (@_request Reference.platform Reference.dca POST "orders" "{}" w) = Ok PNone
  /\ (exists data, server w (List.length (sent w)) = Reply UNAUTHORIZED data)
  /\ List.length (sent (snd (@create_order Reference.platform Reference.dca
                               BUY BTC_USD 10 w))) = 1%nat.
Proof.
  intros w.
  destruct (C6_unauthorized_returns_none Reference.platform Reference.dca)
    as (A & D & B).
  refine (conj _ (conj _ _)).
  - rewrite (A POST "orders" "{}" w 1700000000 None eq_refl eq_refl). reflexivity.
  - apply (D GET "products" "" w). vm_compute. discriminate.
  - symmetry. apply (B BUY BTC_USD 10%float w 0%nat None).
    + vm_compute. split; apply le_n.
    + reflexivity.
Defined.

(** ** The calls of one order *)

(** C7 as stated fails: an order that goes through takes three requests, and
    a 401 leaves a line on the standard output. *)
Lemma C7_counterexample :
  ~ (List.length
       (sent (snd (@create_order Reference.platform Reference.dca BUY BTC_USD 10
                     (Reference.world Reference.exchange)))) <= 2)%nat
  /\ stdout (snd (@create_order Reference.platform Reference.dca BUY BTC_USD 10
                    (Reference.world (fun _ => Reply 401 None))))
     <> stdout (Reference.world (fun _ => Reply 401 None)).
Proof.
  split.
  - vm_compute. intros H.
    repeat match goal with
           | H : le _ _ |- _ => inversion H; clear H
           end.
  - vm_compute. discriminate.
Qed.

(** C7, amended. Every invocation of [create_order] issues at most three
    network calls, one after the other and in this order: the product
    listing, the product lookup, the order submission.  It reads the clock
    and the random source, and besides the calls it leaves one line on the
    standard output when a reply had status 401, and nothing else. *)
Theorem C7_at_most_three_calls :
  forall (platform : Platform) (self : CoinbaseDCA) (side : Side) (pair : Pair)
         (qs : float) (w : World),
    let w' := snd (create_order self side pair qs w) in
    (exists (l : list HTTPRequest) (k : nat),
        sent w' = (sent w ++ l)%list
        /\ (k <= 3)%nat
        /\ map call_of l = firstn k (calls_of_order pair))
    /\ (stdout w' = stdout w
        \/ stdout w' = (stdout w ++ [unauthorized_message])%list)
    /\ clock w' = clock w /\ urandom w' = urandom w /\ server w' = server w.
Proof.
  intros platform self side pair qs w w'.
  destruct (order_run_trace self _ _ _ _ _ _ (order_run_intro self side pair qs w))
    as [T F].
  fold w' in T, F. split; [|split; [|exact F]].
  - destruct T as [HS _ _ _
                  |t1 HS _ _ _
                  |t1 t2 response _ HS _ _ _
                  |t1 t2 response product pa bs _ _ _ HS _ _ _
                  |t1 t2 t3 response product pa bs _ _ _ HS _ _].
    + exists [], 0%nat. rewrite app_nil_r.
      split; [exact HS|split; [lia|reflexivity]].
    + eexists _, 1%nat. split; [exact HS|split; [lia|reflexivity]].
    + eexists _, 2%nat. split; [exact HS|split; [lia|reflexivity]].
    + eexists _, 2%nat. split; [exact HS|split; [lia|reflexivity]].
    + eexists _, 3%nat. split; [exact HS|split; [lia|reflexivity]].
  - destruct T as [_ HO _ _
                  |t1 _ _ _ L
                  |t1 t2 response _ _ _ _ L
                  |t1 t2 response product pa bs _ _ _ _ _ HO _
                  |t1 t2 t3 response product pa bs _ _ _ _ _ L];
      try (left; exact HO);
      destruct L as [[L _]|[L _]]; auto.
Qed.

Lemma nth_error_new {A} (old new : list A) (i : nat) (x : A) :
  nth_error (old ++ new) i = Some x ->
  (List.length old <= i)%nat ->
  nth_error new (i - List.length old) = Some x.
Proof. intros H L. now rewrite nth_error_app2 in H. Qed.

Section Signed.

Context {platform : Platform}.
Variable self : CoinbaseDCA.

Lemma signed_request_signed (method : HTTPMethod) (resource body : string) (t : Z) :
  signed_at self t (signed_request self method resource body t).
Proof. split; reflexivity. Qed.

End Signed.

(** C8. A request that [_request] builds carries in [CB-ACCESS-SIGN] the
    hexadecimal HMAC-SHA256, under the secret, of the timestamp, the method,
    the full path and the body put end to end, and in [CB-ACCESS-TIMESTAMP]
    that same timestamp: the whole seconds of the one clock reading the call
    makes.  Every request of a run of [create_order] is such a request. *)
Theorem C8_signature :
  forall (platform : Platform) (self : CoinbaseDCA),
    (forall (method : HTTPMethod) (resource body : string) (w : World),
        let w' := snd (_request self method resource body w) in
        clock_reads w' = S (clock_reads w)
        /\ match py_int (clock w (clock_reads w)) with
           | Ok t =>
               exists q,
                 sent w' = (sent w ++ [q])%list
                 /\ req_method q = HTTPMethod_value method
                 /\ req_url q = BASE_ENDPOINT ++ resource
                 /\ req_body q = body
                 /\ signed_at self t q
           | Err _ => sent w' = sent w
           end)
    /\ (forall (side : Side) (pair : Pair) (qs : float) (w : World) (i : nat)
               (q : HTTPRequest),
        nth_error (sent (snd (create_order self side pair qs w))) i = Some q ->
        (List.length (sent w) <= i)%nat ->
        exists t, signed_at self t q).
Proof.
  intros platform self. split.
  - intros method resource body w w'. unfold w'. rewrite _request_run.
    destruct (py_int (clock w (clock_reads w))) as [t|e]; [|split; reflexivity].
    cbv zeta.
    assert (G : exists q,
               (sent w ++ [signed_request self method resource body t])%list
               = (sent w ++ [q])%list
               /\ req_method q = HTTPMethod_value method
               /\ req_url q = BASE_ENDPOINT ++ resource
               /\ req_body q = body
               /\ signed_at self t q).
    { eexists. split; [reflexivity|].
      repeat (split; [reflexivity|]). apply signed_request_signed. }
    destruct (server w (List.length (sent w))) as [|status data];
      [|destruct (status =? UNAUTHORIZED)]; split; try reflexivity; exact G.
  - intros side pair qs w i q Hq Hi.
    destruct (order_run_trace self _ _ _ _ _ _ (order_run_intro self side pair qs w))
      as [T _].
    assert (C : forall l, sent (snd (create_order self side pair qs w))
                          = (sent w ++ l)%list ->
                          Forall (fun q => exists t, signed_at self t q) l ->
                          exists t, signed_at self t q).
    { intros l HS HF. rewrite HS in Hq. apply nth_error_new in Hq; [|exact Hi].
      apply nth_error_In in Hq. rewrite Forall_forall in HF. now apply HF. }
    destruct T as [HS _ _ _
                  |t1 HS _ _ _
                  |t1 t2 response _ HS _ _ _
                  |t1 t2 response product pa bs _ _ _ HS _ _ _
                  |t1 t2 t3 response product pa bs _ _ _ HS _ _].
    + apply (C []); [now rewrite app_nil_r|constructor].
    + apply (C _ HS). repeat constructor.
      eexists; apply signed_request_signed.
    + apply (C _ HS). repeat constructor; eexists; apply signed_request_signed.
    + apply (C _ HS). repeat constructor; eexists; apply signed_request_signed.
    + apply (C _ HS). repeat constructor; eexists; apply signed_request_signed.
Qed.

Lemma C8_witness :
  exists q,
    nth_error (sent (snd (@create_order Reference.platform Reference.dca BUY BTC_USD
                            10 (Reference.world Reference.exchange)))) 0
    = Some q
    /\ exists t, @signed_at Reference.platform Reference.dca t q.
Proof.
  exists (@listing_request Reference.platform Reference.dca 1700000000).
  split; [reflexivity|].
  destruct (C8_signature Reference.platform Reference.dca) as [_ B].
  apply (B BUY BTC_USD 10%float (Reference.world Reference.exchange) 0%nat).
  - reflexivity.
  - apply le_n.
Defined.

(** ** The identifier of an order *)

Ltac split_comparisons :=
  repeat match goal with
         | |- context [?a =? ?b] => destruct (Z.eqb_spec a b); try lia
         | |- context [?a <=? ?b] => destruct (Z.leb_spec a b); try lia
         | |- context [?a <? ?b] => destruct (Z.ltb_spec a b); try lia
         end.

Lemma uuid4_bit (r n : Z) :
  0 <= n ->
  Z.testbit (uuid4_int r) n =
  if (76 <=? n) && (n <? 80) then n =? 78
  else if (62 <=? n) && (n <? 64) then n =? 63
  else (n <? 128) && Z.testbit r n.
Proof.
  intros Hn. unfold uuid4_int. cbv zeta.
  change (Z.shiftl 49152 48) with (Z.lor (2 ^ 62) (2 ^ 63)).
  change (Z.shiftl 32768 48) with (2 ^ 63).
  change (Z.shiftl 61440 64)
    with (Z.lor (Z.lor (2 ^ 76) (2 ^ 77)) (Z.lor (2 ^ 78) (2 ^ 79))).
  change (Z.shiftl 4 76) with (2 ^ 78).
  repeat (rewrite ?Z.lor_spec, ?Z.land_spec, ?Z.lnot_spec, ?Z.pow2_bits_eqb,
           ?Z.testbit_ones_nonneg by lia).
  split_comparisons; try lia; cbn; try reflexivity;
    destruct (Z.testbit r n); reflexivity.
Qed.

(** The version field is 4 and the variant field is that of RFC 4122. *)
Lemma uuid4_version (r : Z) : Z.land (Z.shiftr (uuid4_int r) 76) 15 = 4.
Proof.
  apply Z.bits_inj'. intros n Hn.
  rewrite Z.land_spec, Z.shiftr_spec, uuid4_bit by lia.
  change 15 with (Z.ones 4). change 4 with (2 ^ 2) at 2.
  rewrite Z.testbit_ones_nonneg, Z.pow2_bits_eqb by lia.
  split_comparisons; try lia; cbn; try reflexivity;
    destruct (Z.testbit r (n + 76)); reflexivity.
Qed.

Lemma uuid4_variant (r : Z) : Z.land (Z.shiftr (uuid4_int r) 62) 3 = 2.
Proof.
  apply Z.bits_inj'. intros n Hn.
  rewrite Z.land_spec, Z.shiftr_spec, uuid4_bit by lia.
  change 3 with (Z.ones 2). change 2 with (2 ^ 1) at 2.
  rewrite Z.testbit_ones_nonneg, Z.pow2_bits_eqb by lia.
  split_comparisons; try lia; cbn; try reflexivity;
    destruct (Z.testbit r (n + 62)); reflexivity.
Qed.

(** ** The text of an order *)

Lemma string_append_assoc (a b c : string) : (a ++ b) ++ c = a ++ (b ++ c).
Proof. induction a as [|x a IH]; cbn; [reflexivity|now rewrite IH]. Qed.

Lemma plain_app (a b : string) : plain (a ++ b) = plain a && plain b.
Proof.
  induction a as [|c a IH]; cbn [append plain]; [reflexivity|].
  now rewrite IH, andb_assoc.
Qed.

Lemma escape_char_plain (c : ascii) :
  plain_char c = true -> escape_char c = String c "".
Proof.
  unfold plain_char, escape_char. cbv zeta.
  set (n := Z.of_nat (nat_of_ascii c)).
  intros H. apply andb_prop in H as [H H92]. apply andb_prop in H as [H H34].
  apply andb_prop in H as [Hlo Hhi].
  apply negb_true_iff in H92, H34.
  rewrite H34, H92, Hlo, Hhi.
  apply Z.leb_le in Hlo.
  replace (n =? 8) with false by (symmetry; apply Z.eqb_neq; lia).
  replace (n =? 12) with false by (symmetry; apply Z.eqb_neq; lia).
  replace (n =? 10) with false by (symmetry; apply Z.eqb_neq; lia).
  replace (n =? 13) with false by (symmetry; apply Z.eqb_neq; lia).
  replace (n =? 9) with false by (symmetry; apply Z.eqb_neq; lia).
  reflexivity.
Qed.

Lemma escape_plain (s : string) : plain s = true -> escape s = s.
Proof.
  induction s as [|c s IH]; cbn [plain escape]; [reflexivity|].
  intros H. apply andb_prop in H as [Hc Hs].
  now rewrite (escape_char_plain c Hc), IH.
Qed.

Lemma encode_plain (s : string) :
  plain s = true -> encode_basestring_ascii s = quoted s.
Proof. intros H. unfold encode_basestring_ascii. now rewrite escape_plain. Qed.

Lemma json_dumps_order (id side pair price size : string) :
  plain id = true -> plain side = true -> plain pair = true ->
  plain price = true -> plain size = true ->
  json_dumps
    (PDict [("client_order_id", PStr id);
            ("side", PStr side);
            ("product_id", PStr pair);
            ("order_configuration",
             PDict [("limit_limit_gtc",
                     PDict [("post_only", PBool false);
                            ("limit_price", PStr price);
                            ("base_size", PStr size)])])])
  = order_text id side pair price size.
Proof.
  intros Hid Hside Hpair Hprice Hsize.
  cbn [json_dumps map join fst snd].
  rewrite !encode_plain by (assumption || reflexivity).
  unfold order_text. rewrite !string_append_assoc. reflexivity.
Qed.

Lemma plain_hex_digit (n : Z) : plain_char (hex_digit n) = true.
Proof.
  unfold hex_digit.
  repeat match goal with
         | |- context [match ?x with _ => _ end] => destruct x
         end; reflexivity.
Qed.

Lemma plain_hex (n : nat) (z : Z) : plain (hex n z) = true.
Proof.
  revert z. induction n as [|n IH]; intros z; cbn [hex]; [reflexivity|].
  rewrite plain_app, IH. cbn [plain]. now rewrite plain_hex_digit.
Qed.

Lemma plain_substring (s : string) (n m : nat) :
  plain s = true -> plain (substring n m s) = true.
Proof.
  revert n m. induction s as [|c s IH]; intros n m H.
  - destruct n, m; reflexivity.
  - cbn [plain] in H. apply andb_prop in H as [Hc Hs].
    destruct n as [|n]; [destruct m as [|m]|]; cbn [substring plain].
    + reflexivity.
    + now rewrite Hc, IH.
    + now apply IH.
Qed.

Lemma plain_str_uuid (i : Z) : plain (str_uuid i) = true.
Proof.
  unfold str_uuid. cbv zeta.
  rewrite !plain_app, !plain_substring by apply plain_hex. reflexivity.
Qed.

Lemma plain_string_of_uint (d : Decimal.uint) :
  plain (NilEmpty.string_of_uint d) = true.
Proof. induction d; cbn [NilEmpty.string_of_uint plain]; auto. Qed.

Lemma plain_str_int (z : Z) : plain (str_int z) = true.
Proof.
  unfold str_int, NilZero.string_of_int, NilZero.string_of_uint.
  destruct (Z.to_int z) as [d|d]; destruct d; cbn [plain];
    rewrite ?plain_string_of_uint; reflexivity.
Qed.

Lemma plain_zeros (n : nat) : plain (zeros n) = true.
Proof. induction n; cbn [zeros plain]; auto. Qed.

Lemma plain_of_list (l : list ascii) :
  plain (string_of_list_ascii l) = forallb plain_char l.
Proof. induction l as [|c l IH]; cbn; [reflexivity|now rewrite IH]. Qed.

Lemma plain_to_list (s : string) :
  forallb plain_char (list_ascii_of_string s) = plain s.
Proof. induction s as [|c s IH]; cbn; [reflexivity|now rewrite IH]. Qed.

Lemma forallb_rev {A} (f : A -> bool) (l : list A) :
  forallb f (rev l) = forallb f l.
Proof.
  induction l as [|x l IH]; cbn; [reflexivity|].
  rewrite forallb_app, IH. cbn. rewrite andb_true_r. apply andb_comm.
Qed.

Lemma forallb_strip_zeros (l : list ascii) :
  forallb plain_char l = true -> forallb plain_char (strip_zeros l) = true.
Proof.
  induction l as [|c l IH]; [auto|]. intros H.
  cbn [forallb] in H. apply andb_prop in H as [Hc Hl].
  unfold strip_zeros; fold strip_zeros.
  destruct c as [[] [] [] [] [] [] [] []];
    try (cbn [forallb]; rewrite Hc, Hl; reflexivity).
  now apply IH.
Qed.

Lemma plain_format_short (digits : string) (decpt : Z) :
  plain digits = true -> plain (format_short digits decpt) = true.
Proof.
  intros H. unfold format_short. cbv zeta.
  destruct ((decpt <=? -4) || (16 <? decpt)).
  - rewrite !plain_app, plain_str_int.
    destruct (decpt - 1 <? 0), (Z.abs (decpt - 1) <? 10);
      destruct digits as [|c [|c' rest]]; cbn [plain] in *;
      rewrite ?H; try reflexivity;
      apply andb_prop in H as [-> H]; rewrite H; reflexivity.
  - destruct (decpt <=? 0).
    + now rewrite !plain_app, plain_zeros, H.
    + destruct (decpt <? Z.of_nat (String.length digits)).
      * now rewrite !plain_app, !plain_substring.
      * now rewrite !plain_app, plain_zeros, H.
Qed.

Lemma plain_str_float (x : float) : plain (str_float x) = true.
Proof.
  unfold str_float.
  destruct (Prim2SF x) as [[]|[]| |neg m e]; try reflexivity.
  cbv zeta.
  destruct (shortest 17 (abs x) _ _ _ 1) as [k p].
  rewrite plain_app, plain_format_short.
  - destruct neg; reflexivity.
  - rewrite plain_of_list, forallb_rev. apply forallb_strip_zeros.
    rewrite forallb_rev, plain_to_list. apply plain_str_int.
Qed.

Lemma order_body_text (side : Side) (pair : Pair) (id : Z) (pa bs : float) :
  json_dumps (order_body side pair id pa bs)
  = order_text (str_uuid id) (Side_value side) (Pair_value pair)
      (str_float pa) (str_float bs).
Proof.
  apply json_dumps_order.
  - apply plain_str_uuid.
  - destruct side; reflexivity.
  - destruct pair; reflexivity.
  - apply plain_str_float.
  - apply plain_str_float.
Qed.

Lemma order_checks_ok {platform : Platform} (side : Side) (qs : float)
    (product : pyval) (pa bs : float) :
  order_checks side qs product = Ok (pa, bs) ->
  price_adjusted side product = Ok pa
  /\ base_size_rounded qs pa product = Ok bs.
Proof.
  unfold order_checks.
  destruct (float_item product "quote_min_size") as [qmin|]; cbn [rbind]; [|discriminate].
  destruct (negb (qmin <=? qs)%float); [discriminate|].
  destruct (float_item product "quote_max_size") as [qmax|]; cbn [rbind]; [|discriminate].
  destruct (negb (qs <=? qmax)%float); [discriminate|].
  destruct (price_adjusted side product) as [pa'|]; cbn [rbind]; [|discriminate].
  destruct (base_size_rounded qs pa' product) as [bs'|] eqn:B; cbn [rbind]; [|discriminate].
  destruct (float_item product "base_min_size") as [bmin|]; cbn [rbind]; [|discriminate].
  destruct (negb (bmin <=? bs')%float); [discriminate|].
  destruct (float_item product "base_max_size") as [bmax|]; cbn [rbind]; [|discriminate].
  destruct (negb (bs' <=? bmax)%float); [discriminate|].
  intros H; inversion H; subst. auto.
Qed.

(** C9. An order that [create_order] sends is the third request of the run,
    a POST to the orders resource whose body is the JSON text of
    [{client_order_id, side, product_id, order_configuration:
    {limit_limit_gtc: {post_only, limit_price, base_size}}}]: the identifier
    is the string of a version-4 UUID made from random bytes drawn in this
    call (its version field is 4), [post_only] is false, [limit_price] is
    the string of the adjusted price and [base_size] the string of the
    rounded base quantity, both computed from the product that the exchange
    returned.  None of these strings needs escaping, so the body is the
    text [order_text]. *)
Theorem C9_order_body :
  forall (platform : Platform) (self : CoinbaseDCA) (side : Side) (pair : Pair)
         (qs : float) (w : World) (i : nat) (q : HTTPRequest),
    let w' := snd (create_order self side pair qs w) in
    nth_error (sent w') i = Some q ->
    (List.length (sent w) <= i)%nat ->
    req_method q = "POST" ->
    exists (product : pyval) (pa bs : float),
      answered w (S (List.length (sent w))) product
      /\ price_adjusted side product = Ok pa
      /\ base_size_rounded qs pa product = Ok bs
      /\ i = S (S (List.length (sent w)))
      /\ urandom_reads w' = S (urandom_reads w)
      /\ Z.land (Z.shiftr (uuid4_int (urandom w (urandom_reads w))) 76) 15 = 4
      /\ req_url q = "/api/v3/brokerage/orders"
      /\ req_body q
         = json_dumps
             (PDict
                [("client_order_id",
                  PStr (str_uuid (uuid4_int (urandom w (urandom_reads w)))));
                 ("side", PStr (match side with BUY => "BUY" | SELL => "SELL" end));
                 ("product_id", PStr (Pair_value pair));
                 ("order_configuration",
                  PDict [("limit_limit_gtc",
                          PDict [("post_only", PBool false);
                                 ("limit_price", PStr (str_float pa));
                                 ("base_size", PStr (str_float bs))])])])
      /\ req_body q
         = order_text (str_uuid (uuid4_int (urandom w (urandom_reads w))))
             (Side_value side) (Pair_value pair) (str_float pa) (str_float bs).
Proof.
  intros platform self side pair qs w i q w' Hq Hi Hm.
  destruct (order_run_trace self _ _ _ _ _ _ (order_run_intro self side pair qs w))
    as [T _].
  fold w' in T.
  assert (G : forall q' : HTTPRequest, req_method q' = "GET" -> Some q' = Some q -> False).
  { intros q' H E. inversion E; subst q'. rewrite Hm in H. discriminate. }
  destruct T as [HS _ _ _
                |t1 HS _ _ _
                |t1 t2 response _ HS _ _ _
                |t1 t2 response product pa bs _ _ _ HS _ _ _
                |t1 t2 t3 response product pa bs _ A2 C HS U _];
    rewrite HS in Hq;
    [apply nth_error_None in Hi; congruence|..];
    (apply nth_error_new in Hq; [|exact Hi]);
    remember (i - List.length (sent w))%nat as j eqn:Hj.
  - destruct j as [|j]; [|destruct j; discriminate].
    exfalso. (refine (G _ _ Hq); reflexivity).
  - destruct j as [|[|j]]; [| |destruct j; discriminate];
      exfalso; (refine (G _ _ Hq); reflexivity).
  - destruct j as [|[|j]]; [| |destruct j; discriminate];
      exfalso; (refine (G _ _ Hq); reflexivity).
  - destruct j as [|[|[|j]]]; [| | |destruct j; discriminate];
      try (exfalso; (refine (G _ _ Hq); reflexivity)).
    inversion Hq; subst q.
    destruct (order_checks_ok _ _ _ _ _ C) as [P B].
    exists product, pa, bs.
    refine (conj A2 (conj P (conj B (conj _ (conj U (conj _ (conj eq_refl
             (conj _ _)))))))).
    + lia.
    + apply uuid4_version.
    + destruct side; reflexivity.
    + apply order_body_text.
Qed.

Lemma C9_witness :
  exists q,
    nth_error (sent (snd (@create_order Reference.platform Reference.dca BUY BTC_USD
                            10 (Reference.world Reference.exchange)))) 2
    = Some q
    /\ req_url q = "/api/v3/brokerage/orders"
    /\ req_body q
       = order_text "12345678-1234-4678-9234-567812345678" "BUY" "BTC-USD"
           "49900.0" "0.0002004".
Proof.
  pose (w := Reference.world Reference.exchange).
  pose (q := @order_request Reference.platform Reference.dca BUY BTC_USD
               (uuid4_int 0x12345678123456781234567812345678)
               49900 0.0002004 1700000000).
  exists q.
  assert (Hq : nth_error (sent (snd (@create_order Reference.platform Reference.dca
                                       BUY BTC_USD 10 w))) 2 = Some q)
    by (vm_compute; reflexivity).
  split; [exact Hq|].
  destruct (C9_order_body Reference.platform Reference.dca BUY BTC_USD 10%float
              w 2%nat q Hq (le_S _ _ (le_S _ _ (le_n 0%nat))) eq_refl)
    as (product & pa & bs & (s & A & _) & P & B & _ & _ & _ & U & _ & J).
  split; [exact U|].
  rewrite J.
  assert (product = Reference.product) as ->
    by (vm_compute in A; inversion A; reflexivity).
  assert (pa = 49900%float) as ->
    by (vm_compute in P; inversion P; reflexivity).
  assert (bs = 0.0002004%float) as ->
    by (vm_compute in B; inversion B; reflexivity).
  vm_compute. reflexivity.
Defined.

(** C10. A 401 on the product listing or on the product lookup makes
    [_request] return [None], and the subscripting of that [None] (in
    [list_products], in [create_order]) raises [TypeError].  A run of
    [create_order] that returns a value although a reply was a 401 returns
    [None], and the 401 was the reply to the order submission; a 401 on the
    order submission does make the run return [None]. *)
Theorem C10_unauthorized_before_submission :
  forall (platform : Platform) (self : CoinbaseDCA) (side : Side) (pair : Pair)
         (qs : float) (w : World),
    let run := create_order self side pair qs w in
    (forall (t : Z) (data : option pyval),
        py_int (clock w (clock_reads w)) = Ok t ->
        server w (List.length (sent w)) = Reply UNAUTHORIZED data ->
        fst (_request self GET "products" "" w) = Ok PNone
        /\ fst (list_products self w) = Err TypeError
        /\ fst run = Err TypeError
        /\ sent (snd run) = (sent w ++ [listing_request self t])%list)
    /\ (forall (products : list pyval) (w1 : World) (t : Z) (data : option pyval),
        list_products self w = (Ok products, w1) ->
        py_in (Pair_value pair) products = true ->
        py_int (clock w1 (clock_reads w1)) = Ok t ->
        server w1 (List.length (sent w1)) = Reply UNAUTHORIZED data ->
        fst (get_product self pair w1) = Ok PNone
        /\ fst run = Err TypeError
        /\ sent (snd run) = (sent w1 ++ [product_request self pair t])%list)
    /\ (forall (v : pyval) (i : nat) (data : option pyval),
        fst run = Ok v ->
        (List.length (sent w) <= i < List.length (sent (snd run)))%nat ->
        server w i = Reply UNAUTHORIZED data ->
        v = PNone
        /\ i = S (S (List.length (sent w)))
        /\ exists q, nth_error (sent (snd run)) i = Some q
                     /\ call_of q = ("POST", "/api/v3/brokerage/orders"))
    /\ (forall data : option pyval,
        List.length (sent (snd run)) = (3 + List.length (sent w))%nat ->
        server w (S (S (List.length (sent w)))) = Reply UNAUTHORIZED data ->
        fst run = Ok PNone).
Proof.
  intros platform self side pair qs w run.
  assert (A : forall j v d, answered w j v -> server w j = Reply UNAUTHORIZED d -> False).
  { intros j v d (s & A1 & A2) D. rewrite A1 in D. inversion D; subst s. discriminate. }
  pose proof (order_run_trace self _ _ _ _ _ _ (order_run_intro self side pair qs w))
    as [T _].
  fold run in T.
  refine (conj _ (conj _ (conj _ _))).
  - intros t data Ht Hs. unfold run.
    rewrite create_order_run, list_products_run, _request_run, Ht. cbv zeta.
    rewrite Hs. cbn. auto.
  - intros products w1 t data Hlist Hin Ht Hs. unfold run.
    rewrite create_order_run, Hlist, Hin, get_product_run, _request_run, Ht.
    cbv zeta. rewrite Hs. cbn. auto.
  - intros v i data Hv Hi Hs.
    destruct T as [_ _ _ (e & E)
                  |t1 _ _ (e & E) _
                  |t1 t2 response _ _ _ (e & E) _
                  |t1 t2 response product pa bs _ _ _ _ _ _ (e & E)
                  |t1 t2 t3 response product pa bs A1 A2 _ HS _ L];
      try (rewrite E in Hv; discriminate).
    rewrite HS, length_app in Hi. cbn [List.length] in Hi.
    assert (i = List.length (sent w) \/ i = S (List.length (sent w))
            \/ i = S (S (List.length (sent w)))) as [->|[->| ->]] by lia.
    + exfalso. refine (A _ _ _ _ Hs); eassumption.
    + exfalso. refine (A _ _ _ _ Hs); eassumption.
    + destruct L as [[_ L]|(_ & L & _)]; [exfalso; apply (L _ Hs)|].
      rewrite L in Hv. inversion Hv; subst v.
      split; [reflexivity|split; [reflexivity|]].
      eexists. split.
      * rewrite HS, nth_error_app2 by lia.
        replace (S (S (List.length (sent w))) - List.length (sent w))%nat
          with 2%nat by lia.
        reflexivity.
      * reflexivity.
  - intros data Hlen Hs.
    destruct T as [HS _ _ _
                  |t1 HS _ _ _
                  |t1 t2 response _ HS _ _ _
                  |t1 t2 response product pa bs _ _ _ HS _ _ _
                  |t1 t2 t3 response product pa bs _ _ _ _ _ L];
      try (rewrite HS, ?length_app in Hlen; cbn [List.length] in Hlen; lia).
    destruct L as [[_ L]|(_ & L & _)]; [exfalso; apply (L _ Hs)|exact L].
Qed.

Lemma C10_witness :
  let order srv :=
    @create_order Reference.platform Reference.dca BUY BTC_USD 10
      (Reference.world srv) in
  let second n := match n with
                  | 1%nat => Reply 401 None
                  | _ => Reference.exchange n
                  end in
  let third n := match n with
                 | 2%nat => Reply 401 None
                 | _ => Reference.exchange n
                 end in
  fst (order (fun _ => Reply 401 None)) = Err TypeError
  /\ fst (order second) = Err TypeError
  /\ fst (order third) = Ok PNone.
Proof.
  intros order second third.
  refine (conj _ (conj _ _)).
  - destruct (C10_unauthorized_before_submission Reference.platform Reference.dca
                BUY BTC_USD 10%float (Reference.world (fun _ => Reply 401 None)))
      as (H & _).
    destruct (H 1700000000 None eq_refl eq_refl) as (_ & _ & H' & _). exact H'.
  - destruct (C10_unauthorized_before_submission Reference.platform Reference.dca
                BUY BTC_USD 10%float (Reference.world second))
      as (_ & H & _).
    destruct (H [PStr "BTC-USD"; PStr "ETH-USD"]
                (snd (@list_products Reference.platform Reference.dca
                        (Reference.world second)))
                1700000000 None eq_refl eq_refl eq_refl eq_refl)
      as (_ & H' & _).
    exact H'.
  - destruct (C10_unauthorized_before_submission Reference.platform Reference.dca
                BUY BTC_USD 10%float (Reference.world third))
      as (_ & _ & H3 & H4).
    pose proof (H4 None eq_refl eq_refl) as R.
    destruct (H3 PNone 2%nat None R) as (_ & _ & q & _ & _).
    + vm_compute. split; [apply le_0_n|apply le_n].
    + reflexivity.
    + exact R.
Defined.

(** * Further properties of the program *)

(** ** What a failed assertion leaves behind *)

Section Aborts.

Context {platform : Platform}.
Variable self : CoinbaseDCA.

Lemma request_draws_nothing (method : HTTPMethod) (resource body : string)
    (w : World) :
  urandom_reads (snd (_request self method resource body w)) = urandom_reads w.
Proof.
  destruct (request_run_effects self _ _ _ _ _ _
              (request_run_intro self method resource body w))
    as (_ & _ & _ & H & _).
  exact H.
Qed.

Lemma assertion_draws_nothing (side : Side) (pair : Pair) (qs : float) (w : World)
    (a : assertion) :
  fst (create_order self side pair qs w) = Err (AssertionError a) ->
  urandom_reads (snd (create_order self side pair qs w)) = urandom_reads w.
Proof.
  rewrite create_order_run, list_products_run.
  pose proof (request_draws_nothing GET "products" "" w) as U1.
  destruct (_request self GET "products" "" w) as [[response|e] w1];
    cbn [fst snd] in *; [|auto].
  destruct (listing_ids response) as [products|e]; cbn [fst snd]; [|auto].
  destruct (py_in (Pair_value pair) products); cbn [fst snd]; [|auto].
  rewrite get_product_run.
  pose proof (request_draws_nothing GET ("products/" ++ Pair_value pair) "" w1) as U2.
  destruct (_request self GET ("products/" ++ Pair_value pair) "" w1)
    as [[product|e] w2]; cbn [fst snd] in *; [|intros _; congruence].
  destruct (order_checks side qs product) as [[pa bs]|e]; cbn [fst snd];
    [|intros _; congruence].
  intros H. apply _request_raises with (a := a) in H. congruence.
Qed.

End Aborts.

(** X1. When [create_order] ends in an [AssertionError], whichever assertion
    failed, it has sent at most two requests, all of them GET: no order went
    out.  Nothing was printed and no identifier was drawn. *)
Theorem X1_assertion_sends_no_order :
  forall (platform : Platform) (self : CoinbaseDCA) (side : Side) (pair : Pair)
         (qs : float) (w : World) (a : assertion),
    fst (create_order self side pair qs w) = Err (AssertionError a) ->
    let w' := snd (create_order self side pair qs w) in
    (exists l : list HTTPRequest,
        sent w' = (sent w ++ l)%list
        /\ (List.length l <= 2)%nat
        /\ Forall (fun q => req_method q = "GET") l)
    /\ stdout w' = stdout w
    /\ urandom_reads w' = urandom_reads w.
Proof.
  intros platform self side pair qs w a H w'.
  pose proof (assertion_draws_nothing self side pair qs w a H) as U.
  fold w' in U.
  destruct (order_run_trace self _ _ _ _ _ _ (order_run_intro self side pair qs w))
    as [T _].
  fold w' in T. rewrite H in T.
  destruct T as [HS HO _ _
                |t1 HS _ _ L
                |t1 t2 response _ HS _ _ L
                |t1 t2 response product pa bs _ _ _ _ U' _ _
                |t1 t2 t3 response product pa bs _ _ _ _ U' _];
    try (rewrite U in U'; exfalso; lia).
  - split; [|auto]. exists []. rewrite app_nil_r.
    split; [exact HS|split; [cbn; lia|constructor]].
  - split; [|split; [|exact U]].
    + eexists. split; [exact HS|split; [cbn; lia|]].
      repeat constructor.
    + destruct L as [[L _]|(_ & L & _)]; [exact L|discriminate].
  - split; [|split; [|exact U]].
    + eexists. split; [exact HS|split; [cbn; lia|]].
      repeat constructor.
    + destruct L as [[L _]|(_ & L & _)]; [exact L|discriminate].
Qed.

Lemma X1_witness :
  let run := @create_order Reference.platform Reference.dca BUY BTC_USD 0.5
               (Reference.world Reference.exchange) in
  List.length (sent (snd run)) = 2%nat /\ stdout (snd run) = [].
Proof.
  intros run.
  destruct (X1_assertion_sends_no_order Reference.platform Reference.dca BUY
              BTC_USD 0.5%float (Reference.world Reference.exchange) quote_min
              eq_refl)
    as ((l & HS & _ & _) & HO & _).
  split; [|exact HO].
  vm_compute. reflexivity.
Defined.

(** ** What an order that was sent went through *)

Section Posted.

Context {platform : Platform}.
Variable self : CoinbaseDCA.

Lemma sigfigs_ok (x : float) (n : Z) :
  _get_currency_sigfigs x = Ok n -> (0 <? x)%float = true.
Proof.
  unfold _get_currency_sigfigs. destruct (0 <? x)%float; [reflexivity|discriminate].
Qed.

Lemma price_adjusted_ok (side : Side) (product : pyval) (pa : float) :
  price_adjusted side product = Ok pa ->
  exists (qi p : float) (n : Z),
    float_item product "quote_increment" = Ok qi
    /\ (0 <? qi)%float = true
    /\ _get_currency_sigfigs qi = Ok n
    /\ float_item product "price" = Ok p
    /\ py_round (p * offset_factor side)%float n = Ok pa.
Proof.
  unfold price_adjusted.
  destruct (float_item product "quote_increment") as [qi|]; cbn [rbind]; [|discriminate].
  destruct (_get_currency_sigfigs qi) as [n|] eqn:S; cbn [rbind]; [|discriminate].
  destruct (float_item product "price") as [p|]; cbn [rbind]; [|discriminate].
  rewrite price_factor_offset. intros H.
  exists qi, p, n. eauto 6 using sigfigs_ok.
Qed.

Lemma base_size_rounded_ok (qs pa : float) (product : pyval) (bs : float) :
  base_size_rounded qs pa product = Ok bs ->
  exists (bi : float) (n : Z),
    float_item product "base_increment" = Ok bi
    /\ (0 <? bi)%float = true
    /\ _get_currency_sigfigs bi = Ok n
    /\ (pa =? 0)%float = false
    /\ py_round (qs / pa)%float n = Ok bs.
Proof.
  unfold base_size_rounded, py_truediv.
  destruct (float_item product "base_increment") as [bi|]; cbn [rbind]; [|discriminate].
  destruct (_get_currency_sigfigs bi) as [n|] eqn:S; cbn [rbind]; [|discriminate].
  destruct (pa =? 0)%float; cbn [rbind]; [discriminate|].
  intros H. exists bi, n. eauto 6 using sigfigs_ok.
Qed.

Lemma order_checks_bounds (side : Side) (qs : float) (product : pyval)
    (pa bs : float) :
  order_checks side qs product = Ok (pa, bs) ->
  exists qmin qmax bmin bmax : float,
    float_item product "quote_min_size" = Ok qmin
    /\ float_item product "quote_max_size" = Ok qmax
    /\ float_item product "base_min_size" = Ok bmin
    /\ float_item product "base_max_size" = Ok bmax
    /\ (qmin <=? qs)%float = true
    /\ (qs <=? qmax)%float = true
    /\ (bmin <=? bs)%float = true
    /\ (bs <=? bmax)%float = true.
Proof.
  unfold order_checks.
  destruct (float_item product "quote_min_size") as [qmin|]; cbn [rbind]; [|discriminate].
  destruct (qmin <=? qs)%float eqn:L1; cbn [negb]; [|discriminate].
  destruct (float_item product "quote_max_size") as [qmax|]; cbn [rbind]; [|discriminate].
  destruct (qs <=? qmax)%float eqn:L2; cbn [negb]; [|discriminate].
  destruct (price_adjusted side product) as [pa'|]; cbn [rbind]; [|discriminate].
  destruct (base_size_rounded qs pa' product) as [bs'|]; cbn [rbind]; [|discriminate].
  destruct (float_item product "base_min_size") as [bmin|]; cbn [rbind]; [|discriminate].
  destruct (bmin <=? bs')%float eqn:L3; cbn [negb]; [|discriminate].
  destruct (float_item product "base_max_size") as [bmax|]; cbn [rbind]; [|discriminate].
  destruct (bs' <=? bmax)%float eqn:L4; cbn [negb]; [|discriminate].
  intros H; inversion H; subst.
  exists qmin, qmax, bmin, bmax. auto 10.
Qed.

(** A POST among the requests of a run is the order of that run. *)
Lemma posted_order (side : Side) (pair : Pair) (qs : float) (w : World)
    (i : nat) (q : HTTPRequest) :
  nth_error (sent (snd (create_order self side pair qs w))) i = Some q ->
  (List.length (sent w) <= i)%nat ->
  req_method q = "POST" ->
  exists (product : pyval) (pa bs : float) (t : Z),
    answered w (S (List.length (sent w))) product
    /\ order_checks side qs product = Ok (pa, bs)
    /\ i = S (S (List.length (sent w)))
    /\ q = order_request self side pair
             (uuid4_int (urandom w (urandom_reads w))) pa bs t.
Proof.
  intros Hq Hi Hm.
  destruct (order_run_trace self _ _ _ _ _ _ (order_run_intro self side pair qs w))
    as [T _].
  assert (G : forall q' : HTTPRequest,
             req_method q' = "GET" -> Some q' = Some q -> False).
  { intros q' H E. inversion E; subst q'. rewrite Hm in H. discriminate. }
  destruct T as [HS _ _ _
                |t1 HS _ _ _
                |t1 t2 response _ HS _ _ _
                |t1 t2 response product pa bs _ _ _ HS _ _ _
                |t1 t2 t3 response product pa bs _ A2 C HS U _];
    rewrite HS in Hq;
    [apply nth_error_None in Hi; congruence|..];
    (apply nth_error_new in Hq; [|exact Hi]);
    remember (i - List.length (sent w))%nat as j eqn:Hj.
  - destruct j as [|j]; [|destruct j; discriminate].
    exfalso. refine (G _ _ Hq). reflexivity.
  - destruct j as [|[|j]]; [| |destruct j; discriminate];
      exfalso; refine (G _ _ Hq); reflexivity.
  - destruct j as [|[|j]]; [| |destruct j; discriminate];
      exfalso; refine (G _ _ Hq); reflexivity.
  - destruct j as [|[|[|j]]]; [| | |destruct j; discriminate];
      try (exfalso; refine (G _ _ Hq); reflexivity).
    inversion Hq; subst q.
    exists product, pa, bs, t3.
    split; [exact A2|split; [exact C|split; [lia|reflexivity]]].
Qed.

End Posted.

(** X2. Every order that [create_order] sends passed all its checks on the
    product the exchange returned: the seven numeric fields were there and
    parsed, both increments were positive, the adjusted price was not zero,
    the spend amount lay within the quote bounds and the base quantity written
    in the body within the base bounds. *)
Theorem X2_sent_order_is_within_bounds :
  forall (platform : Platform) (self : CoinbaseDCA) (side : Side) (pair : Pair)
         (qs : float) (w : World) (i : nat) (q : HTTPRequest),
    nth_error (sent (snd (create_order self side pair qs w))) i = Some q ->
    (List.length (sent w) <= i)%nat ->
    req_method q = "POST" ->
    exists (product : pyval) (qmin qmax bmin bmax qi bi p pa bs : float),
      answered w (S (List.length (sent w))) product
      /\ float_item product "quote_min_size" = Ok qmin
      /\ float_item product "quote_max_size" = Ok qmax
      /\ float_item product "base_min_size" = Ok bmin
      /\ float_item product "base_max_size" = Ok bmax
      /\ float_item product "quote_increment" = Ok qi
      /\ float_item product "base_increment" = Ok bi
      /\ float_item product "price" = Ok p
      /\ (0 <? qi)%float = true
      /\ (0 <? bi)%float = true
      /\ (pa =? 0)%float = false
      /\ (qmin <=? qs)%float = true
      /\ (qs <=? qmax)%float = true
      /\ (bmin <=? bs)%float = true
      /\ (bs <=? bmax)%float = true
      /\ req_body q
         = order_text (str_uuid (uuid4_int (urandom w (urandom_reads w))))
             (Side_value side) (Pair_value pair) (str_float pa) (str_float bs).
Proof.
  intros platform self side pair qs w i q Hq Hi Hm.
  destruct (posted_order self side pair qs w i q Hq Hi Hm)
    as (product & pa & bs & t & A & C & _ & ->).
  destruct (order_checks_bounds _ _ _ _ _ C)
    as (qmin & qmax & bmin & bmax & F1 & F2 & F3 & F4 & L1 & L2 & L3 & L4).
  destruct (order_checks_ok _ _ _ _ _ C) as [P B].
  destruct (price_adjusted_ok _ _ _ P) as (qi & p & n & F5 & Q1 & _ & F6 & _).
  destruct (base_size_rounded_ok _ _ _ _ B) as (bi & m & F7 & Q2 & _ & Z & _).
  exists product, qmin, qmax, bmin, bmax, qi, bi, p, pa, bs.
  repeat (split; [assumption|]).
  apply order_body_text.
Qed.

Lemma X2_witness :
  exists (q : HTTPRequest) (pa bs : float),
    nth_error (sent (snd (@create_order Reference.platform Reference.dca BUY BTC_USD
                            10 (Reference.world Reference.exchange)))) 2
    = Some q
    /\ (0.00000001 <=? bs)%float = true
    /\ (bs <=? 3400)%float = true
    /\ req_body q
       = order_text (str_uuid (uuid4_int 0x12345678123456781234567812345678))
           "BUY" "BTC-USD" (str_float pa) (str_float bs).
Proof.
  pose (w := Reference.world Reference.exchange).
  pose (q := @order_request Reference.platform Reference.dca BUY BTC_USD
               (uuid4_int 0x12345678123456781234567812345678)
               49900 0.0002004 1700000000).
  assert (Hq : nth_error (sent (snd (@create_order Reference.platform Reference.dca
                                       BUY BTC_USD 10 w))) 2 = Some q)
    by (vm_compute; reflexivity).
  destruct (X2_sent_order_is_within_bounds Reference.platform Reference.dca BUY
              BTC_USD 10%float w 2%nat q Hq
              (le_S _ _ (le_S _ _ (le_n 0%nat))) eq_refl)
    as (product & qmin & qmax & bmin & bmax & qi & bi & p & pa & bs
        & (s & A & _) & _ & _ & F3 & F4 & _ & _ & _ & _ & _ & _ & _ & _
        & L3 & L4 & J).
  assert (product = Reference.product) as ->
    by (vm_compute in A; inversion A; reflexivity).
  assert (bmin = 0.00000001%float) as ->
    by (vm_compute in F3; inversion F3; reflexivity).
  assert (bmax = 3400%float) as ->
    by (vm_compute in F4; inversion F4; reflexivity).
  exists q, pa, bs.
  split; [exact Hq|split; [exact L3|split; [exact L4|exact J]]].
Defined.

(** ** What the program does not look at *)

Section Alike.

Context {platform : Platform}.
Variables self self' : CoinbaseDCA.
Variable same : HTTPRequest -> HTTPRequest -> Prop.
Hypothesis same_signed :
  forall (method : HTTPMethod) (resource body : string) (t : Z),
    same (signed_request self method resource body t)
         (signed_request self' method resource body t).

Lemma similar_refl (r : reply) : similar r r.
Proof. destruct r; cbn; auto. Qed.

Lemma request_alike (method : HTTPMethod) (resource body : string) (w w' : World) :
  alike same w w' ->
  fst (_request self method resource body w)
  = fst (_request self' method resource body w')
  /\ alike same (snd (_request self method resource body w))
       (snd (_request self' method resource body w')).
Proof.
  intros (C & CR & U & UR & O & F & S).
  rewrite !_request_run, <- C, <- CR.
  destruct (py_int (clock w (clock_reads w))) as [t|e].
  2:{ split; [reflexivity|]. repeat split; cbn; auto. }
  cbv zeta. rewrite <- (Forall2_length F).
  pose proof (S (List.length (sent w))) as Sn.
  assert (F' : Forall2 same
                 (sent w ++ [signed_request self method resource body t])
                 (sent w' ++ [signed_request self' method resource body t]))
    by (apply Forall2_app; [exact F|repeat constructor; apply same_signed]).
  destruct (server w (List.length (sent w))) as [|s d],
           (server w' (List.length (sent w))) as [|s' d'];
    cbn in Sn; try contradiction.
  - split; [reflexivity|]. repeat split; cbn; auto.
  - destruct Sn as [E D]. rewrite <- E.
    destruct (s =? UNAUTHORIZED).
    + split; [reflexivity|]. repeat split; cbn; auto. now rewrite O.
    + rewrite (D eq_refl). split; [reflexivity|]. repeat split; cbn; auto.
Qed.

Lemma draw_alike (w w' : World) : alike same w w' -> alike same (draw w) (draw w').
Proof.
  intros (C & CR & U & UR & O & F & S). repeat split; cbn; auto.
Qed.

Lemma create_order_alike (side : Side) (pair : Pair) (qs : float) (w w' : World) :
  alike same w w' ->
  fst (create_order self side pair qs w) = fst (create_order self' side pair qs w')
  /\ alike same (snd (create_order self side pair qs w))
       (snd (create_order self' side pair qs w')).
Proof.
  intros A. rewrite !create_order_run, !list_products_run.
  destruct (request_alike GET "products" "" w w' A) as [R1 A1].
  destruct (_request self GET "products" "" w) as [r1 w1],
           (_request self' GET "products" "" w') as [r1' w1'].
  cbn [fst snd] in R1, A1. subst r1'.
  destruct r1 as [response|e]; [|split; [reflexivity|exact A1]].
  destruct (listing_ids response) as [products|e]; [|split; [reflexivity|exact A1]].
  destruct (py_in (Pair_value pair) products); [|split; [reflexivity|exact A1]].
  rewrite !get_product_run.
  destruct (request_alike GET ("products/" ++ Pair_value pair) "" w1 w1' A1)
    as [R2 A2].
  destruct (_request self GET ("products/" ++ Pair_value pair) "" w1) as [r2 w2],
           (_request self' GET ("products/" ++ Pair_value pair) "" w1') as [r2' w2'].
  cbn [fst snd] in R2, A2. subst r2'.
  destruct r2 as [product|e]; [|split; [reflexivity|exact A2]].
  destruct (order_checks side qs product) as [[pa bs]|e];
    [|split; [reflexivity|exact A2]].
  destruct A2 as (C & CR & U & UR & O & F & S) eqn:EA.
  rewrite <- U, <- UR.
  apply request_alike. apply draw_alike. exact A2.
Qed.

End Alike.

Lemma Forall2_map_eq {A B} (f : A -> B) (l l' : list A) :
  Forall2 (fun x y => f x = f y) l l' -> map f l = map f l'.
Proof. induction 1; cbn; congruence. Qed.

Lemma Forall2_eq_refl {A} (R : A -> A -> Prop) (l : list A) :
  (forall x, R x x) -> Forall2 R l l.
Proof. intros H. induction l; constructor; auto. Qed.

Lemma Forall2_eq {A} (l l' : list A) : Forall2 eq l l' -> l = l'.
Proof. induction 1; congruence. Qed.

(** X3. [create_order] looks at the status of a reply only to compare it
    with 401: in front of a server whose replies have the same bodies and
    other statuses, none of them 401 unless the original was, it sends the
    same requests, prints the same and returns the same.  An error payload
    with status 400 or 500 comes back as an ordinary value. *)
Theorem X3_status_is_only_compared_with_401 :
  forall (platform : Platform) (self : CoinbaseDCA) (side : Side) (pair : Pair)
         (qs : float) (w : World) (srv : nat -> reply),
    (forall n, similar (server w n) (srv n)) ->
    let run := create_order self side pair qs w in
    let run' := create_order self side pair qs (with_server srv w) in
    fst run = fst run'
    /\ sent (snd run) = sent (snd run')
    /\ stdout (snd run) = stdout (snd run').
Proof.
  intros platform self side pair qs w srv H run run'.
  assert (A : alike eq w (with_server srv w)).
  { repeat split; cbn; auto. apply Forall2_eq_refl. reflexivity. }
  destruct (create_order_alike self self eq (fun _ _ _ _ => eq_refl)
              side pair qs w (with_server srv w) A)
    as (R & _ & _ & _ & _ & O & F & _).
  split; [exact R|split; [apply Forall2_eq; exact F|exact O]].
Qed.

Lemma X3_witness :
  let srv n := match n with
               | O => Reply 203 (Some Reference.listing)
               | 1%nat => Reply 500 (Some Reference.product)
               | _ => Reply 400 (Some Reference.accepted)
               end in
  fst (@create_order Reference.platform Reference.dca BUY BTC_USD 10
         (Reference.world srv))
  = Ok Reference.accepted.
Proof.
  intros srv.
  destruct (X3_status_is_only_compared_with_401 Reference.platform Reference.dca
              BUY BTC_USD 10%float (Reference.world Reference.exchange) srv)
    as (R & _).
  - intros [|[|n]]; vm_compute; split; reflexivity || (intros _; reflexivity).
  - etransitivity; [symmetry; exact R|].
    vm_compute. reflexivity.
Defined.

(** X4. The credentials reach the requests through the two headers
    [CB-ACCESS-KEY] and [CB-ACCESS-SIGN] and through nothing else: with other
    credentials [create_order] returns the same, prints the same, and sends
    requests with the same methods, paths, bodies, header names and values
    of the other two headers. *)
Theorem X4_credentials_only_in_two_headers :
  forall (platform : Platform) (self self' : CoinbaseDCA) (side : Side)
         (pair : Pair) (qs : float) (w : World),
    let run := create_order self side pair qs w in
    let run' := create_order self' side pair qs w in
    fst run = fst run'
    /\ map unsigned (sent (snd run)) = map unsigned (sent (snd run'))
    /\ stdout (snd run) = stdout (snd run').
Proof.
  intros platform self self' side pair qs w run run'.
  assert (A : alike (fun q q' => unsigned q = unsigned q') w w).
  { repeat split; auto using similar_refl.
    apply Forall2_eq_refl. reflexivity. }
  destruct (create_order_alike self self' _ (fun _ _ _ _ => eq_refl)
              side pair qs w w A)
    as (R & _ & _ & _ & _ & O & F & _).
  split; [exact R|split; [apply Forall2_map_eq; exact F|exact O]].
Qed.

(** ** Failures of the connection *)

Section NoReplies.

Context {platform : Platform}.
Variable self : CoinbaseDCA.

Lemma request_run_cases (method : HTTPMethod) (resource body : string)
    (w w' : World) (r : result pyval) :
  request_run self method resource body w r w' ->
  (sent w' = sent w /\ exists e, r = Err e)
  \/ (exists t,
         sent w' = (sent w ++ [signed_request self method resource body t])%list
         /\ server w' = server w
         /\ ((server w (List.length (sent w)) = NoReply /\ r = Err OSError)
             \/ exists status data,
                  server w (List.length (sent w)) = Reply status data
                  /\ (r = Ok PNone \/ r = json_loads data))).
Proof.
  intros R. destruct R as [e E|t E S|t status data E S U|t status data E S U].
  - left. cbn. eauto.
  - right. exists t. cbn. auto.
  - right. exists t. cbn. eauto 8.
  - right. exists t. cbn. eauto 8.
Qed.

Lemma no_reply_is_last (side : Side) (pair : Pair) (qs : float) (w w' : World)
    (r : result pyval) (i : nat) :
  order_run self side pair qs w r w' ->
  (List.length (sent w) <= i < List.length (sent w'))%nat ->
  server w i = NoReply ->
  r = Err OSError /\ S i = List.length (sent w').
Proof.
  intros R Hi Hs.
  assert (K : forall (m : HTTPMethod) (res b : string) (w0 w1 : World) (v : pyval),
             request_run self m res b w0 (Ok v) w1 ->
             exists t status data,
               sent w1 = (sent w0 ++ [signed_request self m res b t])%list
               /\ server w1 = server w0
               /\ server w0 (List.length (sent w0)) = Reply status data).
  { intros m res b w0 w1 v R0.
    destruct (request_run_cases _ _ _ _ _ _ R0)
      as [(_ & e & E)|(t & S1 & S2 & [(_ & E)|(s & d & S3 & _)])];
      try discriminate.
    exists t, s, d. auto. }
  assert (L : forall (m : HTTPMethod) (res b : string) (w0 w1 : World)
                     (r0 : result pyval),
             request_run self m res b w0 r0 w1 ->
             server w0 = server w ->
             (List.length (sent w0) <= i < List.length (sent w1))%nat ->
             r0 = Err OSError /\ S i = List.length (sent w1)).
  { intros m res b w0 w1 r0 R0 S0 Hi0.
    destruct (request_run_cases _ _ _ _ _ _ R0)
      as [(E & _)|(t & S1 & _ & [(_ & E)|(s & d & S3 & _)])].
    - rewrite E in Hi0. lia.
    - rewrite S1, length_app in *. cbn [List.length] in *. split; [exact E|lia].
    - rewrite S1, length_app in Hi0. cbn [List.length] in Hi0.
      assert (i = List.length (sent w0)) as -> by lia.
      rewrite S0, Hs in S3. discriminate. }
  assert (N : forall (w0 : World) (status : Z) (data : option pyval),
             server w0 = server w ->
             server w0 (List.length (sent w0)) = Reply status data ->
             i <> List.length (sent w0)).
  { intros w0 status data S0 S3 ->. rewrite S0, Hs in S3. discriminate. }
  destruct R as [e w1 R1
                |response e w1 R1 _
                |response products w1 R1 _ _
                |response products e w1 w2 R1 _ _ R2
                |response product products e w1 w2 R1 _ _ R2 _
                |response product products pa bs r w1 w2 w3 R1 _ _ R2 _ R3].
  - now apply (L _ _ _ _ _ _ R1).
  - destruct (K _ _ _ _ _ _ R1) as (t & s & d & S1 & _ & S3).
    rewrite S1, length_app in Hi. cbn [List.length] in Hi.
    exfalso. apply (N w s d eq_refl S3). lia.
  - destruct (K _ _ _ _ _ _ R1) as (t & s & d & S1 & _ & S3).
    rewrite S1, length_app in Hi. cbn [List.length] in Hi.
    exfalso. apply (N w s d eq_refl S3). lia.
  - destruct (K _ _ _ _ _ _ R1) as (t & s & d & S1 & S2 & S3).
    apply (L _ _ _ _ _ _ R2 S2).
    rewrite S1, length_app. cbn [List.length].
    pose proof (N w s d eq_refl S3). lia.
  - destruct (K _ _ _ _ _ _ R1) as (t & s & d & S1 & S2 & S3).
    destruct (K _ _ _ _ _ _ R2) as (t' & s' & d' & S1' & S2' & S3').
    pose proof (N w s d eq_refl S3).
    pose proof (N w1 s' d' S2 S3') as N1.
    rewrite S1', S1, !length_app in Hi. cbn [List.length] in Hi.
    rewrite S1, length_app in N1. cbn [List.length] in N1. lia.
  - destruct (K _ _ _ _ _ _ R1) as (t & s & d & S1 & S2 & S3).
    destruct (K _ _ _ _ _ _ R2) as (t' & s' & d' & S1' & S2' & S3').
    pose proof (N w s d eq_refl S3).
    pose proof (N w1 s' d' S2 S3') as N1.
    rewrite S1, length_app in N1. cbn [List.length] in N1.
    apply (L _ _ _ _ _ _ R3).
    + cbn [server draw]. congruence.
    + cbn [sent draw]. rewrite S1', S1, !length_app. cbn [List.length]. lia.
Qed.

End NoReplies.

(** X5. When the connection fails on one of its requests, [create_order]
    raises that failure and stops: the request that got no reply is the last
    one of the run.  Nothing is tried again, and in every run the requests
    go to pairwise different method and path. *)
Theorem X5_connection_failure_ends_the_run :
  forall (platform : Platform) (self : CoinbaseDCA) (side : Side) (pair : Pair)
         (qs : float) (w : World),
    let run := create_order self side pair qs w in
    (forall i : nat,
        (List.length (sent w) <= i < List.length (sent (snd run)))%nat ->
        server w i = NoReply ->
        fst run = Err OSError /\ S i = List.length (sent (snd run)))
    /\ NoDup (map call_of (skipn (List.length (sent w)) (sent (snd run)))).
Proof.
  intros platform self side pair qs w run. split.
  - intros i Hi Hs.
    exact (no_reply_is_last self side pair qs w _ _ i
             (order_run_intro self side pair qs w) Hi Hs).
  - destruct (order_run_trace self _ _ _ _ _ _ (order_run_intro self side pair qs w))
      as [T _].
    fold run in T.
    assert (D : NoDup (calls_of_order pair)).
    { unfold calls_of_order.
      repeat constructor; cbn [In]; intros H;
        repeat match goal with
               | H : _ \/ _ |- _ => destruct H as [H|H]
               | H : False |- _ => contradiction
               | H : (_, _) = (_, _) |- _ => inversion H; clear H
               end. }
    assert (P : forall l k,
               sent (snd run) = (sent w ++ l)%list ->
               map call_of l = firstn k (calls_of_order pair) ->
               NoDup (map call_of (skipn (List.length (sent w)) (sent (snd run))))).
    { intros l k HS HM. rewrite HS, skipn_app, skipn_all, Nat.sub_diag.
      cbn [skipn app]. rewrite HM.
      clear - D. revert D. generalize (calls_of_order pair). intros c.
      revert k. induction c as [|x c IH]; intros k D; destruct k; cbn;
        try constructor.
      - inversion D; subst. intros H. apply H1.
        clear - H. revert k H. induction c as [|y c IH]; intros [|k] H;
          cbn in *; try contradiction. destruct H; auto. right. eauto.
      - inversion D; subst. auto. }
    destruct T as [HS _ _ _
                  |t1 HS _ _ _
                  |t1 t2 response _ HS _ _ _
                  |t1 t2 response product pa bs _ _ _ HS _ _ _
                  |t1 t2 t3 response product pa bs _ _ _ HS _ _].
    + apply (P [] 0%nat); [now rewrite app_nil_r|reflexivity].
    + apply (P _ 1%nat HS). reflexivity.
    + apply (P _ 2%nat HS). reflexivity.
    + apply (P _ 2%nat HS). reflexivity.
    + apply (P _ 3%nat HS). reflexivity.
Qed.

Lemma X5_witness :
  let srv n := match n with
               | 1%nat => NoReply
               | _ => Reference.exchange n
               end in
  fst (@create_order Reference.platform Reference.dca BUY BTC_USD 10
         (Reference.world srv)) = Err OSError.
Proof.
  intros srv.
  destruct (X5_connection_failure_ends_the_run Reference.platform Reference.dca
              BUY BTC_USD 10%float (Reference.world srv)) as [H _].
  destruct (H 1%nat) as [R _].
  - vm_compute. split; [apply le_0_n|apply le_n].
  - reflexivity.
  - exact R.
Defined.

(** ** Zero and NaN *)

Lemma SFcompare_nan_r (x : spec_float) : SFcompare x S754_nan = None.
Proof. destruct x; reflexivity. Qed.

Lemma SFcompare_refl (x : spec_float) :
  x <> S754_nan -> SFcompare x x = Some Eq.
Proof.
  destruct x as [s|s| |s m e]; cbn; intros H; try congruence.
  - destruct s; reflexivity.
  - destruct s; rewrite Z.compare_refl, Pos.compare_cont_refl; reflexivity.
Qed.

Lemma is_nan_Prim2SF (x : float) : is_nan x = true -> Prim2SF x = S754_nan.
Proof.
  unfold is_nan. rewrite eqb_spec. unfold SFeqb. intros H.
  destruct (Prim2SF x) eqn:E; try reflexivity;
    rewrite SFcompare_refl in H by discriminate; discriminate.
Qed.

Lemma float_leb_nan (x y : float) :
  is_nan x = true \/ is_nan y = true -> (x <=? y)%float = false.
Proof.
  rewrite leb_spec. unfold SFleb. intros [H|H]; apply is_nan_Prim2SF in H; rewrite H.
  - reflexivity.
  - now rewrite SFcompare_nan_r.
Qed.

Lemma float_ltb_nan (x y : float) : is_nan y = true -> (x <? y)%float = false.
Proof.
  rewrite ltb_spec. unfold SFltb. intros H. apply is_nan_Prim2SF in H.
  now rewrite H, SFcompare_nan_r.
Qed.

Lemma float_eqb_zero (x : float) :
  (x =? 0)%float = true -> x = zero \/ x = neg_zero.
Proof.
  rewrite eqb_spec. unfold SFeqb. intros H.
  assert (Z : exists s, Prim2SF x = S754_zero s).
  { change (Prim2SF 0) with (S754_zero false) in H.
    destruct (Prim2SF x) as [s|s| |s m e]; cbn in H; try discriminate.
    - eauto.
    - destruct s; discriminate.
    - destruct s; discriminate. }
  destruct Z as [s Z].
  rewrite <- (SF2Prim_Prim2SF x), Z. destruct s; auto.
Qed.

Section Checked.

Context {platform : Platform}.
Variable self : CoinbaseDCA.

Lemma create_order_checked (side : Side) (pair : Pair) (qs : float)
    (w w1 w2 : World) (products : list pyval) (product : pyval) :
  list_products self w = (Ok products, w1) ->
  py_in (Pair_value pair) products = true ->
  get_product self pair w1 = (Ok product, w2) ->
  create_order self side pair qs w =
  match order_checks side qs product with
  | Err e => (Err e, w2)
  | Ok (pa, bs) =>
      _request self POST "orders"
        (json_dumps (order_body side pair
                       (uuid4_int (urandom w2 (urandom_reads w2))) pa bs))
        (draw w2)
  end.
Proof.
  intros Hlist Hin Hget. rewrite create_order_run, Hlist, Hin, Hget. reflexivity.
Qed.

Lemma zero_price_adjusted (side : Side) (product : pyval) (qi p : float) (n : Z) :
  float_item product "quote_increment" = Ok qi ->
  _get_currency_sigfigs qi = Ok n ->
  float_item product "price" = Ok p ->
  (p =? 0)%float = true ->
  exists pa, price_adjusted side product = Ok pa /\ (pa =? 0)%float = true.
Proof.
  intros Hqi Hn Hp Hz.
  rewrite (price_adjusted_eq side product qi p n Hqi Hn Hp).
  destruct (float_eqb_zero p Hz) as [-> | ->]; destruct side;
    eexists; split; reflexivity.
Qed.

End Checked.

(** X6. A product whose adjusted price is zero, as it is when the price the
    exchange returns is zero, makes [create_order] raise [ZeroDivisionError]
    at the division of line 80: the call ends after the two GET requests and
    no order is sent. *)
Theorem X6_zero_price_divides_by_zero :
  forall (platform : Platform) (self : CoinbaseDCA) (side : Side) (pair : Pair)
         (qs : float) (w w1 w2 : World) (products : list pyval)
         (product : pyval) (qmin qmax qi bi : float) (n m : Z),
    list_products self w = (Ok products, w1) ->
    py_in (Pair_value pair) products = true ->
    get_product self pair w1 = (Ok product, w2) ->
    float_item product "quote_min_size" = Ok qmin ->
    float_item product "quote_max_size" = Ok qmax ->
    (qmin <=? qs)%float = true ->
    (qs <=? qmax)%float = true ->
    float_item product "quote_increment" = Ok qi ->
    _get_currency_sigfigs qi = Ok n ->
    float_item product "base_increment" = Ok bi ->
    _get_currency_sigfigs bi = Ok m ->
    (forall pa : float,
        price_adjusted side product = Ok pa ->
        (pa =? 0)%float = true ->
        create_order self side pair qs w = (Err ZeroDivisionError, w2))
    /\ (forall p : float,
        float_item product "price" = Ok p ->
        (p =? 0)%float = true ->
        create_order self side pair qs w = (Err ZeroDivisionError, w2)).
Proof.
  intros platform self side pair qs w w1 w2 products product qmin qmax qi bi n m
    Hlist Hin Hget Hqmin Hqmax Lmin Lmax Hqi Hn Hbi Hm.
  assert (G : forall pa : float,
             price_adjusted side product = Ok pa ->
             (pa =? 0)%float = true ->
             create_order self side pair qs w = (Err ZeroDivisionError, w2)).
  { intros pa Hpa Hz.
    rewrite (create_order_checked self side pair qs w w1 w2 products product
               Hlist Hin Hget).
    unfold order_checks. rewrite Hqmin. cbn [rbind]. rewrite Lmin. cbn [negb].
    rewrite Hqmax. cbn [rbind]. rewrite Lmax. cbn [negb].
    rewrite Hpa. cbn [rbind].
    rewrite (base_size_rounded_eq qs pa product bi m Hbi Hm).
    unfold py_truediv. rewrite Hz. reflexivity. }
  split; [exact G|].
  intros p Hp Hz.
  destruct (zero_price_adjusted side product qi p n Hqi Hn Hp Hz) as (pa & P & Z).
  exact (G pa P Z).
Qed.

Lemma X6_witness :
  fst (@create_order Reference.platform Reference.dca SELL BTC_USD 10
         (Reference.world (Reference.exchange_with worthless_product)))
  = Err ZeroDivisionError.
Proof.
  pose (w := Reference.world (Reference.exchange_with worthless_product)).
  destruct (X6_zero_price_divides_by_zero Reference.platform Reference.dca SELL
              BTC_USD 10%float w
              (snd (@list_products Reference.platform Reference.dca w))
              (snd (@get_product Reference.platform Reference.dca BTC_USD
                      (snd (@list_products Reference.platform Reference.dca w))))
              [PStr "BTC-USD"; PStr "ETH-USD"] worthless_product
              1%float 10000000%float 0.01%float 0.00000001%float 2 8
              eq_refl eq_refl eq_refl eq_refl eq_refl eq_refl eq_refl
              eq_refl eq_refl eq_refl eq_refl)
    as [_ H].
  fold w. rewrite (H 0%float eq_refl eq_refl). reflexivity.
Defined.

(** X7. A NaN never passes a check: an increment that is NaN fails the
    assertion of line 139, and a spend amount or a [quote_min_size] that is
    NaN fails the assertion of line 67, so that no order is sent. *)
Theorem X7_nan_is_rejected :
  forall (platform : Platform) (self : CoinbaseDCA),
    (forall x : float,
        is_nan x = true ->
        _get_currency_sigfigs x = Err (AssertionError increment_positive))
    /\ (forall (side : Side) (pair : Pair) (qs : float) (w w1 w2 : World)
               (products : list pyval) (product : pyval) (qmin : float),
        list_products self w = (Ok products, w1) ->
        py_in (Pair_value pair) products = true ->
        get_product self pair w1 = (Ok product, w2) ->
        float_item product "quote_min_size" = Ok qmin ->
        is_nan qs = true \/ is_nan qmin = true ->
        create_order self side pair qs w = (Err (AssertionError quote_min), w2)).
Proof.
  intros platform self. split.
  - intros x H. unfold _get_currency_sigfigs.
    now rewrite (float_ltb_nan 0 x H).
  - intros side pair qs w w1 w2 products product qmin Hlist Hin Hget Hqmin Hnan.
    rewrite (create_order_checked self side pair qs w w1 w2 products product
               Hlist Hin Hget).
    unfold order_checks. rewrite Hqmin. cbn [rbind].
    rewrite (float_leb_nan qmin qs) by tauto. reflexivity.
Qed.

Lemma X7_witness :
  @_get_currency_sigfigs Reference.platform nan
  = Err (AssertionError increment_positive)
  /\ fst (@create_order Reference.platform Reference.dca BUY BTC_USD nan
            (Reference.world Reference.exchange))
     = Err (AssertionError quote_min).
Proof.
  destruct (X7_nan_is_rejected Reference.platform Reference.dca) as [A B].
  split.
  - apply A. reflexivity.
  - pose (w := Reference.world Reference.exchange).
    fold w.
    rewrite (B BUY BTC_USD nan w
               (snd (@list_products Reference.platform Reference.dca w))
               (snd (@get_product Reference.platform Reference.dca BTC_USD
                       (snd (@list_products Reference.platform Reference.dca w))))
               [PStr "BTC-USD"; PStr "ETH-USD"] Reference.product 1%float
               eq_refl eq_refl eq_refl eq_refl (or_introl eq_refl)).
    reflexivity.
Defined.

(** ** The identifier, continued *)

Lemma uuid4_collision (r r' : Z) :
  uuid4_int r = uuid4_int r' <->
  forall n, free_bit n = true -> Z.testbit r n = Z.testbit r' n.
Proof.
  unfold free_bit. split.
  - intros E n Hn.
    assert (Hpos : 0 <= n) by (destruct (Z.leb_spec 0 n); [lia|discriminate]).
    pose proof (f_equal (fun z => Z.testbit z n) E) as B. cbv beta in B.
    rewrite !uuid4_bit in B by lia.
    revert Hn B. split_comparisons; cbn; intros Hn B; congruence.
  - intros H. apply Z.bits_inj'. intros n Hn.
    rewrite !uuid4_bit by lia.
    specialize (H n). revert H.
    split_comparisons; cbn; intros F; try reflexivity; now apply F.
Qed.

Lemma uuid4_range (r : Z) : 0 <= uuid4_int r < 2 ^ 128.
Proof.
  assert (E : uuid4_int r = (uuid4_int r) mod 2 ^ 128).
  { rewrite <- Z.land_ones by lia. apply Z.bits_inj'. intros n Hn.
    rewrite Z.land_spec, Z.testbit_ones_nonneg, uuid4_bit by lia.
    split_comparisons; cbn; rewrite ?andb_true_r, ?andb_false_r; reflexivity. }
  rewrite E. apply Z.mod_pos_bound. lia.
Qed.

Lemma uuid4_variant_digit (r : Z) :
  8 <= Z.land (Z.shiftr (uuid4_int r) 60) 15 <= 11.
Proof.
  set (x := Z.land (Z.shiftr (uuid4_int r) 60) 15).
  assert (B : forall n, 0 <= n ->
              Z.testbit x n =
              if n =? 3 then true else if n =? 2 then false
              else (n <? 2) && Z.testbit r (n + 60)).
  { intros n Hn. unfold x.
    rewrite Z.land_spec, Z.shiftr_spec, uuid4_bit by lia.
    change 15 with (Z.ones 4). rewrite Z.testbit_ones_nonneg by lia.
    split_comparisons; cbn; rewrite ?andb_true_r, ?andb_false_r; reflexivity. }
  assert (E : x = 8 + 2 * Z.b2z (Z.testbit r 61) + Z.b2z (Z.testbit r 60)).
  { apply Z.bits_inj'. intros n Hn. rewrite B by lia.
    destruct (Z.testbit r 61) eqn:B1, (Z.testbit r 60) eqn:B0; cbn [Z.b2z];
      cbn [Z.add Z.mul Pos.add Pos.mul Pos.succ];
      (assert (n = 0 \/ n = 1 \/ n = 2 \/ n = 3 \/ 4 <= n) as [->|[->|[->|[->|G]]]]
         by lia);
      cbn [Z.eqb Z.ltb Z.compare Pos.compare Pos.compare_cont Z.add Pos.add andb];
      rewrite ?B0, ?B1; try reflexivity;
      (replace (n =? 3) with false by lia; replace (n =? 2) with false by lia;
       replace (n <? 2) with false by lia; cbn [andb];
       symmetry; apply Z.bits_above_log2; [lia|cbn; lia]). }
  rewrite E. destruct (Z.testbit r 61), (Z.testbit r 60); cbn; lia.
Qed.

Lemma hex_digit_variant (d : Z) :
  8 <= d <= 11 ->
  hex_digit d = "8"%char \/ hex_digit d = "9"%char
  \/ hex_digit d = "a"%char \/ hex_digit d = "b"%char.
Proof.
  intros H.
  assert (d = 8 \/ d = 9 \/ d = 10 \/ d = 11) as [->|[->|[->| ->]]] by lia; auto.
Qed.

Lemma str_uuid_form (i : Z) :
  String.length (str_uuid i) = 36%nat
  /\ get 8 (str_uuid i) = Some "-"%char
  /\ get 13 (str_uuid i) = Some "-"%char
  /\ get 18 (str_uuid i) = Some "-"%char
  /\ get 23 (str_uuid i) = Some "-"%char
  /\ get 14 (str_uuid i) = Some (hex_digit (Z.land (Z.shiftr i 76) 15))
  /\ get 19 (str_uuid i) = Some (hex_digit (Z.land (Z.shiftr i 60) 15)).
Proof.
  unfold str_uuid. cbv zeta. cbn [hex append substring String.length get].
  rewrite !Z.shiftr_shiftr by lia. cbn [Z.add Pos.add Pos.succ Pos.add_carry].
  repeat split; reflexivity.
Qed.

(** X8. [_generate_client_order_id] draws once from the random source and
    returns a 128-bit identifier whose string [str] has the canonical form of
    a version-4 UUID: 36 characters, hyphens after 8, 13, 18 and 23 of them,
    the version digit 4, a variant digit among 8, 9, a and b, and no
    character that JSON would escape. *)
Theorem X8_identifier_is_a_canonical_uuid4 :
  forall w : World,
    exists id : Z,
      _generate_client_order_id w = (Ok id, draw w)
      /\ id = uuid4_int (urandom w (urandom_reads w))
      /\ 0 <= id < 2 ^ 128
      /\ String.length (str_uuid id) = 36%nat
      /\ get 8 (str_uuid id) = Some "-"%char
      /\ get 13 (str_uuid id) = Some "-"%char
      /\ get 18 (str_uuid id) = Some "-"%char
      /\ get 23 (str_uuid id) = Some "-"%char
      /\ get 14 (str_uuid id) = Some "4"%char
      /\ (get 19 (str_uuid id) = Some "8"%char
          \/ get 19 (str_uuid id) = Some "9"%char
          \/ get 19 (str_uuid id) = Some "a"%char
          \/ get 19 (str_uuid id) = Some "b"%char)
      /\ escape (str_uuid id) = str_uuid id.
Proof.
  intros w. exists (uuid4_int (urandom w (urandom_reads w))).
  set (r := urandom w (urandom_reads w)).
  destruct (str_uuid_form (uuid4_int r)) as (L & D1 & D2 & D3 & D4 & V & T).
  refine (conj eq_refl (conj eq_refl (conj (uuid4_range r)
            (conj L (conj D1 (conj D2 (conj D3 (conj D4 (conj _ (conj _ _)))))))))).
  - rewrite V, uuid4_version. reflexivity.
  - rewrite T.
    destruct (hex_digit_variant _ (uuid4_variant_digit r)) as [->|[->|[->| ->]]];
      auto.
  - apply escape_plain, plain_str_uuid.
Qed.

(** X9. Two identifiers drawn one after the other are equal exactly when the
    two random draws agree on the 122 bits that the version and variant
    fields leave free. *)
Theorem X9_identifiers_collide_only_with_the_draws :
  forall (w w1 w2 : World) (id1 id2 : Z),
    _generate_client_order_id w = (Ok id1, w1) ->
    _generate_client_order_id w1 = (Ok id2, w2) ->
    (id1 = id2 <->
     forall n : Z,
       free_bit n = true ->
       Z.testbit (urandom w (urandom_reads w)) n
       = Z.testbit (urandom w (S (urandom_reads w))) n).
Proof.
  intros w w1 w2 id1 id2 H1 H2.
  unfold _generate_client_order_id, bind, os_urandom16, ret in H1, H2.
  inversion H1; subst id1 w1. inversion H2; subst id2 w2.
  cbn [urandom urandom_reads draw]. apply uuid4_collision.
Qed.

Lemma X9_witness :
  let w := Reference.world Reference.exchange in
  uuid4_int (urandom w (urandom_reads w))
  = uuid4_int (urandom w (S (urandom_reads w))).
Proof.
  intros w.
  apply (X9_identifiers_collide_only_with_the_draws w (draw w) (draw (draw w))
           _ _ eq_refl eq_refl).
  intros n _. reflexivity.
Defined.

(** ** The listing *)

Lemma product_ids_spec (items ids : list pyval) :
  product_ids items = Ok ids <->
  Forall2 (fun item id => py_getitem item "product_id" = Ok id) items ids.
Proof.
  revert ids. induction items as [|item items IH]; intros ids; cbn [product_ids].
  - split.
    + intros H; inversion H. constructor.
    + intros H; inversion H. reflexivity.
  - destruct (py_getitem item "product_id") as [id|e] eqn:G; cbn [rbind].
    + destruct (product_ids items) as [ids'|e] eqn:P; cbn [rbind].
      * split.
        -- intros H; inversion H; subst. constructor; [exact G|]. now apply IH.
        -- intros H; inversion H as [|? ? ? ? G' F]; subst.
           rewrite G in G'. inversion G'; subst.
           apply IH in F. now inversion F.
      * split; [discriminate|].
        intros H; inversion H as [|? ? ? ? G' F]; subst.
        apply IH in F. discriminate.
    + split; [discriminate|].
      intros H; inversion H as [|? ? ? ? G' F]; subst. congruence.
Qed.

Lemma py_in_spec (s : string) (l : list pyval) :
  py_in s l = true <-> In (PStr s) l.
Proof.
  unfold py_in. rewrite existsb_exists. split.
  - intros (v & I & E). destruct v; try discriminate.
    apply String.eqb_eq in E. now subst.
  - intros I. exists (PStr s). split; [exact I|apply String.eqb_refl].
Qed.

(** X10. When [list_products] returns, the reply to its request was not a
    401 and held a dict whose ['products'] could be iterated, every item of
    which had a ['product_id']: a single item without one fails the call.
    The result lists these identifiers in the order of the items, and a pair
    is in it exactly when some item has the pair's name as identifier. *)
Theorem X10_listing_identifiers :
  forall (platform : Platform) (self : CoinbaseDCA) (w w1 : World)
         (products : list pyval),
    list_products self w = (Ok products, w1) ->
    exists (status : Z) (response listed : pyval) (items : list pyval),
      server w (List.length (sent w)) = Reply status (Some response)
      /\ (status =? UNAUTHORIZED) = false
      /\ py_getitem response "products" = Ok listed
      /\ py_iter listed = Ok items
      /\ Forall2 (fun item id => py_getitem item "product_id" = Ok id)
           items products
      /\ List.length products = List.length items
      /\ forall pair : Pair,
           py_in (Pair_value pair) products = true <->
           exists item, In item items
                        /\ py_getitem item "product_id" = Ok (PStr (Pair_value pair)).
Proof.
  intros platform self w w1 products H.
  destruct (list_products_ok self _ _ _ H) as (t & [status response] & _ & S & U & L & _).
  cbn [fst snd] in *.
  unfold listing_ids in L.
  destruct (py_getitem response "products") as [listed|] eqn:G; cbn [rbind] in L;
    [|discriminate].
  destruct (py_iter listed) as [items|] eqn:I; cbn [rbind] in L; [|discriminate].
  apply product_ids_spec in L.
  exists status, response, listed, items.
  refine (conj S (conj U (conj G (conj I (conj L (conj _ _)))))).
  - symmetry. exact (Forall2_length L).
  - intros pair. rewrite py_in_spec. split.
    + intros HI. clear - L HI. induction L as [|item id items ids G F IH].
      * contradiction.
      * destruct HI as [->|HI].
        -- exists item. split; [left; reflexivity|exact G].
        -- destruct (IH HI) as (item' & I' & G'). exists item'. split; [now right|exact G'].
    + intros (item & HI & G'). clear - L HI G'.
      induction L as [|item0 id items ids G F IH].
      * contradiction.
      * destruct HI as [->|HI].
        -- left. congruence.
        -- right. now apply IH.
Qed.

Lemma X10_witness :
  exists items : list pyval,
    List.length items = 2%nat
    /\ Forall2 (fun item id => py_getitem item "product_id" = Ok id) items
         [PStr "BTC-USD"; PStr "ETH-USD"].
Proof.
  pose (w := Reference.world Reference.exchange).
  destruct (X10_listing_identifiers Reference.platform Reference.dca w
              (snd (@list_products Reference.platform Reference.dca w))
              [PStr "BTC-USD"; PStr "ETH-USD"] eq_refl)
    as (status & response & listed & items & _ & _ & _ & _ & F & L & _).
  exists items. split; [symmetry; exact L|exact F].
Defined.

(** ** The credentials *)

Lemma string_of_rev_cons (c : ascii) (line : list ascii) (s : string) :
  string_of_list_ascii (rev (c :: line)) ++ s
  = string_of_list_ascii (rev line) ++ String c s.
Proof.
  cbn [rev]. induction (rev line) as [|x l IH]; cbn; [reflexivity|now rewrite IH].
Qed.

Lemma append_empty (s : string) : s ++ "" = s.
Proof. induction s; cbn; congruence. Qed.

Lemma splitlines_from_head (s : string) (line : list ascii) (k : string)
    (ls : list string) :
  splitlines_from false line s = k :: ls ->
  exists pre rest : string,
    s = pre ++ rest
    /\ k = string_of_list_ascii (rev line) ++ pre
    /\ unbroken pre = true
    /\ (rest = "" \/ exists c r, rest = String c r /\ line_break c = true).
Proof.
  revert line. induction s as [|c s IH]; intros line; cbn [splitlines_from andb].
  - destruct line as [|x line]; [discriminate|].
    intros H; inversion H; subst.
    exists "", "". cbn [append unbroken]. rewrite append_empty. auto.
  - destruct (line_break c) eqn:B.
    + intros H; inversion H; subst.
      exists "", (String c s). cbn [append unbroken]. rewrite append_empty.
      repeat split; eauto.
    + intros H. destruct (IH _ H) as (pre & rest & -> & -> & U & R).
      exists (String c pre), rest. cbn [append unbroken]. rewrite B, U.
      repeat split; auto. apply string_of_rev_cons.
Qed.

Lemma splitlines_first (text k : string) (ls : list string) :
  splitlines text = k :: ls -> first_line_of text k.
Proof.
  intros H. destruct (splitlines_from_head _ _ _ _ H) as (pre & rest & -> & -> & U & R).
  cbn [rev string_of_list_ascii append]. split; [exact U|eauto].
Qed.

Lemma splitlines_from_line (s : string) (line : list ascii) :
  line <> [] -> splitlines_from false line s <> [].
Proof.
  revert line. induction s as [|c s IH]; intros line H; cbn [splitlines_from andb].
  - destruct line; [contradiction|discriminate].
  - destruct (line_break c); [discriminate|]. apply IH. discriminate.
Qed.

Lemma splitlines_empty (text : string) : splitlines text = [] <-> text = "".
Proof.
  split; [|intros ->; reflexivity].
  destruct text as [|c s]; [reflexivity|].
  unfold splitlines. cbn [splitlines_from andb].
  destruct (line_break c); [discriminate|].
  intros H. now apply splitlines_from_line in H.
Qed.

Lemma read_first_line_spec (h : Host) (name text : string) :
  files h name = Some text ->
  (text = "" -> read_first_line h name = Failed IndexError)
  /\ (text <> "" ->
      exists line, read_first_line h name = Done line /\ first_line_of text line).
Proof.
  intros F. unfold read_first_line. rewrite F. split.
  - intros ->. reflexivity.
  - intros N. destruct (splitlines text) as [|line ls] eqn:S.
    + apply splitlines_empty in S. contradiction.
    + exists line. split; [reflexivity|]. exact (splitlines_first _ _ _ S).
Qed.

(** X11. Run locally, [load_api_credentials] takes the key and the secret
    from the first lines of the files [api_key] and [api_secret]: each
    credential is the text of its file up to the first line break, which it
    does not contain, so a newline at the end of a file stays out of the
    credential, and nothing else is trimmed.  A file that cannot be read
    raises the error of [open], an empty file raises [IndexError], and the key
    file is read first. *)
Theorem X11_credentials_are_first_lines :
  forall h : Host,
    LOCAL_EXECUTION h = true ->
    (forall key_text secret_text : string,
        files h "api_key" = Some key_text ->
        files h "api_secret" = Some secret_text ->
        key_text <> "" ->
        secret_text <> "" ->
        exists c : CoinbaseApiCredentials,
          load_api_credentials h = Done c
          /\ first_line_of key_text (key c)
          /\ first_line_of secret_text (secret c))
    /\ (files h "api_key" = None ->
        load_api_credentials h = Failed FileNotFoundError)
    /\ (files h "api_key" = Some "" -> load_api_credentials h = Failed IndexError)
    /\ (forall key_text : string,
           files h "api_key" = Some key_text ->
           key_text <> "" ->
           (files h "api_secret" = None ->
            load_api_credentials h = Failed FileNotFoundError)
           /\ (files h "api_secret" = Some "" ->
               load_api_credentials h = Failed IndexError)).
Proof.
  intros h L. unfold load_api_credentials. rewrite L.
  refine (conj _ (conj _ (conj _ _))).
  - intros key_text secret_text FK FS NK NS.
    destruct (read_first_line_spec h _ _ FK) as [_ K].
    destruct (read_first_line_spec h _ _ FS) as [_ S].
    destruct (K NK) as (k & -> & HK). destruct (S NS) as (s & -> & HS).
    eexists. split; [reflexivity|]. cbn [key secret]. auto.
  - intros FK. unfold read_first_line. now rewrite FK.
  - intros FK. destruct (read_first_line_spec h _ _ FK) as [K _].
    now rewrite (K eq_refl).
  - intros key_text FK NK.
    destruct (read_first_line_spec h _ _ FK) as [_ K].
    destruct (K NK) as (k & -> & _). split.
    + intros FS. unfold read_first_line. now rewrite FS.
    + intros FS. destruct (read_first_line_spec h _ _ FS) as [S _].
      now rewrite (S eq_refl).
Qed.

Lemma X11_witness :
  exists c : CoinbaseApiCredentials,
    load_api_credentials
      (local_host (Some ("organizations/x/apiKeys/y" ++ newline ++ "a note"))
                  (Some ("hunter2" ++ newline)))
    = Done c
    /\ first_line_of ("organizations/x/apiKeys/y" ++ newline ++ "a note") (key c)
    /\ first_line_of ("hunter2" ++ newline) (secret c).
Proof.
  destruct (X11_credentials_are_first_lines
              (local_host (Some ("organizations/x/apiKeys/y" ++ newline ++ "a note"))
                          (Some ("hunter2" ++ newline)))
              eq_refl) as [H _].
  apply H; reflexivity || discriminate.
Defined.

(** ** The runs of the script *)

Section Returned.

Context {platform : Platform}.
Variable self : CoinbaseDCA.

Lemma order_run_done (side : Side) (pair : Pair) (qs : float) (w w' : World)
    (v : pyval) :
  order_run self side pair qs w (Ok v) w' ->
  (answered w (S (S (List.length (sent w)))) v /\ stdout w' = stdout w)
  \/ (v = PNone
      /\ stdout w' = (stdout w ++ [unauthorized_message])%list
      /\ exists data, server w (S (S (List.length (sent w)))) = Reply UNAUTHORIZED data).
Proof.
  intros R.
  inversion R as [| | | |
                  |response product products pa bs r w1 w2 w3 R1 L I R2 C R3]; subst.
  apply request_run_ok in R1. destruct R1 as (t1 & [(-> & _)|(-> & _)]);
    [rewrite listing_ids_None in L; discriminate|].
  apply request_run_ok in R2. destruct R2 as (t2 & [(-> & _)|(-> & _)]);
    [rewrite order_checks_None in C; discriminate|].
  apply request_run_ok in R3.
  assert (N : List.length (sent w ++ [signed_request self GET "products" "" t1]
                             ++ [signed_request self GET
                                   ("products/" ++ Pair_value pair) "" t2])%list
              = S (S (List.length (sent w)))).
  { rewrite !length_app. cbn [List.length]. lia. }
  cbn [draw send tick emit sent server stdout] in R3.
  rewrite <- app_assoc, N in R3.
  destruct R3 as (t3 & [(-> & -> & D)|(-> & A)]).
  - right. cbn [draw send tick emit sent server stdout]. auto.
  - left. split; [|reflexivity]. destruct A as (status & A & U).
    exists status. auto.
Qed.

End Returned.

Section Requests.

Context {platform : Platform}.
Variable self : CoinbaseDCA.

Lemma request_of_a_run (side : Side) (pair : Pair) (qs : float) (w : World)
    (i : nat) (q : HTTPRequest) :
  nth_error (sent (snd (create_order self side pair qs w))) i = Some q ->
  (List.length (sent w) <= i)%nat ->
  exists t : Z,
    (i = List.length (sent w) /\ q = listing_request self t)
    \/ (i = S (List.length (sent w)) /\ q = product_request self pair t)
    \/ (i = S (S (List.length (sent w)))
        /\ exists (product : pyval) (pa bs : float),
             answered w (S (List.length (sent w))) product
             /\ order_checks side qs product = Ok (pa, bs)
             /\ q = order_request self side pair
                      (uuid4_int (urandom w (urandom_reads w))) pa bs t).
Proof.
  intros Hq Hi.
  destruct (order_run_trace self _ _ _ _ _ _ (order_run_intro self side pair qs w))
    as [T _].
  destruct T as [HS _ _ _
                |t1 HS _ _ _
                |t1 t2 response _ HS _ _ _
                |t1 t2 response product pa bs _ _ _ HS _ _ _
                |t1 t2 t3 response product pa bs _ A2 C HS U _];
    rewrite HS in Hq;
    [apply nth_error_None in Hi; congruence|..];
    (apply nth_error_new in Hq; [|exact Hi]);
    remember (i - List.length (sent w))%nat as j eqn:Hj.
  - destruct j as [|j]; [|destruct j; discriminate].
    inversion Hq. exists t1. left. split; [lia|reflexivity].
  - destruct j as [|[|j]]; [| |destruct j; discriminate]; inversion Hq.
    + exists t1. left. split; [lia|reflexivity].
    + exists t2. right; left. split; [lia|reflexivity].
  - destruct j as [|[|j]]; [| |destruct j; discriminate]; inversion Hq.
    + exists t1. left. split; [lia|reflexivity].
    + exists t2. right; left. split; [lia|reflexivity].
  - destruct j as [|[|[|j]]]; [| | |destruct j; discriminate]; inversion Hq.
    + exists t1. left. split; [lia|reflexivity].
    + exists t2. right; left. split; [lia|reflexivity].
    + exists t3. right; right. split; [lia|].
      exists product, pa, bs. auto.
Qed.

End Requests.

Lemma read_first_line_done (h : Host) (name line : string) :
  read_first_line h name = Done line ->
  exists text, files h name = Some text /\ first_line_of text line.
Proof.
  unfold read_first_line. destruct (files h name) as [text|]; [|discriminate].
  destruct (splitlines text) as [|k ls] eqn:S; [discriminate|].
  intros H; inversion H; subst k. exists text. split; [reflexivity|].
  exact (splitlines_first _ _ _ S).
Qed.

Lemma os_environ_done (h : Host) (name value : string) :
  os_environ h name = Done value -> environ h name = Some value.
Proof.
  unfold os_environ. destruct (environ h name); [|discriminate].
  now intros H; inversion H.
Qed.

Lemma load_api_credentials_done (h : Host) (c : CoinbaseApiCredentials) :
  load_api_credentials h = Done c ->
  (LOCAL_EXECUTION h = true ->
   exists key_text secret_text : string,
     files h "api_key" = Some key_text
     /\ files h "api_secret" = Some secret_text
     /\ first_line_of key_text (key c)
     /\ first_line_of secret_text (secret c))
  /\ (LOCAL_EXECUTION h = false ->
      environ h "API_KEY" = Some (key c)
      /\ environ h "API_SECRET" = Some (secret c)).
Proof.
  unfold load_api_credentials. destruct (LOCAL_EXECUTION h).
  - destruct (read_first_line h "api_key") as [k|] eqn:K; [|discriminate].
    destruct (read_first_line h "api_secret") as [s|] eqn:S; [|discriminate].
    intros H; inversion H; subst c. cbn [key secret].
    split; [intros _|discriminate].
    destruct (read_first_line_done _ _ _ K) as (kt & FK & HK).
    destruct (read_first_line_done _ _ _ S) as (st & FS & HS).
    exists kt, st. auto.
  - destruct (os_environ h "API_KEY") as [k|] eqn:K; [|discriminate].
    destruct (os_environ h "API_SECRET") as [s|] eqn:S; [|discriminate].
    intros H; inversion H; subst c. cbn [key secret].
    split; [discriminate|intros _].
    split; now apply os_environ_done.
Qed.

Lemma trade_amount_done {platform : Platform} (h : Host) (amount : float) :
  trade_amount h = Done amount ->
  (LOCAL_EXECUTION h = true -> amount = 10.0%float)
  /\ (LOCAL_EXECUTION h = false ->
      exists a : string,
        environ h "BTC_USDC_AMOUNT" = Some a /\ str_to_float a = Some amount).
Proof.
  unfold trade_amount. destruct (LOCAL_EXECUTION h).
  - intros H; inversion H. split; [reflexivity|discriminate].
  - destruct (os_environ h "BTC_USDC_AMOUNT") as [a|] eqn:A; [|discriminate].
    cbn [py_float]. destruct (str_to_float a) as [f|] eqn:F; [|discriminate].
    intros H; inversion H; subst f. split; [discriminate|intros _].
    exists a. split; [now apply os_environ_done|exact F].
Qed.

(** What a run of the script comes to: either it fails before the class is
    used and leaves the world as it was, or it is a call of [create_order]
    for a purchase of BTC-USDC, followed by a [print] when that returns. *)
Lemma execute_dca_buy_cases {platform : Platform} (h : Host) (w : World) :
  (exists e, execute_dca_buy h w = (Failed e, w)
             /\ (load_api_credentials h = Failed e
                 \/ (exists c, load_api_credentials h = Done c)
                    /\ trade_amount h = Failed e))
  \/ exists (c : CoinbaseApiCredentials) (amount : float),
       load_api_credentials h = Done c
       /\ trade_amount h = Done amount
       /\ let run := create_order {| creds := c |} BUY BTC_USDC amount w in
          match fst run with
          | Ok response =>
              execute_dca_buy h w = (Done tt, emit (py_str response) (snd run))
          | Err e => execute_dca_buy h w = (Failed (Raised e), snd run)
          end.
Proof.
  unfold execute_dca_buy.
  destruct (load_api_credentials h) as [c|e]; [|left; eauto].
  destruct (trade_amount h) as [amount|e]; [|left; eauto 6].
  right. exists c, amount. split; [reflexivity|split; [reflexivity|]].
  cbv zeta.
  destruct (create_order {| creds := c |} BUY BTC_USDC amount w) as [[response|e] w'];
    reflexivity.
Qed.

Lemma read_first_line_failed (h : Host) (name : string) (e : script_exn) :
  read_first_line h name = Failed e ->
  (files h name = None /\ e = FileNotFoundError)
  \/ (files h name = Some "" /\ e = IndexError).
Proof.
  unfold read_first_line. destruct (files h name) as [text|].
  - destruct (splitlines text) as [|k ls] eqn:S; [|discriminate].
    apply splitlines_empty in S. subst text.
    intros H; inversion H. auto.
  - intros H; inversion H. auto.
Qed.

Lemma read_first_line_fails (h : Host) (name : string) :
  files h name = None \/ files h name = Some "" ->
  exists e, read_first_line h name = Failed e
            /\ (e = FileNotFoundError \/ e = IndexError).
Proof.
  unfold read_first_line. intros [-> | ->]; cbn; eauto.
Qed.

Lemma os_environ_failed (h : Host) (name : string) (e : script_exn) :
  os_environ h name = Failed e -> environ h name = None /\ e = Raised KeyError.
Proof.
  unfold os_environ. destruct (environ h name); [discriminate|].
  intros H; inversion H. auto.
Qed.

Section StartUp.

Context {platform : Platform}.

Lemma startup_failure (h : Host) (e : script_exn) :
  load_api_credentials h = Failed e
  \/ (exists c, load_api_credentials h = Done c) /\ trade_amount h = Failed e ->
  incomplete h
  /\ In e [FileNotFoundError; IndexError; Raised KeyError; Raised ValueError].
Proof.
  unfold incomplete, load_api_credentials, trade_amount.
  destruct (LOCAL_EXECUTION h).
  - intros [H|[_ H]]; [|discriminate].
    destruct (read_first_line h "api_key") as [k|e1] eqn:K.
    + destruct (read_first_line h "api_secret") as [s|e2] eqn:S; [discriminate|].
      inversion H; subst e2.
      apply read_first_line_failed in S. split.
      * exists "api_secret". split; [cbn; auto|tauto].
      * cbn. destruct S as [[_ ->]|[_ ->]]; auto.
    + inversion H; subst e1.
      apply read_first_line_failed in K. split.
      * exists "api_key". split; [cbn; auto|tauto].
      * cbn. destruct K as [[_ ->]|[_ ->]]; auto.
  - intros [H|[_ H]].
    + destruct (os_environ h "API_KEY") as [k|e1] eqn:K.
      * destruct (os_environ h "API_SECRET") as [s|e2] eqn:S; [discriminate|].
        inversion H; subst e2. apply os_environ_failed in S. destruct S as [S ->].
        split; [left; exists "API_SECRET"|]; cbn; auto.
      * inversion H; subst e1. apply os_environ_failed in K. destruct K as [K ->].
        split; [left; exists "API_KEY"|]; cbn; auto.
    + destruct (os_environ h "BTC_USDC_AMOUNT") as [a|e1] eqn:A.
      * cbn [py_float] in H. destruct (str_to_float a) eqn:F; [discriminate|].
        inversion H. apply os_environ_done in A.
        split; [right; exists a|]; cbn; auto.
      * inversion H; subst e1. apply os_environ_failed in A. destruct A as [A ->].
        split; [left; exists "BTC_USDC_AMOUNT"|]; cbn; auto 6.
Qed.

Lemma incomplete_fails (h : Host) :
  incomplete h ->
  exists e,
    load_api_credentials h = Failed e
    \/ (exists c, load_api_credentials h = Done c) /\ trade_amount h = Failed e.
Proof.
  unfold incomplete, load_api_credentials, trade_amount.
  destruct (LOCAL_EXECUTION h).
  - intros (name & [<-|[<-|[]]] & F).
    + destruct (read_first_line_fails _ _ F) as (e & -> & _). eauto.
    + destruct (read_first_line_fails _ _ F) as (e & -> & _).
      destruct (read_first_line h "api_key"); eauto.
  - unfold os_environ.
    intros [(name & [<-|[<-|[<-|[]]]] & ->)|(a & -> & F)].
    + eauto.
    + destruct (environ h "API_KEY"); eauto.
    + destruct (environ h "API_KEY"); [|eauto].
      destruct (environ h "API_SECRET"); eauto 6.
    + cbn [py_float]. rewrite F.
      destruct (environ h "API_KEY"); [|eauto].
      destruct (environ h "API_SECRET"); eauto 6.
Qed.

Variable self : CoinbaseDCA.

Lemma request_run_reads_clock (method : HTTPMethod) (resource body : string)
    (w w' : World) (r : result pyval) :
  request_run self method resource body w r w' ->
  (clock_reads w < clock_reads w')%nat.
Proof.
  intros R. destruct (request_run_effects self _ _ _ _ _ _ R) as (_ & _ & _ & _ & C & _).
  lia.
Qed.

Lemma order_run_reads_clock (side : Side) (pair : Pair) (qs : float)
    (w w' : World) (r : result pyval) :
  order_run self side pair qs w r w' -> (clock_reads w < clock_reads w')%nat.
Proof.
  intros R.
  destruct R as [e w1 R1
                |response e w1 R1
                |response products w1 R1
                |response products e w1 w2 R1 _ _ R2
                |response product products e w1 w2 R1 _ _ R2
                |response product products pa bs r w1 w2 w3 R1 _ _ R2 _ R3];
    apply request_run_reads_clock in R1;
    try apply request_run_reads_clock in R2;
    try apply request_run_reads_clock in R3;
    cbn [draw clock_reads] in *; lia.
Qed.

End StartUp.

(** X12. When the configuration of the host is incomplete (a credential
    file is missing or empty, one of the three environment variables is
    missing, or the amount is not a number) [execute_dca_buy] raises before
    it uses the class: the world is as it was, so nothing was sent or printed
    and the clock was not read.  The exception is that of the file, of the
    index, of the missing variable or of [float].  With a complete
    configuration the run goes on to [create_order], which reads the
    clock. *)
Theorem X12_incomplete_configuration_sends_nothing :
  forall (platform : Platform) (h : Host) (w : World),
    (incomplete h ->
     exists e : script_exn,
       execute_dca_buy h w = (Failed e, w)
       /\ In e [FileNotFoundError; IndexError; Raised KeyError; Raised ValueError])
    /\ (~ incomplete h ->
        (clock_reads w < clock_reads (snd (execute_dca_buy h w)))%nat).
Proof.
  intros platform h w. split.
  - intros I. destruct (execute_dca_buy_cases h w) as [(e & E & F)|(c & a & L & A & _)].
    + exists e. split; [exact E|]. exact (proj2 (startup_failure h e F)).
    + exfalso. destruct (incomplete_fails h I) as (e & [F|[_ F]]); congruence.
  - intros N. destruct (execute_dca_buy_cases h w) as [(e & E & F)|(c & a & L & A & R)].
    + exfalso. apply N. exact (proj1 (startup_failure h e F)).
    + cbv zeta in R.
      pose proof (order_run_reads_clock _ _ _ _ _ _ _
                    (order_run_intro {| creds := c |} BUY BTC_USDC a w)) as C.
      destruct (fst (create_order {| creds := c |} BUY BTC_USDC a w)); rewrite R;
        cbn [snd emit clock_reads]; exact C.
Qed.

Lemma X12_witness :
  exists e : script_exn,
    @execute_dca_buy Reference.platform
      (lambda_host [("API_KEY", "organizations/x/apiKeys/y");
                    ("API_SECRET", "hunter2");
                    ("BTC_USDC_AMOUNT", "ten")])
      (Reference.world usdc_exchange)
    = (Failed e, Reference.world usdc_exchange).
Proof.
  destruct (X12_incomplete_configuration_sends_nothing Reference.platform
              (lambda_host [("API_KEY", "organizations/x/apiKeys/y");
                            ("API_SECRET", "hunter2");
                            ("BTC_USDC_AMOUNT", "ten")])
              (Reference.world usdc_exchange)) as [F _].
  destruct F as (e & E & _).
  - right. exists "ten". split; reflexivity.
  - exists e. exact E.
Defined.

(** X13. What a run of the script leaves on the standard output.  When it
    ends without an exception, the last line is the reply to the order as
    [print] writes it; after a 401 on the order that line is [None], below
    the line about the API key.  When it ends with an exception, nothing was
    printed, unless the exception is the [TypeError] that follows a 401 on one
    of the two GET requests: then the line about the API key is all that was
    printed.  [lambda_handler] makes no use of its two arguments. *)
Theorem X13_what_a_run_prints :
  forall (platform : Platform) (event context : pyval) (h : Host) (w : World),
    let run := lambda_handler event context h w in
    let third := S (S (List.length (sent w))) in
    (fst run = Done tt ->
     (exists response : pyval,
         answered w third response
         /\ stdout (snd run) = (stdout w ++ [py_str response])%list)
     \/ ((exists data, server w third = Reply UNAUTHORIZED data)
         /\ stdout (snd run) = (stdout w ++ [unauthorized_message; "None"])%list))
    /\ (forall e : script_exn,
           fst run = Failed e ->
           stdout (snd run) = stdout w
           \/ (stdout (snd run) = (stdout w ++ [unauthorized_message])%list
               /\ e = Raised TypeError
               /\ exists (i : nat) (data : option pyval),
                    (i < 2)%nat
                    /\ server w (i + List.length (sent w)) = Reply UNAUTHORIZED data)).
Proof.
  intros platform event context h w run third. unfold run, lambda_handler.
  destruct (execute_dca_buy_cases h w) as [(e & -> & _)|(c & a & _ & _ & R)].
  - split; [discriminate|]. intros e' _. left. reflexivity.
  - cbv zeta in R.
    pose proof (order_run_intro {| creds := c |} BUY BTC_USDC a w) as O.
    destruct (create_order {| creds := c |} BUY BTC_USDC a w) as [[response|e] w'];
      cbn [fst snd] in R, O; rewrite R; cbn [fst snd]; (split; [|discriminate || idtac]).
    + intros _. destruct (order_run_done _ _ _ _ _ _ _ O) as [[A S]|(-> & S & D)].
      * left. exists response. split; [exact A|]. cbn [emit stdout]. now rewrite S.
      * right. split; [exact D|]. cbn [emit stdout py_str py_repr]. rewrite S.
        now rewrite <- app_assoc.
    + discriminate.
    + intros e' E. inversion E; subst e'.
      destruct (order_run_trace _ _ _ _ _ _ _ O) as [T _].
      destruct T as [_ HO _ _
                    |t1 _ _ _ L
                    |t1 t2 response _ _ _ _ L
                    |t1 t2 response product pa bs _ _ _ _ _ HO _
                    |t1 t2 t3 response product pa bs _ _ _ _ _ L];
        try (left; exact HO).
      * destruct L as [[L _]|(L & J & D)]; [left; exact L|right].
        inversion J. split; [exact L|split; [reflexivity|]].
        destruct D as [data D]. exists 0%nat, data. split; [lia|exact D].
      * destruct L as [[L _]|(L & J & D)]; [left; exact L|right].
        inversion J. split; [exact L|split; [reflexivity|]].
        destruct D as [data D]. exists 1%nat, data. split; [lia|exact D].
      * destruct L as [[L _]|(L & J & D)]; [left; exact L|discriminate].
Qed.

Lemma X13_witness :
  stdout (snd (@lambda_handler Reference.platform PNone PNone
                 (local_host (Some ("organizations/x/apiKeys/y" ++ newline))
                             (Some ("hunter2" ++ newline)))
                 (Reference.world usdc_exchange)))
  = ["{'success': True}"].
Proof.
  destruct (X13_what_a_run_prints Reference.platform PNone PNone
              (local_host (Some ("organizations/x/apiKeys/y" ++ newline))
                          (Some ("hunter2" ++ newline)))
              (Reference.world usdc_exchange)) as [D _].
  destruct (D eq_refl) as [(response & (status & A & _) & S)|((data & U) & _)].
  - vm_compute in A. inversion A; subst. exact S.
  - vm_compute in U. discriminate.
Defined.

(** X14. Every request that a run of the script sends is one of the three
    requests of a purchase of BTC-USDC, in their order, and carries the key
    that [load_api_credentials] returned and a signature under its secret:
    run locally these are the first lines of the two files and the amount is
    10.0, otherwise they are the variables [API_KEY] and [API_SECRET] as they
    stand and the amount is [BTC_USDC_AMOUNT] read as a float.  A POST among
    them is a BUY of BTC-USDC whose sizes passed the checks for that
    amount. *)
Theorem X14_every_request_of_a_run :
  forall (platform : Platform) (event context : pyval) (h : Host) (w : World)
         (i : nat) (q : HTTPRequest),
    nth_error (sent (snd (lambda_handler event context h w))) i = Some q ->
    (List.length (sent w) <= i)%nat ->
    exists (c : CoinbaseApiCredentials) (amount : float),
      load_api_credentials h = Done c
      /\ (if LOCAL_EXECUTION h then
            amount = 10.0%float
            /\ exists key_text secret_text : string,
                 files h "api_key" = Some key_text
                 /\ files h "api_secret" = Some secret_text
                 /\ first_line_of key_text (key c)
                 /\ first_line_of secret_text (secret c)
          else
            environ h "API_KEY" = Some (key c)
            /\ environ h "API_SECRET" = Some (secret c)
            /\ exists a : string,
                 environ h "BTC_USDC_AMOUNT" = Some a
                 /\ str_to_float a = Some amount)
      /\ header "CB-ACCESS-KEY" (req_headers q) = Some (key c)
      /\ (exists t : Z, signed_at {| creds := c |} t q)
      /\ nth_error (calls_of_order BTC_USDC) (i - List.length (sent w))
         = Some (call_of q)
      /\ (req_method q = "POST" ->
          exists (product : pyval) (pa bs : float),
            answered w (S (List.length (sent w))) product
            /\ order_checks BUY amount product = Ok (pa, bs)
            /\ req_body q
               = order_text (str_uuid (uuid4_int (urandom w (urandom_reads w))))
                   "BUY" "BTC-USDC" (str_float pa) (str_float bs)).
Proof.
  intros platform event context h w i q Hq Hi. unfold lambda_handler in Hq.
  destruct (execute_dca_buy_cases h w) as [(e & E & _)|(c & a & L & A & R)].
  - rewrite E in Hq. cbn [snd] in Hq.
    apply nth_error_None in Hi. congruence.
  - cbv zeta in R.
    assert (Hq' : nth_error (sent (snd (create_order {| creds := c |} BUY BTC_USDC a w))) i
                  = Some q).
    { destruct (fst (create_order {| creds := c |} BUY BTC_USDC a w));
        rewrite R in Hq; exact Hq. }
    clear Hq R.
    exists c, a. split; [exact L|].
    split.
    { destruct (load_api_credentials_done h c L) as [L1 L2].
      destruct (trade_amount_done h a A) as [A1 A2].
      destruct (LOCAL_EXECUTION h).
      - split; [now apply A1|now apply L1].
      - destruct (L2 eq_refl) as [K S]. auto. }
    destruct (request_of_a_run _ _ _ _ _ _ _ Hq' Hi)
      as (t & [[-> ->]|[[-> ->]|(-> & product & pa & bs & P & C & ->)]]).
    + split; [reflexivity|]. split; [exists t; apply signed_request_signed|].
      split; [now rewrite Nat.sub_diag|discriminate].
    + split; [reflexivity|]. split; [exists t; apply signed_request_signed|].
      split; [|discriminate].
      replace (S (List.length (sent w)) - List.length (sent w))%nat with 1%nat by lia.
      reflexivity.
    + split; [reflexivity|]. split; [exists t; apply signed_request_signed|].
      split.
      * replace (S (S (List.length (sent w))) - List.length (sent w))%nat
          with 2%nat by lia.
        reflexivity.
      * intros _. exists product, pa, bs.
        split; [exact P|split; [exact C|]]. apply order_body_text.
Qed.

Lemma X14_witness :
  exists q : HTTPRequest,
    header "CB-ACCESS-KEY" (req_headers q) = Some "organizations/x/apiKeys/y"
    /\ call_of q = ("POST", "/api/v3/brokerage/orders").
Proof.
  pose (h := local_host (Some ("organizations/x/apiKeys/y" ++ newline))
                        (Some ("hunter2" ++ newline))).
  pose (w := Reference.world usdc_exchange).
  pose (q := @order_request Reference.platform
               {| creds := {| key := "organizations/x/apiKeys/y";
                              secret := "hunter2" |} |}
               BUY BTC_USDC (uuid4_int 0x12345678123456781234567812345678)
               49900 0.0002004 1700000000).
  assert (Hq : nth_error (sent (snd (@lambda_handler Reference.platform PNone PNone h w)))
                 2 = Some q)
    by (vm_compute; reflexivity).
  destruct (X14_every_request_of_a_run Reference.platform PNone PNone h w 2%nat q Hq
              (le_S _ _ (le_S _ _ (le_n 0%nat))))
    as (c & amount & L & _ & K & _ & N & _).
  exists q. split.
  - vm_compute in L. inversion L; subst c. exact K.
  - cbn in N. now inversion N.
Defined.

(** ** The clock readings of a run *)

Section Stamps.

Context {platform : Platform}.
Variable self : CoinbaseDCA.

Lemma stamped_refl (w : World) : stamped w w [].
Proof.
  repeat split.
  - now rewrite app_nil_r.
  - cbn. lia.
  - intros [|i] q H; discriminate.
Qed.

Lemma stamped_draw (w w' : World) (l : list HTTPRequest) :
  stamped w w' l -> stamped w (draw w') l.
Proof. intros H. exact H. Qed.

Lemma stamped_last (w w1 w2 : World) (l : list HTTPRequest) (method : HTTPMethod)
    (resource body : string) (r : result pyval) :
  stamped w w1 l ->
  request_run self method resource body w1 r w2 ->
  (exists q, stamped w w2 (l ++ [q]))
  \/ (exists e, r = Err e
                /\ py_int (clock w (clock_reads w + List.length l)%nat) = Err e
                /\ sent w2 = (sent w ++ l)%list
                /\ clock_reads w2 = S (clock_reads w + List.length l)).
Proof.
  intros (C & S1 & N & F) R.
  assert (G : forall t,
             py_int (clock w1 (clock_reads w1)) = Ok t ->
             fresh_stamps w (l ++ [signed_request self method resource body t])).
  { intros t E i q H.
    destruct (Nat.lt_ge_cases i (List.length l)) as [L|L].
    - rewrite nth_error_app1 in H by exact L. now apply F.
    - rewrite nth_error_app2 in H by exact L.
      destruct (i - List.length l)%nat as [|j] eqn:J; [|destruct j; discriminate].
      inversion H. exists t. split; [|reflexivity].
      assert (i = List.length l) as -> by lia.
      now rewrite <- N, <- C. }
  destruct R as [e E|t E S|t status data E S U|t status data E S U].
  - right. exists e. cbn [tick sent clock_reads]. rewrite <- N, <- C. auto.
  - left. eexists. repeat split; cbn [send tick emit clock sent clock_reads].
    + exact C.
    + now rewrite S1, app_assoc.
    + rewrite length_app in *. cbn [List.length] in *. lia.
    + now apply G.
  - left. eexists. repeat split; cbn [send tick emit clock sent clock_reads].
    + exact C.
    + now rewrite S1, app_assoc.
    + rewrite length_app in *. cbn [List.length] in *. lia.
    + now apply G.
  - left. eexists. repeat split; cbn [send tick emit clock sent clock_reads].
    + exact C.
    + now rewrite S1, app_assoc.
    + rewrite length_app in *. cbn [List.length] in *. lia.
    + now apply G.
Qed.

Lemma stamped_ok (w w1 w2 : World) (l : list HTTPRequest) (method : HTTPMethod)
    (resource body : string) (v : pyval) :
  stamped w w1 l ->
  request_run self method resource body w1 (Ok v) w2 ->
  exists q, stamped w w2 (l ++ [q]).
Proof.
  intros H R. destruct (stamped_last _ _ _ _ _ _ _ _ H R) as [G|(e & E & _)];
    [exact G|discriminate].
Qed.

Lemma order_run_stamped (side : Side) (pair : Pair) (qs : float) (w w' : World)
    (r : result pyval) :
  order_run self side pair qs w r w' ->
  exists l : list HTTPRequest,
    sent w' = (sent w ++ l)%list
    /\ fresh_stamps w l
    /\ (clock_reads w' = (clock_reads w + List.length l)%nat
        \/ (clock_reads w' = S (clock_reads w + List.length l)
            /\ exists e, r = Err e
                         /\ py_int (clock w (clock_reads w + List.length l)%nat)
                            = Err e)).
Proof.
  intros R.
  assert (last : forall w1 l m res b r0 w2,
             stamped w w1 l ->
             request_run self m res b w1 r0 w2 ->
             exists l : list HTTPRequest,
               sent w2 = (sent w ++ l)%list
               /\ fresh_stamps w l
               /\ (clock_reads w2 = (clock_reads w + List.length l)%nat
                   \/ (clock_reads w2 = S (clock_reads w + List.length l)
                       /\ exists e, r0 = Err e
                                    /\ py_int (clock w (clock_reads w
                                                        + List.length l)%nat)
                                       = Err e))).
  { intros w1 l m res b r0 w2 H R0.
    destruct (stamped_last _ _ _ _ _ _ _ _ H R0)
      as [(q & _ & S1 & N & F)|(e & E & P & S1 & N)].
    - eexists. split; [exact S1|split; [exact F|left; exact N]].
    - exists l. split; [exact S1|split; [apply H|right; eauto]]. }
  assert (done : forall w1 l,
             stamped w w1 l ->
             exists l : list HTTPRequest,
               sent w1 = (sent w ++ l)%list
               /\ fresh_stamps w l
               /\ (clock_reads w1 = (clock_reads w + List.length l)%nat
                   \/ (clock_reads w1 = S (clock_reads w + List.length l)
                       /\ exists e, r = Err e
                                    /\ py_int (clock w (clock_reads w
                                                        + List.length l)%nat)
                                       = Err e))).
  { intros w1 l (_ & S1 & N & F). exists l. auto. }
  pose proof (stamped_refl w) as H0.
  destruct R as [e w1 R1
                |response e w1 R1 _
                |response products w1 R1 _ _
                |response products e w1 w2 R1 _ _ R2
                |response product products e w1 w2 R1 _ _ R2 _
                |response product products pa bs r w1 w2 w3 R1 _ _ R2 _ R3].
  - exact (last _ _ _ _ _ _ _ H0 R1).
  - destruct (stamped_ok _ _ _ _ _ _ _ _ H0 R1) as [q1 H1]. exact (done _ _ H1).
  - destruct (stamped_ok _ _ _ _ _ _ _ _ H0 R1) as [q1 H1]. exact (done _ _ H1).
  - destruct (stamped_ok _ _ _ _ _ _ _ _ H0 R1) as [q1 H1].
    exact (last _ _ _ _ _ _ _ H1 R2).
  - destruct (stamped_ok _ _ _ _ _ _ _ _ H0 R1) as [q1 H1].
    destruct (stamped_ok _ _ _ _ _ _ _ _ H1 R2) as [q2 H2]. exact (done _ _ H2).
  - destruct (stamped_ok _ _ _ _ _ _ _ _ H0 R1) as [q1 H1].
    destruct (stamped_ok _ _ _ _ _ _ _ _ H1 R2) as [q2 H2].
    exact (last _ _ _ _ _ _ _ (stamped_draw _ _ _ H2) R3).
Qed.

End Stamps.

(** X15. [create_order] reads the clock once for each request, just before
    it sends it: the request sent after [i] others of the run carries, as its
    timestamp, the whole seconds of the reading made after [i] others, so no
    timestamp is kept from one request to the next.  The clock is read as
    many times as requests were sent, or once more when the last reading
    could not be turned into seconds; that error then ends the run. *)
Theorem X15_each_request_reads_the_clock_anew :
  forall (platform : Platform) (self : CoinbaseDCA) (side : Side) (pair : Pair)
         (qs : float) (w : World),
    let run := create_order self side pair qs w in
    exists l : list HTTPRequest,
      sent (snd run) = (sent w ++ l)%list
      /\ fresh_stamps w l
      /\ (clock_reads (snd run) = (clock_reads w + List.length l)%nat
          \/ (clock_reads (snd run) = S (clock_reads w + List.length l)
              /\ exists e, fst run = Err e
                           /\ py_int (clock w (clock_reads w + List.length l)%nat)
                              = Err e)).
Proof.
  intros platform self side pair qs w run.
  exact (order_run_stamped self side pair qs w _ _
           (order_run_intro self side pair qs w)).
Qed.
